(** * FleetLink backend: availability and booking-conflict engine

    A shallow embedding of the fleet booking service:
    - [utils/rideCalculations.js]: duration estimate, overlap test, end
      time, booking-time window;
    - the [Vehicle] and [Booking] schemas with their validators;
    - the route handlers [POST /api/vehicles], [GET /api/vehicles/available],
      [POST /api/bookings] and [PATCH /api/bookings/:id/status];
    - the handlers that read the store, [GET /api/vehicles],
      [GET /api/bookings] and [GET /api/bookings/:id];
    - the validators that the initialization script of the database sets
      on the two collections.

    Conventions.
    - A JavaScript string is the list of its UTF-16 code units.
    - An instant ([Date]) is its time value, an integer number of
      milliseconds.  A [Date] holds a time value of at most 8.64e15 in
      absolute value and is an Invalid Date beyond: [isValidDate].  The
      search can be asked for a window that ends beyond it, and fails; a
      commit cannot, its start being at most 365 days after the clock.
    - A JavaScript number that is not an instant is a rational.  Every
      finite double is one, and the only arithmetic performed on them
      (hours to milliseconds on a duration that is 0.5 or an integer
      below 24) is exact.
    - The two MongoDB collections are lists of documents in insertion
      order.  Storage failures are not represented. *)

From Stdlib Require Import ZArith NArith QArith List Bool String Ascii Lia Lqa.
From Stdlib Require Import Permutation DecimalString Qround.
Import ListNotations.

Local Open Scope string_scope.
Local Open Scope list_scope.
Local Open Scope Z_scope.

(** ** JavaScript values *)

Definition jsstring := list N.

(** An ASCII literal as a JavaScript string. *)
Definition lit (s : string) : jsstring :=
  map N_of_ascii (list_ascii_of_string s).

(** [a === b] on strings. *)
Fixpoint jsstring_eqb (a b : jsstring) : bool :=
  match a, b with
  | [], [] => true
  | x :: a', y :: b' => (x =? y)%N && jsstring_eqb a' b'
  | _, _ => false
  end.

(** [!x] for a value that is a string when it is present. *)
Definition falsy (x : option jsstring) : bool :=
  match x with
  | None => true
  | Some [] => true
  | Some (_ :: _) => false
  end.

(** The value a guard [if (x)] lets through: a string that is present and
    not empty. *)
Definition given (x : option jsstring) : option jsstring :=
  if falsy x then None else x.

(** The outcome of a call that may [throw]. *)
Inductive completion (A : Type) : Type :=
| Return (a : A)
| Throw (message : string).
Arguments Return {A} a.
Arguments Throw {A} message.

(** [String.prototype.trim]: white space and line terminators are removed
    from both ends. *)
Definition isWhiteSpace (c : N) : bool :=
  (existsb (N.eqb c)
     [9; 10; 11; 12; 13; 32; 160; 5760; 8232; 8233; 8239; 8287; 12288; 65279]
   || ((8192 <=? c) && (c <=? 8202)))%N.

Fixpoint trimStart (s : jsstring) : jsstring :=
  match s with
  | [] => []
  | c :: r => if isWhiteSpace c then trimStart r else s
  end.

Definition trimEnd (s : jsstring) : jsstring := rev (trimStart (rev s)).

Definition trim (s : jsstring) : jsstring := trimEnd (trimStart s).

(** No white space at the start: what [trimStart] leaves. *)
Definition noLeadingSpace (s : jsstring) : Prop :=
  match s with
  | [] => True
  | c :: _ => isWhiteSpace c = false
  end.

(** A JavaScript number: a rational, an infinity or [NaN]. *)
Inductive jsnum : Type :=
| NaN
| NegInfinity
| Finite (q : Q)
| PosInfinity.

(** [a <= b] on numbers; every comparison with [NaN] is false. *)
Definition num_leb (a b : jsnum) : bool :=
  match a, b with
  | NaN, _ | _, NaN => false
  | NegInfinity, _ => true
  | _, PosInfinity => true
  | Finite x, Finite y => Qle_bool x y
  | _, _ => false
  end.

Definition isNaN (a : jsnum) : bool :=
  match a with NaN => true | _ => false end.

(** A value carried by a JSON request body; [JObject] is any array or
    object. *)
Inductive jsval : Type :=
| JUndefined
| JNull
| JBoolean (b : bool)
| JNumber (q : Q)
| JString (s : jsstring)
| JObject.

(** [!v] *)
Definition not_ (v : jsval) : bool :=
  match v with
  | JUndefined | JNull => true
  | JBoolean b => negb b
  | JNumber q => Qeq_bool q 0
  | JString s => match s with [] => true | _ => false end
  | JObject => false
  end.

(** [\d] *)
Definition isDigit (c : N) : bool := ((48 <=? c) && (c <=? 57))%N.

(** [/^\d{6}$/.test(s)]: without the [m] flag [$] is the end of input. *)
Definition sixDigits (s : jsstring) : bool :=
  (List.length s =? 6)%nat && forallb isDigit s.

(** The same test on an argument that may be [null] or [undefined]; the
    regular expression is applied to the words "null" and "undefined",
    which it rejects. *)
Definition testSixDigits (x : option jsstring) : bool :=
  match x with
  | Some s => sixDigits s
  | None => false
  end.

(** [parseInt] on a string of decimal digits, the only strings that reach
    it behind the regular-expression guard. *)
Definition parseInt (s : jsstring) : Z :=
  fold_left (fun acc c => 10 * acc + (Z.of_N c - 48)) s 0.

Definition Math_max (a b : Q) : Q := if Qle_bool a b then b else a.

(** Conversion of a number to a time value: the fraction is dropped. *)
Definition toInteger (q : Q) : Z := Z.quot (Qnum q) (Z.pos (Qden q)).

Definition Math_floor (x : Q) : Z := Qfloor x.

(** [Math.round]: the nearest integer, a half going up. *)
Definition Math_round (x : Q) : Z := Qfloor (x + (1 # 2)).

(** The string of an integer, as a template literal writes it. *)
Definition decimal (n : Z) : jsstring := lit (NilZero.string_of_int (Z.to_int n)).

(** ** utils/rideCalculations.js *)

Definition calculateRideDuration (fromPincode toPincode : option jsstring)
  : completion Q :=
  if falsy fromPincode || falsy toPincode then
    Throw "Both from and to pincodes are required"
  else if negb (testSixDigits fromPincode) || negb (testSixDigits toPincode) then
    Throw "Pincodes must be exactly 6 digits"
  else
    match fromPincode, toPincode with
    | Some f, Some t =>
        let fromNum := parseInt f in
        let toNum := parseInt t in
        let duration := Z.abs (toNum - fromNum) mod 24 in
        Return (Math_max (inject_Z duration) (1 # 2))
    | _, _ => Throw "Both from and to pincodes are required"
    end.

Definition doTimeRangesOverlap (start1 end1 start2 end2 : Z) : bool :=
  (start1 <? end2) && (start2 <? end1).

(** The time value handed to [new Date]. *)
Definition calculateEndTime (startTime : Z) (durationHours : Q) : Z :=
  toInteger (inject_Z startTime + durationHours * 60 * 60 * 1000)%Q.

(** The largest time value of a [Date]; [new Date] of a time value
    beyond it, on either side, is an Invalid Date. *)
Definition maxTime : Z := 8640000000000000.

Definition isValidDate (t : Z) : bool := Z.abs t <=? maxTime.

Record TimeValidation := { isValid : bool; message : string }.

(** [now] is the reading of the clock taken by [new Date()]. *)
Definition validateBookingTime (now startTime : Z) : TimeValidation :=
  let maxAdvanceBooking := now + 365 * 24 * 60 * 60 * 1000 in
  if startTime <=? now then
    {| isValid := false; message := "Start time must be in the future" |}
  else if startTime >? maxAdvanceBooking then
    {| isValid := false; message := "Cannot book more than 1 year in advance" |}
  else
    {| isValid := true; message := "Valid booking time" |}.

(** ** Documents

    [models/Vehicle.js] and [models/Booking.js].  An [ObjectId] is the
    number its twelve bytes spell. *)

Definition ObjectId := N.

Record Vehicle := mkVehicle {
  v_id : ObjectId;
  name : jsstring;
  capacityKg : Q;
  tyres : Q;
  isActive : bool
}.

Inductive Status : Type := confirmed | in_progress | completed | cancelled.

Record Booking := mkBooking {
  b_id : ObjectId;
  vehicleId : ObjectId;
  customerId : jsstring;
  fromPincode : jsstring;
  toPincode : jsstring;
  startTime : Z;
  endTime : Z;
  estimatedRideDurationHours : Q;
  status : Status
}.

Record Store := mkStore {
  vehicles : list Vehicle;
  bookings : list Booking
}.

(** [['confirmed', 'in-progress', 'completed', 'cancelled'].includes(s)],
    with the member found. *)
Definition statusOfString (s : jsstring) : option Status :=
  if jsstring_eqb s (lit "confirmed") then Some confirmed
  else if jsstring_eqb s (lit "in-progress") then Some in_progress
  else if jsstring_eqb s (lit "completed") then Some completed
  else if jsstring_eqb s (lit "cancelled") then Some cancelled
  else None.

(** [status: { $in: ['confirmed', 'in-progress'] }] *)
Definition occupies (s : Status) : bool :=
  match s with
  | confirmed | in_progress => true
  | completed | cancelled => false
  end.

(** [b'] is [b] with a status that occupies the vehicle only if the
    status of [b] does. *)
Definition released (b' b : Booking) : Prop :=
  vehicleId b' = vehicleId b /\ startTime b' = startTime b
  /\ endTime b' = endTime b
  /\ (occupies (status b') = true -> occupies (status b) = true).

Definition status_eqb (a b : Status) : bool :=
  match a, b with
  | confirmed, confirmed | in_progress, in_progress
  | completed, completed | cancelled, cancelled => true
  | _, _ => false
  end.

(** A booking with its status erased: what a status update leaves alone. *)
Definition sameButStatus (a b : Booking) : Prop :=
  b_id a = b_id b /\ vehicleId a = vehicleId b /\ customerId a = customerId b
  /\ fromPincode a = fromPincode b /\ toPincode a = toPincode b
  /\ startTime a = startTime b /\ endTime a = endTime b
  /\ estimatedRideDurationHours a = estimatedRideDurationHours b.

(** What every booking made through the handlers looks like in a fleet:
    pincodes of six digits, a trimmed customer id that is not empty, a
    duration between half an hour and 23 hours, an end that is the start
    plus the duration, and a vehicle of the fleet that is active. *)
Definition wellFormedBooking (fleet : list Vehicle) (b : Booking) : Prop :=
  sixDigits (fromPincode b) = true /\ sixDigits (toPincode b) = true
  /\ customerId b <> [] /\ trim (customerId b) = customerId b
  /\ (1 # 2 <= estimatedRideDurationHours b <= 23)%Q
  /\ (inject_Z (endTime b)
      == inject_Z (startTime b) + estimatedRideDurationHours b * 3600000)%Q
  /\ startTime b < endTime b
  /\ (exists v, In v fleet /\ v_id v = vehicleId b /\ isActive v = true).

(** *** Schema validators

    Each returns the messages of the validators that fail, in the order
    of the schema paths; the document is valid when there is none. *)

Definition validateVehicle (v : Vehicle) : list string :=
  (match name v with
   | [] => ["Vehicle name is required"]
   | _ => if (100 <? List.length (name v))%nat
          then ["Vehicle name cannot exceed 100 characters"] else []
   end)
  ++ (if negb (Qle_bool 1 (capacityKg v)) then ["Capacity must be at least 1 kg"]
      else if negb (Qle_bool (capacityKg v) 50000)
           then ["Capacity cannot exceed 50,000 kg"] else [])
  ++ (if negb (Qle_bool 2 (tyres v)) then ["Vehicle must have at least 2 tyres"]
      else if negb (Qle_bool (tyres v) 18)
           then ["Vehicle cannot have more than 18 tyres"] else []).

Definition validatePincode (required : string) (p : jsstring) : list string :=
  match p with
  | [] => [required]
  | _ => if sixDigits p then [] else ["Pincode must be exactly 6 digits"]
  end.

(** [now] is the clock read by the [startTime] validator. *)
Definition validateBooking (now : Z) (b : Booking) : list string :=
  (match customerId b with
   | [] => ["Customer ID is required"]
   | _ => []
   end)
  ++ validatePincode "From pincode is required" (fromPincode b)
  ++ validatePincode "To pincode is required" (toPincode b)
  ++ (if startTime b >? now then [] else ["Start time must be in the future"])
  ++ (if Qle_bool (1 # 10) (estimatedRideDurationHours b) then []
      else ["Ride duration must be at least 0.1 hours"]).

(** The [pre('save')] hook of the booking schema. *)
Definition preSave (b : Booking) : Booking :=
  if negb (Qeq_bool (estimatedRideDurationHours b) 0) then
    mkBooking (b_id b) (vehicleId b) (customerId b) (fromPincode b) (toPincode b)
      (startTime b)
      (toInteger (inject_Z (startTime b)
                  + estimatedRideDurationHours b * 60 * 60 * 1000)%Q)
      (estimatedRideDurationHours b) (status b)
  else b.

(** The virtual [durationFormatted] of the booking schema. *)
Definition durationFormatted (b : Booking) : jsstring :=
  let hours := Math_floor (estimatedRideDurationHours b) in
  let minutes :=
    Math_round ((estimatedRideDurationHours b - inject_Z hours) * 60) in
  decimal hours ++ lit "h " ++ decimal minutes ++ lit "m".

(** ** Responses

    The status code and the payload the handlers send: 200 and 201 carry
    the payload, 400 is "Validation Error" (raised by the handler or by a
    schema), 404 "Not Found", 409 "Booking Conflict", 500 "Internal Server
    Error". *)

Record ConflictInfo := mkConflictInfo {
  c_id : ObjectId;
  c_startTime : Z;
  c_endTime : Z;
  c_route : jsstring
}.

Inductive Response (A : Type) : Type :=
| Success (code : Z) (payload : A)
| ValidationError (message : string)
| SchemaValidationError (details : list string)
| NotFoundError (message : string)
| ConflictError (conflictingBookings : list ConflictInfo)
| InternalError (message : string).
Arguments Success {A} code payload.
Arguments ValidationError {A} message.
Arguments SchemaValidationError {A} details.
Arguments NotFoundError {A} message.
Arguments ConflictError {A} conflictingBookings.
Arguments InternalError {A} message.

Definition isValidationError {A} (r : Response A) : bool :=
  match r with
  | ValidationError _ | SchemaValidationError _ => true
  | _ => false
  end.

Definition isSuccess {A} (r : Response A) : bool :=
  match r with Success _ _ => true | _ => false end.

(** ** The overlap query

    The filter both handlers give to [Booking.find]:
    [{ vehicleId, status: {$in: [...]}, $or: [{ startTime: {$lt: end},
    endTime: {$gt: start} }] }]. *)

Definition overlapFilter (vehicle : ObjectId) (start end_ : Z) (b : Booking) : bool :=
  (vehicleId b =? vehicle)%N
  && occupies (status b)
  && ((startTime b <? end_) && (endTime b >? start)).

Definition findOverlapping (bs : list Booking) (vehicle : ObjectId) (start end_ : Z)
  : list Booking :=
  filter (overlapFilter vehicle start end_) bs.

(** [`${booking.fromPincode} → ${booking.toPincode}`]; the arrow is U+2192. *)
Definition route (b : Booking) : jsstring :=
  fromPincode b ++ [32; 8594; 32]%N ++ toPincode b.

Definition conflictInfo (b : Booking) : ConflictInfo :=
  mkConflictInfo (b_id b) (startTime b) (endTime b) (route b).

(** ** Requests and the environment of a call *)

Record VehicleBody := mkVehicleBody {
  vb_name : jsval;
  vb_capacityKg : jsval;
  vb_tyres : jsval
}.

(** The query string of [GET /api/vehicles/available]. *)
Record AvailableQuery := mkAvailableQuery {
  q_capacityRequired : option jsstring;
  q_fromPincode : option jsstring;
  q_toPincode : option jsstring;
  q_startTime : option jsstring
}.

(** The body of [POST /api/bookings]; a field is a string when present. *)
Record BookingBody := mkBookingBody {
  body_vehicleId : option jsstring;
  body_fromPincode : option jsstring;
  body_toPincode : option jsstring;
  body_startTime : option jsstring;
  body_customerId : option jsstring
}.

(** What a call of [POST /api/bookings] draws from outside the store: the
    clock read by [validateBookingTime], the clock read later by the
    schema validator, and the [_id] generated for the new document. *)
Record BookingEnv := mkBookingEnv {
  clock : Z;
  saveClock : Z;
  newId : ObjectId
}.

(** The values the handler holds once its checks have passed (lines
    15-70 of [routes/bookings.js]). *)
Record Draft := mkDraft {
  d_vehicleId : ObjectId;
  d_customerId : jsstring;
  d_fromPincode : jsstring;
  d_toPincode : jsstring;
  d_startTime : Z;
  d_endTime : Z;
  d_duration : Q
}.

Record AvailableVehicle := mkAvailableVehicle {
  av_vehicle : Vehicle;
  av_estimatedRideDurationHours : Q;
  av_from : jsstring;
  av_to : jsstring;
  av_startTime : Z;
  av_endTime : Z
}.

Record Available := mkAvailable {
  availableVehicles : list AvailableVehicle;
  searchDuration : Q
}.

(** The fields of a vehicle that [populate('vehicleId', 'name capacityKg
    tyres')] puts in place of a booking's vehicle id. *)
Record VehicleRef := mkVehicleRef {
  ref_id : ObjectId;
  ref_name : jsstring;
  ref_capacityKg : Q;
  ref_tyres : Q
}.

(** A booking after [populate]: the vehicle is [null] when no vehicle has
    the id. *)
Record PopulatedBooking := mkPopulatedBooking {
  pb_booking : Booking;
  pb_vehicle : option VehicleRef
}.

(** The query string of [GET /api/bookings]. *)
Record ListQuery := mkListQuery {
  lq_customerId : option jsstring;
  lq_vehicleId : option jsstring;
  lq_status : option jsstring;
  lq_startDate : option jsstring;
  lq_endDate : option jsstring
}.

(** The filter object the handler builds: a key is absent ([None]) until
    the handler sets it. *)
Record BookingFilter := mkBookingFilter {
  f_customerId : option jsstring;
  f_vehicleId : option ObjectId;
  f_status : option Status;
  f_startTime_gte : option Z;
  f_startTime_lte : option Z
}.

(** The payload of a listing: [count] and the documents. *)
Record Listing (A : Type) := mkListing {
  count : nat;
  items : list A
}.
Arguments mkListing {A} count items.
Arguments count {A} l.
Arguments items {A} l.

(** An operation on the ledger. *)
Inductive Operation : Type :=
| commit (env : BookingEnv) (body : BookingBody)
| updateStatus (id : jsstring) (st : option jsstring).

(** A call of [POST /api/bookings] in flight: received, past its conflict
    query with [save] still to run, or answered. *)
Inductive Call : Type :=
| Received (env : BookingEnv) (body : BookingBody)
| Checked (env : BookingEnv) (d : Draft)
| Responded (r : Response Booking).

(** ** Sample data

    A runtime for the examples: 24-digit hexadecimal object ids, a few
    ISO dates with their time values, and [parseFloat] on unsigned
    decimal integers. *)

Module Sample.

Definition hexDigit (c : N) : option N :=
  (if (48 <=? c) && (c <=? 57) then Some (c - 48)
   else if (97 <=? c) && (c <=? 102) then Some (c - 87)
   else if (65 <=? c) && (c <=? 70) then Some (c - 55)
   else None)%N.

Fixpoint hexValue (s : jsstring) (acc : N) : option N :=
  match s with
  | [] => Some acc
  | c :: r =>
      match hexDigit c with
      | Some d => hexValue r (16 * acc + d)%N
      | None => None
      end
  end.

Definition castObjectId (s : jsstring) : option ObjectId :=
  if (List.length s =? 24)%nat then hexValue s 0%N else None.

Definition isoDates : list (string * Z) :=
  [ ("2029-05-31T23:00:00.000Z", 1874962800000);
    ("2029-06-02T10:00:00.000Z", 1875088800000);
    ("2029-06-02T10:30:00.000Z", 1875090600000);
    ("2029-06-02T11:00:00.000Z", 1875092400000);
    ("2029-06-02T12:00:00.000Z", 1875096000000);
    ("2030-06-01T00:00:00.000Z", 1906502400000);
    ("2030-07-06T00:00:00.000Z", 1909526400000);
    ("+275760-09-13T00:00:00.000Z", 8640000000000000) ].

Definition parseDate (s : jsstring) : option Z :=
  option_map snd (find (fun e => jsstring_eqb s (lit (fst e))) isoDates).

Definition parseFloat (s : jsstring) : jsnum :=
  match s with
  | [] => NaN
  | _ => if forallb isDigit s then Finite (inject_Z (parseInt s)) else NaN
  end.

(** 2029-06-01T00:00:00Z *)
Definition now : Z := 1874966400000.

Definition truckId : jsstring := lit "65a1b2c3d4e5f60718293a4b".
Definition retiredId : jsstring := lit "65a1b2c3d4e5f60718293a4c".
Definition unknownId : jsstring := lit "65a1b2c3d4e5f60718293a4d".

Definition truck : Vehicle :=
  mkVehicle 31453467242603790624579205707%N (lit "Test Truck") 5000 6 true.

Definition retired : Vehicle :=
  mkVehicle 31453467242603790624579205708%N (lit "Old Van") 1000 4 false.

Definition fleet : Store := mkStore [truck; retired] [].

Definition bookingA : ObjectId := 36405227399745311724175702529%N.
Definition bookingB : ObjectId := 36405227399745311724175702530%N.

Definition envA : BookingEnv := mkBookingEnv now (now + 5) bookingA.
Definition envB : BookingEnv := mkBookingEnv (now + 20) (now + 25) bookingB.

(** A ride of one hour from 10:00 on 2 June 2029. *)
Definition requestA : BookingBody :=
  mkBookingBody (Some truckId) (Some (lit "110001")) (Some (lit "110002"))
    (Some (lit "2029-06-02T10:00:00.000Z")) (Some (lit "customer-1")).

(** A ride of two hours from 10:30 the same day. *)
Definition requestB : BookingBody :=
  mkBookingBody (Some truckId) (Some (lit "110001")) (Some (lit "110003"))
    (Some (lit "2029-06-02T10:30:00.000Z")) (Some (lit "customer-2")).

(** The booking stored for [requestA] and the ledger that holds it. *)
Definition docA : Booking :=
  mkBooking bookingA (v_id truck) (lit "customer-1") (lit "110001") (lit "110002")
    1875088800000 1875092400000 1 confirmed.

Definition afterA : Store := mkStore [truck; retired] [docA].

(** The booking stored for [requestB] when nothing stands in its way. *)
Definition docB : Booking :=
  mkBooking bookingB (v_id truck) (lit "customer-2") (lit "110001") (lit "110003")
    1875090600000 1875097800000 2 confirmed.

(** What the handler holds for [requestA] and for [requestB] when it
    reaches its query. *)
Definition draftA : Draft :=
  mkDraft (v_id truck) (lit "customer-1") (lit "110001") (lit "110002")
    1875088800000 1875092400000 1.

Definition draftB : Draft :=
  mkDraft (v_id truck) (lit "customer-2") (lit "110001") (lit "110003")
    1875090600000 1875097800000 2.

Definition bookingAId : jsstring := lit "75a1b2c3d4e5f60718293a01".

(** Book, cancel, book the same hours again, then confirm the cancelled
    booking. *)
Definition reactivation : list Operation :=
  [ commit envA requestA;
    updateStatus bookingAId (Some (lit "cancelled"));
    commit envB requestB;
    updateStatus bookingAId (Some (lit "confirmed")) ].

(** The truck, one hour before [now]. *)
Definition pastRequest : BookingBody :=
  mkBookingBody (Some truckId) (Some (lit "110001")) (Some (lit "110002"))
    (Some (lit "2029-05-31T23:00:00.000Z")) (Some (lit "customer-3")).

(** The deactivated van, one hour before [now]. *)
Definition staleRetiredRequest : BookingBody :=
  mkBookingBody (Some retiredId) (Some (lit "110001")) (Some (lit "110002"))
    (Some (lit "2029-05-31T23:00:00.000Z")) (Some (lit "customer-3")).

(** The deactivated van, at a time inside the window. *)
Definition retiredRequest : BookingBody :=
  mkBookingBody (Some retiredId) (Some (lit "110001")) (Some (lit "110002"))
    (Some (lit "2029-06-02T10:00:00.000Z")) (Some (lit "customer-3")).

Definition search : AvailableQuery :=
  mkAvailableQuery (Some (lit "500")) (Some (lit "110001")) (Some (lit "110003"))
    (Some (lit "2029-06-02T11:00:00.000Z")).

(** A 1000 kg vehicle with a confirmed reservation from 10:00 to 12:00. *)
Definition smallTruck : Vehicle :=
  mkVehicle 31453467242603790624579205710%N (lit "Small Truck") 1000 4 true.

Definition morning : Store :=
  mkStore [smallTruck]
    [mkBooking bookingA (v_id smallTruck) (lit "customer-1") (lit "110001")
       (lit "110003") 1875088800000 1875096000000 2 confirmed].

(** Half an hour from 11:00, and one hour from 12:00. *)
Definition searchInside : AvailableQuery :=
  mkAvailableQuery (Some (lit "500")) (Some (lit "110001")) (Some (lit "110001"))
    (Some (lit "2029-06-02T11:00:00.000Z")).

Definition searchAdjacent : AvailableQuery :=
  mkAvailableQuery (Some (lit "500")) (Some (lit "110001")) (Some (lit "110002"))
    (Some (lit "2029-06-02T12:00:00.000Z")).

Definition halfKilogramVan : VehicleBody :=
  mkVehicleBody (JString (lit "Van")) (JNumber (1 # 2)) (JNumber 4).


(** The truck and the small truck, each with a confirmed reservation from
    10:00 on 2 June 2029. *)
Definition mixed : Store :=
  mkStore [truck; smallTruck]
    [docA;
     mkBooking bookingB (v_id smallTruck) (lit "customer-2") (lit "110001")
       (lit "110003") 1875088800000 1875096000000 2 confirmed].

(** A van that is not in the fleet yet, and the id generated for it. *)
Definition newVan : VehicleBody :=
  mkVehicleBody (JString (lit " New Van ")) (JNumber 800) (JNumber 4).

Definition newVanId : ObjectId := 31453467242603790624579205709%N.

(** The truck booked twice, by [requestA] and by [requestB]. *)
Definition bothBooked : Store := mkStore [truck; retired] [docA; docB].

(** The confirmed bookings of the truck that start at 10:30 or later. *)
Definition listQuery : ListQuery :=
  mkListQuery None (Some truckId) (Some (lit "confirmed"))
    (Some (lit "2029-06-02T10:30:00.000Z")) (Some (lit "")).

(** A query cast that leaves the customer id as it is, and a ledger kept
    in the order of creation. *)
Definition castCustomerId (s : jsstring) : jsstring := s.

Definition newestFirst (A : Type) (l : list A) : list A := rev l.

End Sample.

(** ** Route handlers *)

Section Routes.

(** Library functions the handlers call.  [castObjectId] is the
    conversion of a string to an [ObjectId], defined exactly where
    [mongoose.Types.ObjectId.isValid] holds; [parseDate] is the time
    value of [new Date(s)], absent when it is [NaN]; [parseFloat] is the
    global function. *)
Variable castObjectId : jsstring -> option ObjectId.
Variable parseDate : jsstring -> option Z.
Variable parseFloat : jsstring -> jsnum.

Set Default Proof Using "Type".

(** *** POST /api/vehicles *)

(** [new Vehicle({ name, capacityKg, tyres })]: the [trim] setter and the
    default of [isActive]. *)
Definition newVehicle (id : ObjectId) (n : jsstring) (c t : Q) : Vehicle :=
  mkVehicle id (trim n) c t true.

Definition postVehicle (id : ObjectId) (db : Store) (body : VehicleBody)
  : Response Vehicle * Store :=
  if not_ (vb_name body) || not_ (vb_capacityKg body) || not_ (vb_tyres body) then
    (ValidationError "Name, capacityKg, and tyres are required fields", db)
  else
    match vb_name body, vb_capacityKg body, vb_tyres body with
    | JString n, JNumber c, JNumber t =>
        let vehicle := newVehicle id (trim n) c t in
        match validateVehicle vehicle with
        | [] => (Success 201 vehicle, mkStore (vehicles db ++ [vehicle]) (bookings db))
        | details => (SchemaValidationError details, db)
        end
    | _, _, _ =>
        (ValidationError
           "Invalid data types: name must be string, capacityKg and tyres must be numbers",
         db)
    end.

(** *** GET /api/vehicles/available *)

(** [Vehicle.find({ capacityKg: { $gte: capacity }, isActive: true })] *)
Definition eligible (capacity : jsnum) (v : Vehicle) : bool :=
  num_leb capacity (Finite (capacityKg v)) && isActive v.

Definition getAvailableVehicles (now : Z) (db : Store) (query : AvailableQuery)
  : Response Available :=
  if falsy (q_capacityRequired query) || falsy (q_fromPincode query)
     || falsy (q_toPincode query) || falsy (q_startTime query) then
    ValidationError
      "capacityRequired, fromPincode, toPincode, and startTime are required"
  else
    match q_capacityRequired query, q_fromPincode query,
          q_toPincode query, q_startTime query with
    | Some capacityRequired, Some from, Some to, Some start =>
        let capacity := parseFloat capacityRequired in
        if isNaN capacity || num_leb capacity (Finite 0) then
          ValidationError "capacityRequired must be a positive number"
        else if negb (sixDigits from) || negb (sixDigits to) then
          ValidationError "Pincodes must be exactly 6 digits"
        else
          match parseDate start with
          | None =>
              ValidationError
                "Invalid startTime format. Use ISO date format (e.g., 2023-10-27T10:00:00Z)"
          | Some requestedStartTime =>
              if requestedStartTime <=? now then
                ValidationError "Start time must be in the future"
              else
                match calculateRideDuration (Some from) (Some to) with
                | Throw _ => InternalError "Failed to find available vehicles"
                | Return estimated =>
                    let requestedEndTime :=
                      calculateEndTime requestedStartTime estimated in
                    let eligibleVehicles := filter (eligible capacity) (vehicles db) in
                    if (List.length eligibleVehicles =? 0)%nat then
                      Success 200 (mkAvailable [] estimated)
                    else if negb (isValidDate requestedEndTime) then
                      (* [Booking.find] throws on an Invalid Date *)
                      InternalError "Failed to find available vehicles"
                    else
                      let availableVehicles :=
                        fold_left
                          (fun acc vehicle =>
                             let overlappingBookings :=
                               findOverlapping (bookings db) (v_id vehicle)
                                 requestedStartTime requestedEndTime in
                             if (List.length overlappingBookings =? 0)%nat then
                               acc ++ [mkAvailableVehicle vehicle estimated from to
                                         requestedStartTime requestedEndTime]
                             else acc)
                          eligibleVehicles [] in
                      Success 200 (mkAvailable availableVehicles estimated)
                end
          end
    | _, _, _, _ =>
        ValidationError
          "capacityRequired, fromPincode, toPincode, and startTime are required"
    end.

(** *** POST /api/bookings *)

(** Lines 15-70: the checks on the request, the lookup of the vehicle
    and the requested window. *)
Definition prepareBooking (now : Z) (db : Store) (body : BookingBody)
  : Response Booking + Draft :=
  if falsy (body_vehicleId body) || falsy (body_fromPincode body)
     || falsy (body_toPincode body) || falsy (body_startTime body)
     || falsy (body_customerId body) then
    inl (ValidationError
           "vehicleId, fromPincode, toPincode, startTime, and customerId are required")
  else
    match body_vehicleId body, body_fromPincode body, body_toPincode body,
          body_startTime body, body_customerId body with
    | Some vehicle, Some from, Some to, Some start, Some customer =>
        match castObjectId vehicle with
        | None => inl (ValidationError "Invalid vehicleId format")
        | Some id =>
            if negb (sixDigits from) || negb (sixDigits to) then
              inl (ValidationError "Pincodes must be exactly 6 digits")
            else
              match parseDate start with
              | None =>
                  inl (ValidationError
                         "Invalid startTime format. Use ISO date format (e.g., 2023-10-27T10:00:00Z)")
              | Some bookingStartTime =>
                  let timeValidation := validateBookingTime now bookingStartTime in
                  if negb (isValid timeValidation) then
                    inl (ValidationError (message timeValidation))
                  else
                    match find (fun v => (v_id v =? id)%N && isActive v) (vehicles db) with
                    | None => inl (NotFoundError "Vehicle not found or inactive")
                    | Some _ =>
                        match calculateRideDuration (Some from) (Some to) with
                        | Throw _ => inl (InternalError "Failed to create booking")
                        | Return estimated =>
                            inr (mkDraft id (trim customer) from to bookingStartTime
                                   (calculateEndTime bookingStartTime estimated)
                                   estimated)
                        end
                    end
              end
        end
    | _, _, _, _, _ =>
        inl (ValidationError
               "vehicleId, fromPincode, toPincode, startTime, and customerId are required")
    end.

(** [new Booking({...})]: the [trim] setters and the default status. *)
Definition newBooking (id : ObjectId) (d : Draft) : Booking :=
  mkBooking id (d_vehicleId d) (trim (d_customerId d))
    (trim (d_fromPincode d)) (trim (d_toPincode d))
    (d_startTime d) (d_endTime d) (d_duration d) confirmed.

(** Lines 78-103: the query inside the transaction and the 409 answer.
    [None] when no conflicting booking is found. *)
Definition checkConflicts (db : Store) (d : Draft) : option (Response Booking) :=
  let conflictingBookings :=
    findOverlapping (bookings db) (d_vehicleId d) (d_startTime d) (d_endTime d) in
  if (0 <? List.length conflictingBookings)%nat then
    Some (ConflictError (map conflictInfo conflictingBookings))
  else None.

(** Lines 105-127: validation, the [pre('save')] hook and the insertion. *)
Definition saveBooking (now : Z) (id : ObjectId) (db : Store) (d : Draft)
  : Response Booking * Store :=
  let booking := newBooking id d in
  match validateBooking now booking with
  | [] =>
      let savedBooking := preSave booking in
      (Success 201 savedBooking,
       mkStore (vehicles db) (bookings db ++ [savedBooking]))
  | details => (SchemaValidationError details, db)
  end.

(** The handler run without interruption. *)
Definition postBooking (env : BookingEnv) (db : Store) (body : BookingBody)
  : Response Booking * Store :=
  match prepareBooking (clock env) db body with
  | inl response => (response, db)
  | inr draft =>
      match checkConflicts db draft with
      | Some response => (response, db)
      | None => saveBooking (saveClock env) (newId env) db draft
      end
  end.

(** *** PATCH /api/bookings/:id/status *)

Definition setStatus (b : Booking) (s : Status) : Booking :=
  mkBooking (b_id b) (vehicleId b) (customerId b) (fromPincode b) (toPincode b)
    (startTime b) (endTime b) (estimatedRideDurationHours b) s.

(** [Booking.findByIdAndUpdate(id, { status }, { new: true })]: the
    updated document and the collection after the update. *)
Fixpoint findByIdAndUpdate (bs : list Booking) (id : ObjectId) (s : Status)
  : option (Booking * list Booking) :=
  match bs with
  | [] => None
  | b :: r =>
      if (b_id b =? id)%N then Some (setStatus b s, setStatus b s :: r)
      else
        match findByIdAndUpdate r id s with
        | Some (updated, r') => Some (updated, b :: r')
        | None => None
        end
  end.

Definition patchBookingStatus (db : Store) (id : jsstring) (st : option jsstring)
  : Response Booking * Store :=
  match castObjectId id with
  | None => (ValidationError "Invalid booking ID format", db)
  | Some oid =>
      match (if falsy st then None
             else match st with Some s => statusOfString s | None => None end) with
      | None =>
          (ValidationError
             "Invalid status. Must be one of: confirmed, in-progress, completed, cancelled",
           db)
      | Some s =>
          match findByIdAndUpdate (bookings db) oid s with
          | None => (NotFoundError "Booking not found", db)
          | Some (booking, bs) => (Success 200 booking, mkStore (vehicles db) bs)
          end
      end
  end.

(** ** The ledger as a state machine *)

Definition perform (db : Store) (op : Operation) : Store :=
  match op with
  | commit env body => snd (postBooking env db body)
  | updateStatus id st => snd (patchBookingStatus db id st)
  end.

Definition run (db : Store) (ops : list Operation) : Store :=
  fold_left perform ops db.

(** The states reached from an empty ledger, whatever the fleet. *)
Inductive reachable : Store -> Prop :=
| reachable_empty fleet : reachable (mkStore fleet [])
| reachable_step db op : reachable db -> reachable (perform db op).

(** An [updateStatus] that gives an occupying status to a booking that
    is completed or cancelled. *)
Definition reactivates (db : Store) (op : Operation) : bool :=
  match op with
  | commit _ _ => false
  | updateStatus id st =>
      match castObjectId id, st with
      | Some oid, Some s =>
          match statusOfString s, find (fun b => (b_id b =? oid)%N) (bookings db) with
          | Some new, Some b => occupies new && negb (occupies (status b))
          | _, _ => false
          end
      | _, _ => false
      end
  end.

Inductive reachableWithoutReactivation : Store -> Prop :=
| rwr_empty fleet : reachableWithoutReactivation (mkStore fleet [])
| rwr_step db op :
    reachableWithoutReactivation db ->
    reactivates db op = false ->
    reachableWithoutReactivation (perform db op).

(** Two reservations that hold the same vehicle at a common instant. *)
Definition doubleBooked (a b : Booking) : bool :=
  (vehicleId a =? vehicleId b)%N
  && occupies (status a) && occupies (status b)
  && doTimeRangesOverlap (startTime a) (endTime a) (startTime b) (endTime b).

(** The exhaustive pairwise scan of a ledger. *)
Fixpoint pairwiseScan (bs : list Booking) : bool :=
  match bs with
  | [] => true
  | a :: r => forallb (fun b => negb (doubleBooked a b)) r && pairwiseScan r
  end.

(** The occupying reservations of [vehicle] are pairwise non-overlapping. *)
Definition NoDoubleBooking (vehicle : ObjectId) (bs : list Booking) : Prop :=
  forall i j a b,
    i <> j ->
    nth_error bs i = Some a ->
    nth_error bs j = Some b ->
    vehicleId a = vehicle -> vehicleId b = vehicle ->
    occupies (status a) = true -> occupies (status b) = true ->
    doTimeRangesOverlap (startTime a) (endTime a) (startTime b) (endTime b) = false.

(** ** Concurrent calls of POST /api/bookings

    The handler gives up control at each [await], and other calls run
    between its conflict query (line 78) and its [save] (line 116).  A
    call is cut there, in two steps.  The query of a step sees the
    documents saved by the steps before it; the transaction around the
    two steps does not stop two calls from inserting two different
    documents. *)

Definition advance (db : Store) (t : Call) : Call * Store :=
  match t with
  | Received env body =>
      match prepareBooking (clock env) db body with
      | inl response => (Responded response, db)
      | inr draft =>
          match checkConflicts db draft with
          | Some response => (Responded response, db)
          | None => (Checked env draft, db)
          end
      end
  | Checked env draft =>
      let (response, db') := saveBooking (saveClock env) (newId env) db draft in
      (Responded response, db')
  | Responded _ => (t, db)
  end.

Fixpoint advanceAt (i : nat) (db : Store) (ts : list Call) : list Call * Store :=
  match ts, i with
  | [], _ => ([], db)
  | t :: r, O => let (t', db') := advance db t in (t' :: r, db')
  | t :: r, S k => let (r', db') := advanceAt k db r in (t :: r', db')
  end.

(** The calls [ts] run under a schedule: each entry names the call that
    takes its next step. *)
Definition interleave (schedule : list nat) (db : Store) (ts : list Call)
  : list Call * Store :=
  fold_left (fun st i => advanceAt i (snd st) (fst st)) schedule (ts, db).

(** The calls served one after the other, each to completion. *)
Fixpoint serve (db : Store) (calls : list (BookingEnv * BookingBody))
  : list (Response Booking) * Store :=
  match calls with
  | [] => ([], db)
  | (env, body) :: rest =>
      let (response, db') := postBooking env db body in
      let (responses, db'') := serve db' rest in
      (response :: responses, db'')
  end.

(** ** Reading the store

    [GET /api/vehicles], [GET /api/bookings] and [GET /api/bookings/:id].

    Two more library behaviours.  [castCustomerId] is the cast mongoose
    applies to a query value for the [customerId] path.  [newestFirst] is
    [sort({ createdAt: -1 })]: the creation stamps are not part of the
    documents here, so the order is some rearrangement of the
    documents. *)
Variable castCustomerId : jsstring -> jsstring.
Variable newestFirst : forall A : Type, list A -> list A.
Hypothesis newestFirst_permutation :
  forall (A : Type) (l : list A), Permutation (newestFirst A l) l.

(** [GET /api/vehicles] *)
Definition getVehicles (db : Store) : Response (Listing Vehicle) :=
  let vehicles := newestFirst Vehicle (filter isActive (vehicles db)) in
  Success 200 (mkListing (List.length vehicles) vehicles).

Definition vehicleRef (v : Vehicle) : VehicleRef :=
  mkVehicleRef (v_id v) (name v) (capacityKg v) (tyres v).

Definition populate (vs : list Vehicle) (b : Booking) : PopulatedBooking :=
  mkPopulatedBooking b
    (option_map vehicleRef (find (fun v => (v_id v =? vehicleId b)%N) vs)).

(** [GET /api/bookings/:id] *)
Definition getBooking (db : Store) (id : jsstring) : Response PopulatedBooking :=
  match castObjectId id with
  | None => ValidationError "Invalid booking ID format"
  | Some oid =>
      match find (fun b => (b_id b =? oid)%N) (bookings db) with
      | None => NotFoundError "Booking not found"
      | Some booking => Success 200 (populate (vehicles db) booking)
      end
  end.

(** Lines 161-211 of [routes/bookings.js]: the filter object, or the
    message of the 400 answer. *)
Definition buildFilter (query : ListQuery) : string + BookingFilter :=
  let filter := mkBookingFilter None None None None None in
  let filter :=
    if falsy (lq_customerId query) then filter
    else mkBookingFilter (lq_customerId query) (f_vehicleId filter)
           (f_status filter) (f_startTime_gte filter) (f_startTime_lte filter) in
  match (if falsy (lq_vehicleId query) then inr filter
         else
           match lq_vehicleId query with
           | Some vehicle =>
               match castObjectId vehicle with
               | None => inl "Invalid vehicleId format"
               | Some id =>
                   inr (mkBookingFilter (f_customerId filter) (Some id)
                          (f_status filter) (f_startTime_gte filter)
                          (f_startTime_lte filter))
               end
           | None => inr filter
           end) with
  | inl message => inl message
  | inr filter =>
      match (if falsy (lq_status query) then inr filter
             else
               match lq_status query with
               | Some st =>
                   match statusOfString st with
                   | None =>
                       inl "Invalid status. Must be one of: confirmed, in-progress, completed, cancelled"
                   | Some s =>
                       inr (mkBookingFilter (f_customerId filter) (f_vehicleId filter)
                              (Some s) (f_startTime_gte filter)
                              (f_startTime_lte filter))
                   end
               | None => inr filter
               end) with
      | inl message => inl message
      | inr filter =>
          if falsy (lq_startDate query) && falsy (lq_endDate query) then inr filter
          else
            match (if falsy (lq_startDate query) then inr None
                   else
                     match lq_startDate query with
                     | Some startDate =>
                         match parseDate startDate with
                         | None => inl "Invalid startDate format"
                         | Some start => inr (Some start)
                         end
                     | None => inr None
                     end) with
            | inl message => inl message
            | inr gte =>
                match (if falsy (lq_endDate query) then inr None
                       else
                         match lq_endDate query with
                         | Some endDate =>
                             match parseDate endDate with
                             | None => inl "Invalid endDate format"
                             | Some end_ => inr (Some end_)
                             end
                         | None => inr None
                         end) with
                | inl message => inl message
                | inr lte =>
                    inr (mkBookingFilter (f_customerId filter) (f_vehicleId filter)
                           (f_status filter) gte lte)
                end
            end
      end
  end.

(** [Booking.find(filter)]: a document matches when it agrees with every
    key the filter has. *)
Definition matchesFilter (filter : BookingFilter) (b : Booking) : bool :=
  match f_customerId filter with
  | Some c => jsstring_eqb (customerId b) (castCustomerId c)
  | None => true
  end
  && match f_vehicleId filter with
     | Some id => (vehicleId b =? id)%N
     | None => true
     end
  && match f_status filter with
     | Some s => status_eqb (status b) s
     | None => true
     end
  && match f_startTime_gte filter with
     | Some start => start <=? startTime b
     | None => true
     end
  && match f_startTime_lte filter with
     | Some end_ => startTime b <=? end_
     | None => true
     end.

(** [GET /api/bookings] *)
Definition getBookings (db : Store) (query : ListQuery)
  : Response (Listing PopulatedBooking) :=
  match buildFilter query with
  | inl message => ValidationError message
  | inr filter =>
      let bookings :=
        newestFirst PopulatedBooking
          (map (populate (vehicles db)) (List.filter (matchesFilter filter) (bookings db))) in
      Success 200 (mkListing (List.length bookings) bookings)
  end.

(** ** The collection validators

    The [$jsonSchema] validators that the initialization script of the
    database sets on the two collections.  The types and the required
    keys hold of every document here; what remains are the bounds and the
    pattern.  In the database's regular expressions [$] also matches
    before a final line feed. *)

Definition patternSixDigits (s : jsstring) : bool :=
  sixDigits s
  || match rev s with
     | 10%N :: r => sixDigits (rev r)
     | _ => false
     end.

Definition vehiclesValidator (v : Vehicle) : bool :=
  Qle_bool 1 (capacityKg v) && Qle_bool (capacityKg v) 50000
  && Qle_bool 2 (tyres v) && Qle_bool (tyres v) 18.

Definition bookingsValidator (b : Booking) : bool :=
  patternSixDigits (fromPincode b) && patternSixDigits (toPincode b)
  && Qle_bool (1 # 10) (estimatedRideDurationHours b).

(** Case analysis on the first [match] of the goal or of a hypothesis. *)
Ltac break_match :=
  match goal with
  | |- context [match ?x with _ => _ end] => destruct x eqn:?
  | H : context [match ?x with _ => _ end] |- _ => destruct x eqn:?
  end.

(** * Properties *)

(** ** Interval algebra and the estimator *)

(** Unit tests of [tests/rideCalculations.test.js]. *)
Example duration_110001_110002 :
  calculateRideDuration (Some (lit "110001")) (Some (lit "110002")) = Return 1%Q.
Proof. reflexivity. Qed.

Example duration_400001_400051 :
  calculateRideDuration (Some (lit "400001")) (Some (lit "400051")) = Return 2%Q.
Proof. reflexivity. Qed.

(** A difference of 24 leaves 0 after [% 24] and the floor applies; the
    test file expects 24 for this pair. *)
Example duration_110001_110025 :
  calculateRideDuration (Some (lit "110001")) (Some (lit "110025")) = Return (1 # 2).
Proof. reflexivity. Qed.

Example duration_same_pincode :
  calculateRideDuration (Some (lit "110001")) (Some (lit "110001")) = Return (1 # 2).
Proof. reflexivity. Qed.

Example duration_short_pincode :
  calculateRideDuration (Some (lit "12345")) (Some (lit "110001"))
  = Throw "Pincodes must be exactly 6 digits".
Proof. reflexivity. Qed.

Example duration_missing_pincode :
  calculateRideDuration None (Some (lit "110001"))
  = Throw "Both from and to pincodes are required".
Proof. reflexivity. Qed.

Example endTime_two_and_a_half_hours :
  calculateEndTime 1698400800000 (5 # 2) = 1698409800000.
Proof. reflexivity. Qed.

Lemma doTimeRangesOverlap_iff s1 e1 s2 e2 :
  doTimeRangesOverlap s1 e1 s2 e2 = true <-> s1 < e2 /\ s2 < e1.
Proof.
  unfold doTimeRangesOverlap.
  rewrite andb_true_iff, !Z.ltb_lt. tauto.
Qed.

Lemma doTimeRangesOverlap_sym s1 e1 s2 e2 :
  doTimeRangesOverlap s1 e1 s2 e2 = doTimeRangesOverlap s2 e2 s1 e1.
Proof. unfold doTimeRangesOverlap. apply andb_comm. Qed.

Lemma doTimeRangesOverlap_refl s e : s < e -> doTimeRangesOverlap s e s e = true.
Proof. intros H. apply doTimeRangesOverlap_iff. lia. Qed.

(** C5. The overlap test is true exactly when [s1 < e2] and [s2 < e1];
    an interval that ends at [t] does not overlap one that starts at [t]. *)
Theorem overlap_is_half_open :
  (forall s1 e1 s2 e2,
     doTimeRangesOverlap s1 e1 s2 e2 = true <-> s1 < e2 /\ s2 < e1)
  /\ (forall s t e, doTimeRangesOverlap s t t e = false).
Proof.
  split.
  - exact doTimeRangesOverlap_iff.
  - intros s t e. unfold doTimeRangesOverlap.
    rewrite (Z.ltb_irrefl t). apply andb_false_r.
Qed.

(** X2. The overlap test is symmetric, and an interval of positive
    length overlaps itself. *)
Theorem overlap_symmetric_reflexive :
  (forall s1 e1 s2 e2,
     doTimeRangesOverlap s1 e1 s2 e2 = doTimeRangesOverlap s2 e2 s1 e1)
  /\ (forall s e, s < e -> doTimeRangesOverlap s e s e = true).
Proof.
  split.
  - exact doTimeRangesOverlap_sym.
  - exact doTimeRangesOverlap_refl.
Qed.

Lemma sixDigits_not_falsy s : sixDigits s = true -> falsy (Some s) = false.
Proof.
  destruct s as [|c r]; [discriminate | reflexivity].
Qed.

Lemma Math_max_lower a b : (b <= Math_max a b)%Q.
Proof.
  unfold Math_max. destruct (Qle_bool a b) eqn:E.
  - apply Qle_refl.
  - apply Qlt_le_weak. apply Qnot_le_lt. intros H.
    apply Qle_bool_iff in H. congruence.
Qed.

Lemma calculateRideDuration_sixDigits f t :
  sixDigits f = true -> sixDigits t = true ->
  calculateRideDuration (Some f) (Some t)
  = Return (Math_max (inject_Z (Z.abs (parseInt t - parseInt f) mod 24)) (1 # 2)).
Proof.
  intros Hf Ht. unfold calculateRideDuration.
  rewrite (sixDigits_not_falsy f Hf), (sixDigits_not_falsy t Ht).
  simpl. rewrite Hf, Ht. reflexivity.
Qed.

Lemma Qle_bool_false x y : Qle_bool x y = false <-> (y < x)%Q.
Proof.
  split.
  - intros H. apply Qnot_le_lt. intros L. apply Qle_bool_iff in L. congruence.
  - intros H. destruct (Qle_bool x y) eqn:E; [|reflexivity].
    apply Qle_bool_iff in E. apply Qlt_not_le in H. contradiction.
Qed.

Lemma toInteger_whole q z : (q == inject_Z z)%Q -> toInteger q = z.
Proof.
  unfold Qeq, toInteger. simpl. intros H. rewrite Z.mul_1_r in H. rewrite H.
  apply Z.quot_mul. discriminate.
Qed.

(** When the duration is a whole number of milliseconds the end time is
    the start plus that number. *)
Lemma calculateEndTime_whole t d m :
  (d * 60 * 60 * 1000 == inject_Z m)%Q -> calculateEndTime t d = t + m.
Proof.
  intros H. unfold calculateEndTime. apply toInteger_whole.
  rewrite H, inject_Z_plus. reflexivity.
Qed.

(** Every estimate is a positive whole number of milliseconds: half an
    hour, or between one and twenty-three hours. *)
Lemma estimate_in_milliseconds k :
  0 <= k ->
  exists m,
    0 < m /\ (Math_max (inject_Z k) (1 # 2) * 60 * 60 * 1000 == inject_Z m)%Q.
Proof.
  intros Hk. unfold Math_max.
  destruct (Qle_bool (inject_Z k) (1 # 2)) eqn:E.
  - exists 1800000. split; [lia | reflexivity].
  - exists (k * 3600000). apply Qle_bool_false in E.
    assert (0 < k).
    { destruct (Z.eq_dec k 0) as [->|]; [|lia].
      exfalso. revert E. compute. discriminate. }
    split; [lia|].
    rewrite inject_Z_mult. ring.
Qed.

Lemma estimated_window f to t :
  sixDigits f = true -> sixDigits to = true ->
  exists d m,
    calculateRideDuration (Some f) (Some to) = Return d
    /\ 0 < m
    /\ (d * 60 * 60 * 1000 == inject_Z m)%Q
    /\ calculateEndTime t d = t + m.
Proof.
  intros Hf Hto.
  destruct (estimate_in_milliseconds (Z.abs (parseInt to - parseInt f) mod 24))
    as (m & Hm & Hd).
  { apply Z.mod_pos_bound. lia. }
  exists (Math_max (inject_Z (Z.abs (parseInt to - parseInt f) mod 24)) (1 # 2)), m.
  split; [apply calculateRideDuration_sixDigits; assumption|].
  split; [exact Hm|]. split; [exact Hd|].
  apply calculateEndTime_whole. exact Hd.
Qed.

(** C9. On two strings of six digits the estimator returns; the duration
    is a function of the two codes alone and is at least half an hour. *)
Theorem estimate_at_least_half_hour (f t : jsstring) :
  sixDigits f = true -> sixDigits t = true ->
  exists d,
    calculateRideDuration (Some f) (Some t) = Return d
    /\ d = Math_max (inject_Z (Z.abs (parseInt t - parseInt f) mod 24)) (1 # 2)
    /\ (1 # 2 <= d)%Q /\ (0 < d)%Q.
Proof.
  intros Hf Ht. eexists. split; [apply calculateRideDuration_sixDigits; assumption|].
  split; [reflexivity|].
  pose proof (Math_max_lower (inject_Z (Z.abs (parseInt t - parseInt f) mod 24)) (1 # 2)) as H.
  split; [exact H|].
  eapply Qlt_le_trans; [|exact H]. reflexivity.
Qed.

Lemma calculateRideDuration_throws x y :
  testSixDigits x = false \/ testSixDigits y = false ->
  exists m, calculateRideDuration x y = Throw m.
Proof.
  intros H. unfold calculateRideDuration.
  destruct (falsy x || falsy y); [eauto|].
  destruct (testSixDigits x), (testSixDigits y); simpl; eauto;
    destruct H; discriminate.
Qed.

Lemma pincodes_accepted from to :
  negb (sixDigits from) || negb (sixDigits to) = false ->
  sixDigits from = true /\ sixDigits to = true.
Proof.
  destruct (sixDigits from), (sixDigits to); simpl; intros; try discriminate; auto.
Qed.

(** ** The handlers *)

(** The test that both handlers apply before they call the estimator. *)
Lemma guard_passed_returns from to :
  negb (sixDigits from) || negb (sixDigits to) = false ->
  exists d, calculateRideDuration (Some from) (Some to) = Return d.
Proof.
  intros H. apply pincodes_accepted in H. destruct H as [Hf Ht].
  rewrite (calculateRideDuration_sixDigits _ _ Hf Ht). eauto.
Qed.

(** A search is answered by one of the checks that come before the call
    of the estimator, or the call returns. *)
Lemma getAvailableVehicles_estimate now db query :
  (exists m, getAvailableVehicles now db query = ValidationError m)
  \/ (exists from to d,
        q_fromPincode query = Some from /\ q_toPincode query = Some to
        /\ calculateRideDuration (Some from) (Some to) = Return d).
Proof.
  unfold getAvailableVehicles.
  destruct (falsy (q_capacityRequired query) || falsy (q_fromPincode query)
            || falsy (q_toPincode query) || falsy (q_startTime query));
    [left; eauto|].
  destruct (q_capacityRequired query) as [c|], (q_fromPincode query) as [f|],
    (q_toPincode query) as [to|], (q_startTime query) as [s|];
    try (left; eauto; fail).
  destruct (isNaN (parseFloat c) || num_leb (parseFloat c) (Finite 0));
    [left; eauto|].
  destruct (negb (sixDigits f) || negb (sixDigits to)) eqn:E; [left; eauto|].
  destruct (guard_passed_returns f to E) as [d Hd].
  right. exists f, to, d. auto.
Qed.

(** What the handler knows when [prepareBooking] hands over a draft. *)
Lemma prepareBooking_draft now db body d :
  prepareBooking now db body = inr d ->
  exists vehicle from to start customer est,
    body = mkBookingBody (Some vehicle) (Some from) (Some to) (Some start) (Some customer)
    /\ castObjectId vehicle = Some (d_vehicleId d)
    /\ sixDigits from = true /\ sixDigits to = true
    /\ parseDate start = Some (d_startTime d)
    /\ isValid (validateBookingTime now (d_startTime d)) = true
    /\ (exists v, In v (vehicles db) /\ v_id v = d_vehicleId d /\ isActive v = true)
    /\ calculateRideDuration (Some from) (Some to) = Return est
    /\ d = mkDraft (d_vehicleId d) (trim customer) from to (d_startTime d)
             (calculateEndTime (d_startTime d) est) est.
Proof.
  unfold prepareBooking. destruct body as [v f t s c]; simpl.
  repeat (break_match; try discriminate).
  intros H. injection H as <-. simpl.
  match goal with
  | H : negb (sixDigits _) || negb (sixDigits _) = false |- _ =>
      apply pincodes_accepted in H; destruct H as [Hf Ht]
  end.
  match goal with
  | H : find _ _ = Some ?x |- _ =>
      pose proof (find_some _ _ H) as [Hin Hv];
      apply andb_true_iff in Hv; destruct Hv as [Hid Hact];
      apply N.eqb_eq in Hid
  end.
  match goal with
  | H : negb (isValid _) = false |- _ => apply negb_false_iff in H
  end.
  do 6 eexists. repeat split; eauto.
Qed.

Lemma saveBooking_cases now id db d :
  (exists b, saveBooking now id db d
             = (Success 201 b, mkStore (vehicles db) (bookings db ++ [b]))
             /\ b = preSave (newBooking id d)
             /\ validateBooking now (newBooking id d) = [])
  \/ (exists details, saveBooking now id db d = (SchemaValidationError details, db)).
Proof.
  unfold saveBooking. destruct (validateBooking now (newBooking id d)) eqn:E.
  - left. eauto.
  - right. eauto.
Qed.

(** A commit is answered by one of the checks that come before the call
    of the estimator (400, or 404 for the vehicle), or the call returns. *)
Lemma postBooking_estimate env db body :
  (exists m, fst (postBooking env db body) = ValidationError m)
  \/ (exists m, fst (postBooking env db body) = NotFoundError m)
  \/ (exists from to d,
        body_fromPincode body = Some from /\ body_toPincode body = Some to
        /\ calculateRideDuration (Some from) (Some to) = Return d).
Proof.
  unfold postBooking, prepareBooking.
  destruct (falsy (body_vehicleId body) || falsy (body_fromPincode body)
            || falsy (body_toPincode body) || falsy (body_startTime body)
            || falsy (body_customerId body));
    [left; simpl; eauto|].
  destruct (body_vehicleId body) as [v|], (body_fromPincode body) as [f|],
    (body_toPincode body) as [to|], (body_startTime body) as [s|],
    (body_customerId body) as [c|];
    try (left; simpl; eauto; fail).
  destruct (castObjectId v) as [id|]; [|left; simpl; eauto].
  destruct (negb (sixDigits f) || negb (sixDigits to)) eqn:E;
    [left; simpl; eauto|].
  destruct (guard_passed_returns f to E) as [d Hd].
  right. right. exists f, to, d. auto.
Qed.

(** C10. The estimator throws whenever an argument is missing or is not
    six digits.  Both handlers apply the same test to the two pincodes
    before they call it, and when that test passes the call returns: a
    search is answered 400 by a check that comes before the call, or the
    estimator returns on its pincodes; a commit is answered 400 or 404 by
    a check that comes before the call, or the estimator returns on its
    pincodes.  The throwing branch is taken by neither. *)
Theorem estimator_throw_unreachable :
  (forall x y,
     testSixDigits x = false \/ testSixDigits y = false ->
     exists m, calculateRideDuration x y = Throw m)
  /\ (forall from to,
        negb (sixDigits from) || negb (sixDigits to) = false ->
        exists d, calculateRideDuration (Some from) (Some to) = Return d)
  /\ (forall now db query,
        (exists m, getAvailableVehicles now db query = ValidationError m)
        \/ (exists from to d,
              q_fromPincode query = Some from /\ q_toPincode query = Some to
              /\ calculateRideDuration (Some from) (Some to) = Return d))
  /\ (forall env db body,
        (exists m, fst (postBooking env db body) = ValidationError m)
        \/ (exists m, fst (postBooking env db body) = NotFoundError m)
        \/ (exists from to d,
              body_fromPincode body = Some from /\ body_toPincode body = Some to
              /\ calculateRideDuration (Some from) (Some to) = Return d)).
Proof.
  split; [exact calculateRideDuration_throws|].
  split; [exact guard_passed_returns|].
  split; [exact getAvailableVehicles_estimate | exact postBooking_estimate].
Qed.

Lemma validateBookingTime_past now t :
  t <= now ->
  validateBookingTime now t
  = {| isValid := false; message := "Start time must be in the future" |}.
Proof.
  intros H. unfold validateBookingTime.
  destruct (Z.leb_spec t now); [reflexivity | lia].
Qed.

Lemma validateBookingTime_far now t :
  now + 365 * 24 * 60 * 60 * 1000 < t ->
  validateBookingTime now t
  = {| isValid := false; message := "Cannot book more than 1 year in advance" |}.
Proof.
  intros H. unfold validateBookingTime.
  destruct (Z.leb_spec t now); [lia|].
  rewrite Z.gtb_ltb.
  destruct (Z.ltb_spec (now + 365 * 24 * 60 * 60 * 1000) t); [reflexivity | lia].
Qed.

Lemma validateBookingTime_valid now t :
  isValid (validateBookingTime now t) = true
  <-> now < t <= now + 365 * 24 * 60 * 60 * 1000.
Proof.
  unfold validateBookingTime.
  destruct (Z.leb_spec t now); cbn [isValid].
  - split; [intros; discriminate | lia].
  - rewrite Z.gtb_ltb.
    destruct (Z.ltb_spec (now + 365 * 24 * 60 * 60 * 1000) t); cbn [isValid].
    + split; [intros; discriminate | lia].
    + split; [lia | reflexivity].
Qed.

(** A request whose start lies outside the window is turned down by the
    handler's own checks. *)
Lemma prepareBooking_outside_window now db body s t :
  body_startTime body = Some s ->
  parseDate s = Some t ->
  isValid (validateBookingTime now t) = false ->
  exists m, prepareBooking now db body = inl (ValidationError m).
Proof.
  intros Hs Ht Hv. unfold prepareBooking.
  destruct body as [v f to st c]; simpl in *. subst st.
  destruct (falsy v || falsy f || falsy to || falsy (Some s) || falsy c);
    [eauto|].
  destruct v as [v|], f as [f|], to as [to|], c as [c|]; eauto.
  destruct (castObjectId v); [|eauto].
  destruct (negb (sixDigits f) || negb (sixDigits to)); [eauto|].
  rewrite Ht, Hv. simpl. eauto.
Qed.

(** C6. A commit whose start is not after the clock, or is more than
    365 days after it, fails with a validation error and stores nothing;
    a start after the clock and at most 365 days ahead passes
    [validateBookingTime]. *)
Theorem commit_booking_window env db body s t :
  body_startTime body = Some s ->
  parseDate s = Some t ->
  (t <= clock env \/ clock env + 365 * 24 * 60 * 60 * 1000 < t ->
   isValidationError (fst (postBooking env db body)) = true
   /\ snd (postBooking env db body) = db)
  /\ (t <= clock env ->
      message (validateBookingTime (clock env) t) = "Start time must be in the future")
  /\ (clock env + 365 * 24 * 60 * 60 * 1000 < t ->
      message (validateBookingTime (clock env) t)
      = "Cannot book more than 1 year in advance")
  /\ (clock env < t <= clock env + 365 * 24 * 60 * 60 * 1000 ->
      isValid (validateBookingTime (clock env) t) = true).
Proof.
  intros Hs Ht. repeat split.
  - assert (Hv : isValid (validateBookingTime (clock env) t) = false).
    { destruct H as [H|H].
      - rewrite validateBookingTime_past by assumption. reflexivity.
      - rewrite validateBookingTime_far by assumption. reflexivity. }
    destruct (prepareBooking_outside_window (clock env) db body s t Hs Ht Hv)
      as [m Hm].
    unfold postBooking. rewrite Hm. reflexivity.
  - assert (Hv : isValid (validateBookingTime (clock env) t) = false).
    { destruct H as [H|H].
      - rewrite validateBookingTime_past by assumption. reflexivity.
      - rewrite validateBookingTime_far by assumption. reflexivity. }
    destruct (prepareBooking_outside_window (clock env) db body s t Hs Ht Hv)
      as [m Hm].
    unfold postBooking. rewrite Hm. reflexivity.
  - intros H. rewrite validateBookingTime_past by assumption. reflexivity.
  - intros H. rewrite validateBookingTime_far by assumption. reflexivity.
  - intros H. apply validateBookingTime_valid. lia.
Qed.

Lemma overlapFilter_iff vehicle start end_ b :
  overlapFilter vehicle start end_ b = true
  <-> vehicleId b = vehicle /\ occupies (status b) = true
      /\ doTimeRangesOverlap (startTime b) (endTime b) start end_ = true.
Proof.
  unfold overlapFilter, doTimeRangesOverlap.
  rewrite Z.gtb_ltb, !andb_true_iff, N.eqb_eq. tauto.
Qed.

Lemma findOverlapping_iff bs vehicle start end_ b :
  In b (findOverlapping bs vehicle start end_)
  <-> In b bs /\ vehicleId b = vehicle /\ occupies (status b) = true
      /\ doTimeRangesOverlap (startTime b) (endTime b) start end_ = true.
Proof.
  unfold findOverlapping. rewrite filter_In, overlapFilter_iff. tauto.
Qed.

Lemma checkConflicts_some db d :
  findOverlapping (bookings db) (d_vehicleId d) (d_startTime d) (d_endTime d) <> [] ->
  checkConflicts db d
  = Some (ConflictError
            (map conflictInfo
               (findOverlapping (bookings db) (d_vehicleId d)
                  (d_startTime d) (d_endTime d)))).
Proof.
  intros H. unfold checkConflicts.
  destruct (findOverlapping _ _ _ _); [congruence | reflexivity].
Qed.

Lemma checkConflicts_none db d :
  checkConflicts db d = None ->
  findOverlapping (bookings db) (d_vehicleId d) (d_startTime d) (d_endTime d) = [].
Proof.
  unfold checkConflicts.
  destruct (findOverlapping _ _ _ _); [reflexivity | discriminate].
Qed.

Lemma occupies_iff s : occupies s = true <-> s = confirmed \/ s = in_progress.
Proof.
  destruct s; simpl; split; intros H; auto; try discriminate;
    destruct H; discriminate.
Qed.

(** C3. When the conflict query of a commit finds a confirmed or
    in-progress reservation of the target vehicle that overlaps the
    requested window, the commit answers with a conflict error that
    carries, for every such reservation and for no other, its id, its
    start, its end and its route, which is its two pincodes with an arrow
    (U+2192) between them; the store is unchanged. *)
Theorem commit_conflict_reported env db body d :
  prepareBooking (clock env) db body = inr d ->
  (exists b, In b (bookings db)
             /\ vehicleId b = d_vehicleId d
             /\ (status b = confirmed \/ status b = in_progress)
             /\ doTimeRangesOverlap (startTime b) (endTime b)
                  (d_startTime d) (d_endTime d) = true) ->
  exists conflicts,
    postBooking env db body
    = (ConflictError
         (map (fun b =>
                 mkConflictInfo (b_id b) (startTime b) (endTime b)
                   (fromPincode b ++ [32; 8594; 32]%N ++ toPincode b))
            conflicts),
       db)
    /\ (forall b,
          In b conflicts
          <-> In b (bookings db)
              /\ vehicleId b = d_vehicleId d
              /\ (status b = confirmed \/ status b = in_progress)
              /\ doTimeRangesOverlap (startTime b) (endTime b)
                   (d_startTime d) (d_endTime d) = true).
Proof.
  intros Hd (b & Hin & Hv & Hst & Hov).
  exists (findOverlapping (bookings db) (d_vehicleId d) (d_startTime d) (d_endTime d)).
  split.
  - unfold postBooking. rewrite Hd, checkConflicts_some; [reflexivity|].
    assert (Hb : In b (findOverlapping (bookings db) (d_vehicleId d)
                         (d_startTime d) (d_endTime d))).
    { apply findOverlapping_iff. split; [exact Hin|]. split; [exact Hv|].
      split; [apply occupies_iff; exact Hst | exact Hov]. }
    intros E. rewrite E in Hb. exact Hb.
  - intros c. rewrite findOverlapping_iff, occupies_iff. reflexivity.
Qed.

(** X3. A commit that does not answer 201, at whatever step it stops,
    leaves the store as it was. *)
Theorem failed_commit_keeps_store env db body :
  isSuccess (fst (postBooking env db body)) = false ->
  snd (postBooking env db body) = db.
Proof.
  unfold postBooking.
  destruct (prepareBooking (clock env) db body) as [r|d]; [reflexivity|].
  destruct (checkConflicts db d); [reflexivity|].
  destruct (saveBooking_cases (saveClock env) (newId env) db d)
    as [(b & -> & _) | (details & ->)]; simpl; [discriminate | reflexivity].
Qed.

Lemma find_active_none (vs : list Vehicle) id :
  (forall v, In v vs -> v_id v = id -> isActive v = false) ->
  find (fun v => (v_id v =? id)%N && isActive v) vs = None.
Proof.
  intros H. destruct (find _ vs) as [v|] eqn:E; [|reflexivity].
  apply find_some in E. destruct E as [Hin Hv].
  apply andb_true_iff in Hv. destruct Hv as [Hid Hact].
  apply N.eqb_eq in Hid. rewrite (H v Hin Hid) in Hact. discriminate.
Qed.

(** C7, amended.  A commit whose vehicle id is well formed and names no
    active vehicle stores nothing; when the rest of the request passes
    the handler's checks (every field present, pincodes of six digits, a
    start that parses and lies in the booking window) the answer is the
    not-found error. *)
Theorem commit_vehicle_not_found env db body v id :
  body_vehicleId body = Some v ->
  castObjectId v = Some id ->
  (forall veh, In veh (vehicles db) -> v_id veh = id -> isActive veh = false) ->
  snd (postBooking env db body) = db
  /\ (forall f to s c t,
        body = mkBookingBody (Some v) (Some f) (Some to) (Some s) (Some c) ->
        v <> [] -> s <> [] -> c <> [] ->
        sixDigits f = true -> sixDigits to = true ->
        parseDate s = Some t ->
        clock env < t <= clock env + 365 * 24 * 60 * 60 * 1000 ->
        fst (postBooking env db body)
        = NotFoundError "Vehicle not found or inactive").
Proof.
  intros Hv Hid Hnone. split.
  - unfold postBooking.
    destruct (prepareBooking (clock env) db body) as [r|d] eqn:E; [reflexivity|].
    apply prepareBooking_draft in E.
    destruct E as (v' & f & to & s & c & est & -> & Hc & _ & _ & _ & _ & Hex & _).
    simpl in Hv. injection Hv as ->. rewrite Hid in Hc. injection Hc as ->.
    destruct Hex as (veh & Hin & Hvid & Hact).
    rewrite (Hnone veh Hin Hvid) in Hact. discriminate.
  - intros f to s c t -> Hv0 Hs0 Hc0 Hf Hto Hs Ht.
    pose proof (sixDigits_not_falsy f Hf) as Hf0.
    pose proof (sixDigits_not_falsy to Hto) as Hto0.
    unfold postBooking, prepareBooking.
    cbn [body_vehicleId body_fromPincode body_toPincode body_startTime
         body_customerId].
    rewrite Hf0, Hto0.
    destruct v; [congruence|]. destruct s; [congruence|]. destruct c; [congruence|].
    cbn [falsy orb]. rewrite Hid, Hf, Hto. cbn [negb orb]. rewrite Hs.
    apply validateBookingTime_valid in Ht. rewrite Ht. simpl.
    rewrite (find_active_none _ _ Hnone). reflexivity.
Qed.

(** *** Availability *)

Lemma length_zero_iff_nil {A} (l : list A) :
  (List.length l =? 0)%nat = true <-> l = [].
Proof.
  destruct l; simpl; split; intros; try reflexivity; discriminate.
Qed.

Lemma findOverlapping_nil bs vehicle start end_ :
  findOverlapping bs vehicle start end_ = []
  <-> (forall b, In b bs -> vehicleId b = vehicle -> occupies (status b) = true ->
         doTimeRangesOverlap (startTime b) (endTime b) start end_ = false).
Proof.
  split.
  - intros E b Hin Hv Ho.
    destruct (doTimeRangesOverlap _ _ _ _) eqn:Hov; [|reflexivity].
    assert (In b (findOverlapping bs vehicle start end_))
      by (apply findOverlapping_iff; auto).
    rewrite E in H. destruct H.
  - intros H.
    destruct (findOverlapping bs vehicle start end_) as [|b r] eqn:E; [reflexivity|].
    assert (Hb : In b (findOverlapping bs vehicle start end_))
      by (rewrite E; left; reflexivity).
    apply findOverlapping_iff in Hb. destruct Hb as (Hin & Hv & Ho & Hov).
    rewrite (H b Hin Hv Ho) in Hov. discriminate.
Qed.

(** The loop over the eligible vehicles keeps, in order, those for which
    the query returns nothing. *)
Lemma available_loop bs est f to start end_ (l : list Vehicle) acc :
  fold_left
    (fun acc vehicle =>
       if (List.length (findOverlapping bs (v_id vehicle) start end_) =? 0)%nat
       then acc ++ [mkAvailableVehicle vehicle est f to start end_]
       else acc) l acc
  = acc ++ map (fun vehicle => mkAvailableVehicle vehicle est f to start end_)
             (filter (fun vehicle =>
                        (List.length (findOverlapping bs (v_id vehicle) start end_)
                         =? 0)%nat) l).
Proof.
  revert acc. induction l as [|v l IH]; intros acc; simpl.
  - symmetry. apply app_nil_r.
  - rewrite IH.
    destruct (List.length (findOverlapping bs (v_id v) start end_) =? 0)%nat; simpl.
    + rewrite <- app_assoc. reflexivity.
    + reflexivity.
Qed.

(** The answer to a search that passes the checks.  Without an eligible
    vehicle it is the empty list.  Otherwise the overlap query runs: on a
    window whose end is an Invalid Date it throws and the answer is 500,
    else the answer lists the eligible vehicles that the query finds
    free, in the order of the store, each with the route and the window
    of the request. *)
Lemma getAvailableVehicles_checked now db (c f to s : jsstring) t d :
  c <> [] -> s <> [] ->
  isNaN (parseFloat c) = false ->
  num_leb (parseFloat c) (Finite 0) = false ->
  sixDigits f = true -> sixDigits to = true ->
  parseDate s = Some t -> now < t ->
  calculateRideDuration (Some f) (Some to) = Return d ->
  getAvailableVehicles now db (mkAvailableQuery (Some c) (Some f) (Some to) (Some s))
  = if (List.length (filter (eligible (parseFloat c)) (vehicles db)) =? 0)%nat
    then Success 200 (mkAvailable [] d)
    else if isValidDate (calculateEndTime t d) then
      Success 200
        (mkAvailable
           (map (fun v => mkAvailableVehicle v d f to t (calculateEndTime t d))
              (filter (fun v =>
                         (List.length
                            (findOverlapping (bookings db) (v_id v) t
                               (calculateEndTime t d)) =? 0)%nat)
                 (filter (eligible (parseFloat c)) (vehicles db))))
           d)
    else InternalError "Failed to find available vehicles".
Proof.
  intros Hc Hs Hnan Hpos Hf Hto Hparse Hfuture Hd.
  unfold getAvailableVehicles.
  cbn [q_capacityRequired q_fromPincode q_toPincode q_startTime].
  rewrite (sixDigits_not_falsy f Hf), (sixDigits_not_falsy to Hto).
  destruct c; [congruence|]. destruct s; [congruence|].
  cbn [falsy orb]. rewrite Hnan, Hpos, Hf, Hto. cbn [negb orb].
  rewrite Hparse.
  destruct (Z.leb_spec t now); [lia|].
  rewrite Hd. cbv zeta.
  destruct (List.length (filter (eligible (parseFloat (n :: c))) (vehicles db)) =? 0)%nat;
    [reflexivity|].
  destruct (isValidDate (calculateEndTime t d)); cbn [negb]; [|reflexivity].
  rewrite available_loop. reflexivity.
Qed.

(** C4. For a request that passes the checks of the search and asks for
    a window whose end is a valid [Date], the answer is a success whose
    list holds a vehicle exactly when the vehicle is active, has the
    requested capacity and has no confirmed or in-progress reservation
    that overlaps the requested window, which runs from the start for the
    estimated duration; the list is empty when no vehicle qualifies.  The
    search returns an answer only: it has no store to give back. *)
Theorem available_iff_free now db query c f to s t :
  query = mkAvailableQuery (Some c) (Some f) (Some to) (Some s) ->
  c <> [] -> s <> [] ->
  isNaN (parseFloat c) = false ->
  num_leb (parseFloat c) (Finite 0) = false ->
  sixDigits f = true -> sixDigits to = true ->
  parseDate s = Some t ->
  now < t ->
  (forall d, calculateRideDuration (Some f) (Some to) = Return d ->
             isValidDate (calculateEndTime t d) = true) ->
  exists d avs,
    calculateRideDuration (Some f) (Some to) = Return d
    /\ getAvailableVehicles now db query = Success 200 (mkAvailable avs d)
    /\ (inject_Z (calculateEndTime t d) == inject_Z t + d * 3600000)%Q
    /\ (forall v,
          In v (map av_vehicle avs)
          <-> In v (vehicles db)
              /\ isActive v = true
              /\ num_leb (parseFloat c) (Finite (capacityKg v)) = true
              /\ (forall b, In b (bookings db) ->
                    vehicleId b = v_id v ->
                    status b = confirmed \/ status b = in_progress ->
                    doTimeRangesOverlap (startTime b) (endTime b)
                      t (calculateEndTime t d) = false))
    /\ ((forall v, In v (vehicles db) ->
           isActive v = true ->
           num_leb (parseFloat c) (Finite (capacityKg v)) = true ->
           exists b, In b (bookings db) /\ vehicleId b = v_id v
                     /\ (status b = confirmed \/ status b = in_progress)
                     /\ doTimeRangesOverlap (startTime b) (endTime b)
                          t (calculateEndTime t d) = true) ->
        avs = []).
Proof.
  intros -> Hc Hs Hnan Hpos Hf Hto Hparse Hfuture Hrange.
  pose proof (calculateRideDuration_sixDigits f to Hf Hto) as Hd.
  set (d := Math_max (inject_Z (Z.abs (parseInt to - parseInt f) mod 24)) (1 # 2)) in Hd.
  set (e := calculateEndTime t d).
  set (free := fun vehicle =>
                 (List.length (findOverlapping (bookings db) (v_id vehicle) t e)
                  =? 0)%nat).
  set (avs := map (fun vehicle => mkAvailableVehicle vehicle d f to t e)
                (filter free (filter (eligible (parseFloat c)) (vehicles db)))).
  assert (Hmem : forall v,
             In v (map av_vehicle avs)
             <-> In v (vehicles db) /\ isActive v = true
                 /\ num_leb (parseFloat c) (Finite (capacityKg v)) = true
                 /\ (forall b, In b (bookings db) ->
                       vehicleId b = v_id v ->
                       status b = confirmed \/ status b = in_progress ->
                       doTimeRangesOverlap (startTime b) (endTime b) t e = false)).
  { intros v. unfold avs. rewrite map_map. simpl. rewrite map_id.
    rewrite !filter_In. unfold free, eligible.
    rewrite length_zero_iff_nil, findOverlapping_nil, andb_true_iff.
    split.
    - intros [[Hin [Hcap Hact]] Hfree].
      split; [exact Hin|]. split; [exact Hact|]. split; [exact Hcap|].
      intros b Hb Hv Hst. apply Hfree; [exact Hb | exact Hv |].
      apply occupies_iff. exact Hst.
    - intros (Hin & Hact & Hcap & Hfree).
      split; [split; [exact Hin | split; [exact Hcap | exact Hact]]|].
      intros b Hb Hv Hst. apply Hfree; [exact Hb | exact Hv |].
      apply occupies_iff. exact Hst. }
  exists d, avs. split; [exact Hd|]. split; [|split; [|split]].
  - rewrite (getAvailableVehicles_checked now db c f to s t d) by assumption.
    fold e. rewrite (Hrange d Hd : isValidDate e = true).
    unfold avs.
    destruct (List.length (filter (eligible (parseFloat c)) (vehicles db)) =? 0)%nat
      eqn:E; [|reflexivity].
    apply length_zero_iff_nil in E. rewrite E. reflexivity.
  - destruct (estimated_window f to t Hf Hto) as (d' & m & Hd' & _ & Hm & He).
    rewrite Hd in Hd'. injection Hd' as <-.
    rewrite He, inject_Z_plus, <- Hm. ring.
  - exact Hmem.
  - intros Hnone. destruct avs as [|a r] eqn:E; [reflexivity|].
    exfalso.
    assert (Hin : In (av_vehicle a) (map av_vehicle (a :: r))) by (left; reflexivity).
    apply Hmem in Hin. destruct Hin as (Hin & Hact & Hcap & Hfree).
    destruct (Hnone _ Hin Hact Hcap) as (b & Hb & Hv & Ho & Hov).
    fold e in Hov. rewrite (Hfree b Hb Hv Ho) in Hov. discriminate.
Qed.

(** *** Vehicles *)

Lemma trimStart_noLeadingSpace s : noLeadingSpace (trimStart s).
Proof.
  induction s as [|c r IH]; simpl; [exact I|].
  destruct (isWhiteSpace c) eqn:E; [exact IH | exact E].
Qed.

Lemma trimStart_fixed s : noLeadingSpace s -> trimStart s = s.
Proof.
  destruct s as [|c r]; simpl; [reflexivity|]. intros ->. reflexivity.
Qed.

Lemma trimStart_keeps_last l c :
  isWhiteSpace c = false -> exists l', trimStart (l ++ [c]) = l' ++ [c].
Proof.
  intros Hc. induction l as [|a l IH]; simpl.
  - rewrite Hc. exists []. reflexivity.
  - destruct (isWhiteSpace a); [exact IH|]. exists (a :: l). reflexivity.
Qed.

Lemma trimEnd_noLeadingSpace s : noLeadingSpace s -> noLeadingSpace (trimEnd s).
Proof.
  destruct s as [|c r]; [intros; exact I|]. simpl. intros Hc.
  unfold trimEnd. simpl.
  destruct (trimStart_keeps_last (rev r) c Hc) as [l' ->].
  rewrite rev_app_distr. simpl. exact Hc.
Qed.

Lemma trimEnd_idempotent s : trimEnd (trimEnd s) = trimEnd s.
Proof.
  unfold trimEnd. rewrite rev_involutive.
  rewrite (trimStart_fixed (trimStart (rev s))); [reflexivity|].
  apply trimStart_noLeadingSpace.
Qed.

Lemma trim_idempotent s : trim (trim s) = trim s.
Proof.
  unfold trim.
  rewrite (trimStart_fixed (trimEnd (trimStart s))).
  - apply trimEnd_idempotent.
  - apply trimEnd_noLeadingSpace, trimStart_noLeadingSpace.
Qed.

Lemma validateVehicle_nil v :
  validateVehicle v = []
  <-> name v <> [] /\ (List.length (name v) <= 100)%nat
      /\ (1 <= capacityKg v <= 50000)%Q /\ (2 <= tyres v <= 18)%Q.
Proof.
  unfold validateVehicle.
  destruct (name v) as [|ch r] eqn:En.
  - simpl. split; [discriminate | intros (H & _); congruence].
  - destruct (Nat.ltb_spec 100 (List.length (ch :: r))) as [Hl|Hl].
    + simpl in Hl |- *. split; [discriminate | intros (_ & H & _); lia].
    + destruct (Qle_bool 1 (capacityKg v)) eqn:E1; cbn [negb].
      2:{ apply Qle_bool_false in E1. simpl.
          split; [discriminate | intros (_ & _ & (H & _) & _); lra]. }
      apply Qle_bool_iff in E1.
      destruct (Qle_bool (capacityKg v) 50000) eqn:E2; cbn [negb].
      2:{ apply Qle_bool_false in E2. simpl.
          split; [discriminate | intros (_ & _ & (_ & H) & _); lra]. }
      apply Qle_bool_iff in E2.
      destruct (Qle_bool 2 (tyres v)) eqn:E3; cbn [negb].
      2:{ apply Qle_bool_false in E3. simpl.
          split; [discriminate | intros (_ & _ & _ & (H & _)); lra]. }
      apply Qle_bool_iff in E3.
      destruct (Qle_bool (tyres v) 18) eqn:E4; cbn [negb].
      2:{ apply Qle_bool_false in E4. simpl.
          split; [discriminate | intros (_ & _ & _ & (_ & H)); lra]. }
      apply Qle_bool_iff in E4.
      simpl. split; [|reflexivity]. intros _.
      repeat split; try assumption. discriminate.
Qed.

Lemma vehicle_acceptable_dec (n : jsstring) (c t : Q) :
  (n = [] \/ (100 < List.length n)%nat
   \/ (c < 1)%Q \/ (50000 < c)%Q \/ (t < 2)%Q \/ (18 < t)%Q)
  \/ (n <> [] /\ (List.length n <= 100)%nat
      /\ (1 <= c <= 50000)%Q /\ (2 <= t <= 18)%Q).
Proof.
  destruct n as [|ch r]; [left; auto|].
  destruct (Nat.le_gt_cases (List.length (ch :: r)) 100); [|left; auto].
  destruct (Qlt_le_dec c 1); [left; auto|].
  destruct (Qlt_le_dec 50000 c); [left; auto 6|].
  destruct (Qlt_le_dec t 2); [left; auto 6|].
  destruct (Qlt_le_dec 18 t); [left; auto 7|].
  right. repeat split; try assumption. discriminate.
Qed.

(** C8, amended.  For a name that is a string and a capacity and a tyre
    count that are numbers, the insert fails with a validation error
    exactly when the trimmed name is empty or longer than 100 characters,
    the capacity is below 1 or above 50000, or the tyre count is outside
    [2,18]; otherwise it stores and returns the vehicle. *)
Theorem vehicle_insert_validation id db n c t :
  (isValidationError
     (fst (postVehicle id db (mkVehicleBody (JString n) (JNumber c) (JNumber t))))
   = true
   <-> trim n = [] \/ (100 < List.length (trim n))%nat
       \/ (c < 1)%Q \/ (50000 < c)%Q \/ (t < 2)%Q \/ (18 < t)%Q)
  /\ (trim n <> [] -> (List.length (trim n) <= 100)%nat ->
      (1 <= c <= 50000)%Q -> (2 <= t <= 18)%Q ->
      postVehicle id db (mkVehicleBody (JString n) (JNumber c) (JNumber t))
      = (Success 201 (mkVehicle id (trim n) c t true),
         mkStore (vehicles db ++ [mkVehicle id (trim n) c t true]) (bookings db))).
Proof.
  assert (Hok : trim n <> [] -> (List.length (trim n) <= 100)%nat ->
                (1 <= c <= 50000)%Q -> (2 <= t <= 18)%Q ->
                postVehicle id db (mkVehicleBody (JString n) (JNumber c) (JNumber t))
                = (Success 201 (mkVehicle id (trim n) c t true),
                   mkStore (vehicles db ++ [mkVehicle id (trim n) c t true])
                     (bookings db))).
  { intros Hn Hl Hc Ht. unfold postVehicle, newVehicle.
    cbn [vb_name vb_capacityKg vb_tyres not_].
    destruct n as [|ch r]; [exfalso; apply Hn; reflexivity|].
    assert (Ec : Qeq_bool c 0 = false).
    { destruct (Qeq_bool c 0) eqn:E; [|reflexivity].
      apply Qeq_bool_iff in E. lra. }
    assert (Et : Qeq_bool t 0 = false).
    { destruct (Qeq_bool t 0) eqn:E; [|reflexivity].
      apply Qeq_bool_iff in E. lra. }
    rewrite Ec, Et. cbn [orb]. rewrite trim_idempotent.
    assert (E : validateVehicle (mkVehicle id (trim (ch :: r)) c t true) = []).
    { apply validateVehicle_nil. simpl. destruct Hc, Ht.
      repeat split; assumption. }
    rewrite E. reflexivity. }
  split; [|exact Hok].
  destruct (vehicle_acceptable_dec (trim n) c t) as [Hbad | (Hn & Hl & Hc & Ht)].
  - split; [intros _; exact Hbad|]. intros _.
    unfold postVehicle, newVehicle.
    cbn [vb_name vb_capacityKg vb_tyres not_].
    destruct n as [|ch r]; [reflexivity|].
    destruct (Qeq_bool c 0); [reflexivity|].
    destruct (Qeq_bool t 0); [reflexivity|].
    cbn [orb]. rewrite trim_idempotent.
    destruct (validateVehicle (mkVehicle id (trim (ch :: r)) c t true)) eqn:E;
      [|reflexivity].
    apply validateVehicle_nil in E. simpl in E.
    destruct E as (En & El & Ec & Et).
    destruct Hbad as [H|[H|[H|[H|[H|H]]]]]; try congruence; try lia; lra.
  - rewrite (Hok Hn Hl Hc Ht). simpl.
    split; [intros; discriminate|].
    intros [H|[H|[H|[H|[H|H]]]]]; try congruence; try lia; lra.
Qed.

(** ** The ledger invariant *)

Lemma doubleBooked_sym a b : doubleBooked a b = doubleBooked b a.
Proof.
  unfold doubleBooked.
  rewrite (N.eqb_sym (vehicleId a) (vehicleId b)).
  rewrite (doTimeRangesOverlap_sym (startTime a) (endTime a)).
  destruct (vehicleId b =? vehicleId a)%N, (occupies (status a)),
    (occupies (status b)); reflexivity.
Qed.

Lemma pairwiseScan_snoc bs x :
  pairwiseScan (bs ++ [x])
  = pairwiseScan bs && forallb (fun b => negb (doubleBooked b x)) bs.
Proof.
  induction bs as [|a r IH]; simpl; [reflexivity|].
  rewrite forallb_app, IH. simpl.
  destruct (forallb (fun b => negb (doubleBooked a b)) r),
    (negb (doubleBooked a x)), (pairwiseScan r); simpl; try reflexivity;
    rewrite ?andb_false_r; reflexivity.
Qed.

Lemma pairwiseScan_sound bs :
  pairwiseScan bs = true ->
  forall i j a b,
    i <> j -> nth_error bs i = Some a -> nth_error bs j = Some b ->
    doubleBooked a b = false.
Proof.
  induction bs as [|x r IH]; intros Hscan i j a b Hij Ha Hb.
  - destruct i; discriminate.
  - simpl in Hscan. apply andb_true_iff in Hscan. destruct Hscan as [Hx Hr].
    rewrite forallb_forall in Hx.
    destruct i as [|i], j as [|j]; simpl in Ha, Hb.
    + congruence.
    + injection Ha as <-. apply nth_error_In in Hb.
      apply negb_true_iff. apply Hx. exact Hb.
    + injection Hb as <-. apply nth_error_In in Ha.
      rewrite doubleBooked_sym. apply negb_true_iff. apply Hx. exact Ha.
    + apply (IH Hr i j); auto.
Qed.

Lemma pairwiseScan_NoDoubleBooking bs :
  pairwiseScan bs = true -> forall vehicle, NoDoubleBooking vehicle bs.
Proof.
  intros Hscan vehicle i j a b Hij Ha Hb Hva Hvb Hoa Hob.
  pose proof (pairwiseScan_sound bs Hscan i j a b Hij Ha Hb) as H.
  unfold doubleBooked in H.
  rewrite Hva, Hvb, N.eqb_refl, Hoa, Hob in H. exact H.
Qed.

Lemma released_refl b : released b b.
Proof. unfold released. tauto. Qed.

Lemma released_doubleBooked a' a b' b :
  released a' a -> released b' b ->
  doubleBooked a b = false -> doubleBooked a' b' = false.
Proof.
  intros (Hv & Hs & He & Ho) (Hv' & Hs' & He' & Ho') H.
  unfold doubleBooked in *. rewrite Hv, Hs, He, Hv', Hs', He'.
  destruct (occupies (status a')); [rewrite Ho in H by reflexivity|];
    destruct (occupies (status b')); [rewrite Ho' in H by reflexivity| | |];
    rewrite ?andb_false_r; auto.
Qed.

Lemma released_forallb a' a r' r :
  released a' a -> Forall2 released r' r ->
  forallb (fun b => negb (doubleBooked a b)) r = true ->
  forallb (fun b => negb (doubleBooked a' b)) r' = true.
Proof.
  intros Ha Hr. induction Hr as [|b' b r' r Hb Hr IH]; simpl; [reflexivity|].
  rewrite !andb_true_iff, !negb_true_iff. intros [H1 H2].
  split; [eapply released_doubleBooked; eauto | auto].
Qed.

Lemma released_pairwiseScan bs' bs :
  Forall2 released bs' bs -> pairwiseScan bs = true -> pairwiseScan bs' = true.
Proof.
  intros H. induction H as [|a' a r' r Ha Hr IH]; simpl; [reflexivity|].
  rewrite !andb_true_iff. intros [H1 H2].
  split; [eapply released_forallb; eauto | auto].
Qed.

Lemma Forall2_released_refl bs : Forall2 released bs bs.
Proof.
  induction bs; constructor; [apply released_refl | assumption].
Qed.

Lemma findByIdAndUpdate_released bs id s updated bs' :
  findByIdAndUpdate bs id s = Some (updated, bs') ->
  (forall b, find (fun b => (b_id b =? id)%N) bs = Some b ->
             occupies s && negb (occupies (status b)) = false) ->
  Forall2 released bs' bs.
Proof.
  revert bs'. induction bs as [|b r IH]; intros bs' Hupd Hsafe; simpl in *.
  - discriminate.
  - destruct (b_id b =? id)%N.
    + injection Hupd as <- <-. constructor; [|apply Forall2_released_refl].
      unfold released, setStatus. simpl. repeat split; try reflexivity.
      intros Hs. specialize (Hsafe b eq_refl). rewrite Hs in Hsafe. simpl in Hsafe.
      apply negb_false_iff in Hsafe. exact Hsafe.
    + destruct (findByIdAndUpdate r id s) as [[u r']|] eqn:E; [|discriminate].
      injection Hupd as <- <-. constructor; [apply released_refl|].
      apply IH; auto.
Qed.

Lemma preSave_newBooking id d :
  d_endTime d = calculateEndTime (d_startTime d) (d_duration d) ->
  vehicleId (preSave (newBooking id d)) = d_vehicleId d
  /\ startTime (preSave (newBooking id d)) = d_startTime d
  /\ endTime (preSave (newBooking id d)) = d_endTime d
  /\ status (preSave (newBooking id d)) = confirmed.
Proof.
  intros He. unfold preSave, newBooking. simpl.
  destruct (negb (Qeq_bool (d_duration d) 0)); simpl; auto.
Qed.

Lemma prepareBooking_endTime now db body d :
  prepareBooking now db body = inr d ->
  d_endTime d = calculateEndTime (d_startTime d) (d_duration d).
Proof.
  intros H. apply prepareBooking_draft in H.
  destruct H as (v & f & to & s & c & est & _ & _ & _ & _ & _ & _ & _ & _ & ->).
  reflexivity.
Qed.

(** The two ways a commit leaves the store: untouched, or with one
    confirmed booking appended that the conflict query found free. *)
Lemma postBooking_store env db body :
  snd (postBooking env db body) = db
  \/ exists d b,
       prepareBooking (clock env) db body = inr d
       /\ findOverlapping (bookings db) (d_vehicleId d) (d_startTime d) (d_endTime d) = []
       /\ b = preSave (newBooking (newId env) d)
       /\ fst (postBooking env db body) = Success 201 b
       /\ snd (postBooking env db body) = mkStore (vehicles db) (bookings db ++ [b]).
Proof.
  unfold postBooking.
  destruct (prepareBooking (clock env) db body) as [r|d] eqn:Ep; [left; reflexivity|].
  destruct (checkConflicts db d) eqn:Ec; [left; reflexivity|].
  apply checkConflicts_none in Ec.
  destruct (saveBooking_cases (saveClock env) (newId env) db d)
    as [(b & -> & Hb & _) | (details & ->)]; [|left; reflexivity].
  right. exists d, b. auto.
Qed.

Lemma postBooking_preserves_scan env db body :
  pairwiseScan (bookings db) = true ->
  pairwiseScan (bookings (snd (postBooking env db body))) = true.
Proof.
  intros Hscan.
  destruct (postBooking_store env db body)
    as [-> | (d & b & Hp & Hfree & Hb & _ & ->)]; [exact Hscan|].
  simpl. rewrite pairwiseScan_snoc, Hscan. simpl.
  apply forallb_forall. intros x Hx. apply negb_true_iff.
  destruct (preSave_newBooking (newId env) d (prepareBooking_endTime _ _ _ _ Hp))
    as (Hv & Hs & He & _).
  rewrite <- Hb in Hv, Hs, He.
  unfold doubleBooked. rewrite Hv, Hs, He.
  destruct ((vehicleId x =? d_vehicleId d)%N) eqn:Ev; [|reflexivity].
  destruct (occupies (status x)) eqn:Eo; [|reflexivity].
  apply N.eqb_eq in Ev.
  rewrite findOverlapping_nil in Hfree. rewrite (Hfree x Hx Ev Eo).
  apply andb_false_r.
Qed.

Lemma statusOfString_empty : statusOfString [] = None.
Proof. reflexivity. Qed.

Lemma patchBookingStatus_preserves_scan db id st :
  reactivates db (updateStatus id st) = false ->
  pairwiseScan (bookings db) = true ->
  pairwiseScan (bookings (snd (patchBookingStatus db id st))) = true.
Proof.
  intros Hsafe Hscan. unfold patchBookingStatus. simpl in Hsafe.
  destruct (castObjectId id) as [oid|]; [|exact Hscan].
  destruct st as [s|]; [|exact Hscan].
  destruct (falsy (Some s)) eqn:Ef.
  - exact Hscan.
  - destruct (statusOfString s) as [new|]; [|exact Hscan].
    destruct (findByIdAndUpdate (bookings db) oid new) as [[u bs']|] eqn:Eu;
      [|exact Hscan].
    simpl. eapply released_pairwiseScan; [|exact Hscan].
    eapply findByIdAndUpdate_released; [exact Eu|].
    intros b Hb. rewrite Hb in Hsafe. exact Hsafe.
Qed.

Lemma reachableWithoutReactivation_scan db :
  reachableWithoutReactivation db -> pairwiseScan (bookings db) = true.
Proof.
  induction 1 as [fleet | db op Hreach IH Hsafe]; [reflexivity|].
  destruct op as [env body | id st]; simpl.
  - apply postBooking_preserves_scan, IH.
  - apply patchBookingStatus_preserves_scan; assumption.
Qed.

(** C1, amended.  In every state reached from an empty ledger by commits
    and by status updates that never give a confirmed or in-progress
    status to a completed or cancelled reservation, the confirmed and
    in-progress reservations of each vehicle are pairwise
    non-overlapping. *)
Theorem no_double_booking_without_reactivation db vehicle :
  reachableWithoutReactivation db -> NoDoubleBooking vehicle (bookings db).
Proof.
  intros H. apply pairwiseScan_NoDoubleBooking.
  apply reachableWithoutReactivation_scan. exact H.
Qed.

Lemma prepareBooking_not_success now db body code b :
  prepareBooking now db body <> inl (Success code b).
Proof.
  unfold prepareBooking.
  repeat (break_match; try discriminate).
Qed.

(** X4. A booking stored by a commit is confirmed, its end is its start
    plus its estimated duration, and it is the last document of the
    ledger. *)
Theorem stored_booking_end_time env db body b :
  fst (postBooking env db body) = Success 201 b ->
  status b = confirmed
  /\ (inject_Z (endTime b)
      == inject_Z (startTime b) + estimatedRideDurationHours b * 3600000)%Q
  /\ bookings (snd (postBooking env db body)) = bookings db ++ [b].
Proof.
  unfold postBooking.
  destruct (prepareBooking (clock env) db body) as [r|d] eqn:Ep.
  - simpl. intros H. subst r. exfalso.
    exact (prepareBooking_not_success _ _ _ _ _ Ep).
  - unfold checkConflicts.
    destruct (0 <? List.length _)%nat; [simpl; intros; discriminate|].
    destruct (saveBooking_cases (saveClock env) (newId env) db d)
      as [(b' & -> & Hb & _) | (details & ->)]; simpl; [|intros; discriminate].
    intros H. injection H as <-.
    destruct (preSave_newBooking (newId env) d (prepareBooking_endTime _ _ _ _ Ep))
      as (_ & Hs & He & Hst).
    rewrite <- Hb in Hs, He, Hst.
    split; [exact Hst|]. split; [|reflexivity].
    assert (Hdur : estimatedRideDurationHours b' = d_duration d).
    { rewrite Hb. unfold preSave, newBooking. simpl.
      destruct (negb (Qeq_bool (d_duration d) 0)); reflexivity. }
    apply prepareBooking_draft in Ep.
    destruct Ep as (v & f & to & s & c & est & _ & _ & Hf & Hto & _ & _ & _ & Hest & Hd).
    destruct (estimated_window f to (d_startTime d) Hf Hto)
      as (est' & m & Hest' & _ & Hm & Hend).
    rewrite Hest in Hest'. injection Hest' as <-.
    rewrite Hdur, Hs, He, Hd. simpl.
    rewrite Hend, inject_Z_plus, <- Hm. ring.
Qed.

(** ** Serial and interleaved commits *)

(** A call that takes its two steps with nothing in between is the
    handler run without interruption. *)
Lemma advance_uninterrupted env db body :
  (let (t, db1) := advance db (Received env body) in advance db1 t)
  = (Responded (fst (postBooking env db body)), snd (postBooking env db body)).
Proof.
  unfold advance, postBooking.
  destruct (prepareBooking (clock env) db body) as [r|d]; [reflexivity|].
  destruct (checkConflicts db d); [reflexivity|].
  destruct (saveBooking (saveClock env) (newId env) db d). reflexivity.
Qed.

Lemma prepareBooking_same_fleet now db db' body :
  vehicles db' = vehicles db ->
  prepareBooking now db' body = prepareBooking now db body.
Proof. intros H. unfold prepareBooking. rewrite H. reflexivity. Qed.

Lemma findOverlapping_snoc bs b vehicle start end_ :
  findOverlapping (bs ++ [b]) vehicle start end_
  = findOverlapping bs vehicle start end_
    ++ (if overlapFilter vehicle start end_ b then [b] else []).
Proof. unfold findOverlapping. rewrite filter_app. reflexivity. Qed.

(** Once [b] holds the vehicle, every later call for an overlapping
    window is answered with the conflict error that names [b]. *)
Lemma serve_losers db b vehicle calls :
  vehicleId b = vehicle -> occupies (status b) = true ->
  (forall env body, In (env, body) calls ->
     exists d,
       prepareBooking (clock env) db body = inr d
       /\ d_vehicleId d = vehicle
       /\ findOverlapping (bookings db) vehicle (d_startTime d) (d_endTime d) = []
       /\ doTimeRangesOverlap (startTime b) (endTime b)
            (d_startTime d) (d_endTime d) = true) ->
  serve (mkStore (vehicles db) (bookings db ++ [b])) calls
  = (map (fun _ => ConflictError [conflictInfo b]) calls,
     mkStore (vehicles db) (bookings db ++ [b])).
Proof.
  intros Hv Ho. induction calls as [|[env body] rest IH]; intros Hcalls.
  - reflexivity.
  - destruct (Hcalls env body (or_introl eq_refl)) as (d & Hp & Hd & Hfree & Hov).
    cbn [serve]. unfold postBooking at 1.
    rewrite (prepareBooking_same_fleet _ db) by reflexivity.
    rewrite Hp. unfold checkConflicts. cbn [bookings].
    rewrite findOverlapping_snoc, Hd, Hfree.
    assert (Hf : overlapFilter vehicle (d_startTime d) (d_endTime d) b = true)
      by (apply overlapFilter_iff; auto).
    rewrite Hf. cbn [app List.length Nat.ltb Nat.leb map].
    rewrite IH; [reflexivity|].
    intros env' body' Hin. apply Hcalls. right. exact Hin.
Qed.

(** X1. Calls for one vehicle with mutually overlapping windows, each
    valid and free of earlier conflicts, served one after the other in
    any order: the first is stored and every other one receives the
    conflict error that names it. *)
Theorem serial_commits_one_winner db vehicle env body rest :
  (forall e b, In (e, b) ((env, body) :: rest) ->
     exists d,
       prepareBooking (clock e) db b = inr d
       /\ d_vehicleId d = vehicle
       /\ validateBooking (saveClock e) (newBooking (newId e) d) = []
       /\ findOverlapping (bookings db) vehicle (d_startTime d) (d_endTime d) = []) ->
  (forall e1 b1 e2 b2 d1 d2,
     In (e1, b1) ((env, body) :: rest) -> In (e2, b2) ((env, body) :: rest) ->
     prepareBooking (clock e1) db b1 = inr d1 ->
     prepareBooking (clock e2) db b2 = inr d2 ->
     doTimeRangesOverlap (d_startTime d1) (d_endTime d1)
       (d_startTime d2) (d_endTime d2) = true) ->
  exists winner,
    serve db ((env, body) :: rest)
    = (Success 201 winner :: map (fun _ => ConflictError [conflictInfo winner]) rest,
       mkStore (vehicles db) (bookings db ++ [winner])).
Proof.
  intros Hcalls Hmutual.
  destruct (Hcalls env body (or_introl eq_refl)) as (d & Hp & Hd & Hvalid & Hfree).
  exists (preSave (newBooking (newId env) d)).
  destruct (preSave_newBooking (newId env) d (prepareBooking_endTime _ _ _ _ Hp))
    as (Hv & Hs & He & Hst).
  cbn [serve]. unfold postBooking at 1. rewrite Hp.
  unfold checkConflicts. rewrite Hd, Hfree. cbn [List.length Nat.ltb Nat.leb].
  unfold saveBooking. rewrite Hvalid.
  rewrite (serve_losers db _ vehicle rest); [reflexivity | congruence | | ].
  - rewrite Hst. reflexivity.
  - intros e b Hin.
    destruct (Hcalls e b (or_intror Hin)) as (d' & Hp' & Hd' & _ & Hfree').
    exists d'. repeat split; auto.
    rewrite Hs, He.
    apply (Hmutual env body e b d d'); auto. left. reflexivity. right. exact Hin.
Qed.

(** * Further properties *)

(** ** The estimate and the window *)

Lemma Math_max_whole k :
  1 <= k -> Math_max (inject_Z k) (1 # 2) = inject_Z k.
Proof.
  intros Hk. unfold Math_max, Qle_bool. simpl.
  destruct (Z.leb_spec (k * 2) 1); [lia | reflexivity].
Qed.

Lemma abs_mod_zero x : Z.abs x mod 24 = 0 <-> x mod 24 = 0.
Proof.
  rewrite !Z.mod_divide by discriminate.
  split; intros H.
  - apply Z.divide_abs_r. exact H.
  - apply Z.divide_abs_r in H. exact H.
Qed.

(** X5. The estimate is the same in both directions, never exceeds 23
    hours, is the floor of half an hour exactly for codes that differ by
    a multiple of 24, and is a whole number of hours otherwise. *)
Theorem estimate_symmetric_bounded f t :
  sixDigits f = true -> sixDigits t = true ->
  exists d,
    calculateRideDuration (Some f) (Some t) = Return d
    /\ calculateRideDuration (Some t) (Some f) = Return d
    /\ (d <= 23)%Q
    /\ ((parseInt t - parseInt f) mod 24 = 0 -> d = 1 # 2)
    /\ ((parseInt t - parseInt f) mod 24 <> 0 ->
        exists k, 1 <= k <= 23 /\ d = inject_Z k).
Proof.
  intros Hf Ht.
  exists (Math_max (inject_Z (Z.abs (parseInt t - parseInt f) mod 24)) (1 # 2)).
  split; [apply calculateRideDuration_sixDigits; assumption|].
  split.
  { rewrite (calculateRideDuration_sixDigits t f Ht Hf).
    replace (parseInt f - parseInt t) with (- (parseInt t - parseInt f)) by lia.
    rewrite Z.abs_opp. reflexivity. }
  pose proof (Z.mod_pos_bound (Z.abs (parseInt t - parseInt f)) 24 eq_refl) as Hb.
  destruct (Z.eq_dec (Z.abs (parseInt t - parseInt f) mod 24) 0) as [E|E].
  - rewrite E. split; [compute; discriminate|].
    split; [intros _; reflexivity|].
    intros H. exfalso. apply H. apply abs_mod_zero. exact E.
  - rewrite Math_max_whole by lia. split.
    + unfold Qle. simpl. lia.
    + split.
      * intros H. exfalso. apply E. apply abs_mod_zero. exact H.
      * intros _. exists (Z.abs (parseInt t - parseInt f) mod 24).
        split; [lia | reflexivity].
Qed.

Lemma estimate_milliseconds_bounds k :
  0 <= k < 24 ->
  exists m,
    1800000 <= m <= 82800000
    /\ (Math_max (inject_Z k) (1 # 2) * 60 * 60 * 1000 == inject_Z m)%Q.
Proof.
  intros Hk. destruct (Z.eq_dec k 0) as [->|Hk0].
  - exists 1800000. split; [lia | reflexivity].
  - rewrite Math_max_whole by lia. exists (k * 3600000).
    split; [lia|]. rewrite inject_Z_mult. ring.
Qed.

(** X6. For a start that is a valid [Date] and lies at least 23 hours
    before the last instant a [Date] can hold, the window of a request
    ends at a valid [Date], between half an hour and 23 hours after its
    start: it is never empty. *)
Theorem booking_window_bounds f to t :
  sixDigits f = true -> sixDigits to = true ->
  isValidDate t = true ->
  t + 82800000 <= maxTime ->
  exists d,
    calculateRideDuration (Some f) (Some to) = Return d
    /\ isValidDate (calculateEndTime t d) = true
    /\ t + 1800000 <= calculateEndTime t d <= t + 82800000.
Proof.
  intros Hf Hto Ht Hlast.
  destruct (estimate_milliseconds_bounds (Z.abs (parseInt to - parseInt f) mod 24))
    as (m & Hm & Hd).
  { apply Z.mod_pos_bound. reflexivity. }
  eexists. split; [apply calculateRideDuration_sixDigits; assumption|].
  rewrite (calculateEndTime_whole t _ m Hd).
  split; [|lia].
  unfold isValidDate in *. apply Z.leb_le in Ht. apply Z.leb_le.
  unfold maxTime in *. lia.
Qed.


(** ** When a commit succeeds *)

Lemma isDigit_not_space c : isDigit c = true -> isWhiteSpace c = false.
Proof.
  unfold isDigit. rewrite andb_true_iff, !N.leb_le. intros [Hl Hu].
  assert (H : (c = 48 \/ c = 49 \/ c = 50 \/ c = 51 \/ c = 52 \/ c = 53
               \/ c = 54 \/ c = 55 \/ c = 56 \/ c = 57)%N) by lia.
  repeat (destruct H as [->|H]; [reflexivity|]). subst c. reflexivity.
Qed.

Lemma trimStart_digits s : forallb isDigit s = true -> trimStart s = s.
Proof.
  destruct s as [|c r]; simpl; [reflexivity|].
  rewrite andb_true_iff. intros [Hc _].
  rewrite (isDigit_not_space c Hc). reflexivity.
Qed.

Lemma trim_digits s : forallb isDigit s = true -> trim s = s.
Proof.
  intros H. unfold trim, trimEnd.
  rewrite (trimStart_digits s H).
  rewrite trimStart_digits; [apply rev_involutive|].
  rewrite forallb_forall in *. intros c Hc. apply H. apply in_rev. exact Hc.
Qed.

Lemma trim_sixDigits s : sixDigits s = true -> trim s = s.
Proof.
  unfold sixDigits. rewrite andb_true_iff. intros [_ H]. apply trim_digits. exact H.
Qed.

Lemma validatePincode_sixDigits required p :
  sixDigits p = true -> validatePincode required (trim p) = [].
Proof.
  intros H. rewrite (trim_sixDigits p H). unfold validatePincode. rewrite H.
  destruct p; [discriminate | reflexivity].
Qed.

(** The schema accepts the document of a draft exactly when the customer
    id is not blank and the start is after the clock read at [save]. *)
Lemma validateBooking_newBooking now id d :
  sixDigits (d_fromPincode d) = true -> sixDigits (d_toPincode d) = true ->
  (1 # 2 <= d_duration d)%Q ->
  validateBooking now (newBooking id d) = []
  <-> trim (d_customerId d) <> [] /\ now < d_startTime d.
Proof.
  intros Hf Hto Hd. unfold validateBooking, newBooking. simpl.
  rewrite (validatePincode_sixDigits _ _ Hf), (validatePincode_sixDigits _ _ Hto).
  assert (Hq : Qle_bool (1 # 10) (d_duration d) = true).
  { apply Qle_bool_iff. eapply Qle_trans; [|exact Hd]. compute. discriminate. }
  rewrite Hq. simpl. rewrite Z.gtb_ltb.
  destruct (trim (d_customerId d)) as [|ch r];
    destruct (Z.ltb_spec now (d_startTime d)); simpl; split;
    try discriminate; try (intros [H1 H2]; congruence || lia);
    try (intros _; split; [discriminate | assumption]); auto.
Qed.

Lemma find_active_some (vs : list Vehicle) id v :
  In v vs -> v_id v = id -> isActive v = true ->
  exists v', find (fun v => (v_id v =? id)%N && isActive v) vs = Some v'.
Proof.
  intros Hin Hid Hact.
  destruct (find _ vs) as [v'|] eqn:E; [eauto|].
  pose proof (find_none _ _ E v Hin) as H. simpl in H.
  rewrite Hid, N.eqb_refl, Hact in H. discriminate.
Qed.

(** The draft a well-formed request for an active vehicle leads to. *)
Lemma prepareBooking_valid now db (v f to s c : jsstring) id t :
  v <> [] -> s <> [] -> c <> [] ->
  castObjectId v = Some id ->
  sixDigits f = true -> sixDigits to = true ->
  parseDate s = Some t ->
  now < t <= now + 365 * 24 * 60 * 60 * 1000 ->
  (exists veh, In veh (vehicles db) /\ v_id veh = id /\ isActive veh = true) ->
  prepareBooking now db (mkBookingBody (Some v) (Some f) (Some to) (Some s) (Some c))
  = inr (mkDraft id (trim c) f to t
           (calculateEndTime t
              (Math_max (inject_Z (Z.abs (parseInt to - parseInt f) mod 24)) (1 # 2)))
           (Math_max (inject_Z (Z.abs (parseInt to - parseInt f) mod 24)) (1 # 2))).
Proof.
  intros Hv Hs Hc Hid Hf Hto Hparse Ht (veh & Hin & Hvid & Hact).
  pose proof (sixDigits_not_falsy f Hf) as Hf0.
  pose proof (sixDigits_not_falsy to Hto) as Hto0.
  unfold prepareBooking.
  cbn [body_vehicleId body_fromPincode body_toPincode body_startTime
       body_customerId].
  rewrite Hf0, Hto0.
  destruct v; [congruence|]. destruct s; [congruence|]. destruct c; [congruence|].
  cbn [falsy orb]. rewrite Hid, Hf, Hto. cbn [negb orb]. rewrite Hparse.
  apply validateBookingTime_valid in Ht. rewrite Ht. cbn [negb].
  destruct (find_active_some _ _ _ Hin Hvid Hact) as [v' ->].
  rewrite (calculateRideDuration_sixDigits f to Hf Hto). reflexivity.
Qed.

Lemma postBooking_stores env db body d :
  prepareBooking (clock env) db body = inr d ->
  findOverlapping (bookings db) (d_vehicleId d) (d_startTime d) (d_endTime d) = [] ->
  validateBooking (saveClock env) (newBooking (newId env) d) = [] ->
  postBooking env db body
  = (Success 201 (preSave (newBooking (newId env) d)),
     mkStore (vehicles db) (bookings db ++ [preSave (newBooking (newId env) d)])).
Proof.
  intros Hp Hfree Hvalid. unfold postBooking, checkConflicts, saveBooking.
  rewrite Hp, Hfree, Hvalid. reflexivity.
Qed.

Lemma postBooking_success_inv env db body :
  isSuccess (fst (postBooking env db body)) = true ->
  exists d,
    prepareBooking (clock env) db body = inr d
    /\ findOverlapping (bookings db) (d_vehicleId d) (d_startTime d) (d_endTime d) = []
    /\ validateBooking (saveClock env) (newBooking (newId env) d) = [].
Proof.
  unfold postBooking.
  destruct (prepareBooking (clock env) db body) as [r|d] eqn:Ep.
  - simpl. destruct r; try discriminate. intros _. exfalso.
    exact (prepareBooking_not_success _ _ _ _ _ Ep).
  - destruct (checkConflicts db d) as [r|] eqn:Ec.
    + unfold checkConflicts in Ec.
      destruct (0 <? List.length _)%nat; [|discriminate].
      injection Ec as <-. simpl. discriminate.
    + apply checkConflicts_none in Ec.
      destruct (saveBooking_cases (saveClock env) (newId env) db d)
        as [(b & -> & _ & Hv) | (details & ->)]; simpl; [|discriminate].
      intros _. exists d. auto.
Qed.

Lemma draft_document id v c f to t d :
  sixDigits f = true -> sixDigits to = true -> (1 # 2 <= d)%Q ->
  preSave (newBooking id (mkDraft v (trim c) f to t (calculateEndTime t d) d))
  = mkBooking id v (trim c) f to t (calculateEndTime t d) d confirmed.
Proof.
  intros Hf Hto Hd. unfold preSave, newBooking. simpl.
  rewrite trim_idempotent, (trim_sixDigits f Hf), (trim_sixDigits to Hto).
  assert (E : Qeq_bool d 0 = false).
  { destruct (Qeq_bool d 0) eqn:E; [|reflexivity].
    apply Qeq_bool_iff in E. rewrite E in Hd. exfalso. revert Hd. compute. auto. }
  rewrite E. reflexivity.
Qed.

(** X7. A request for a vehicle id that is well formed, with a start that
    parses and pincodes of six digits, is answered 201 exactly when its
    fields are not empty, the start is after the clock and at most 365
    days ahead, the vehicle is active, no confirmed or in-progress
    reservation of the vehicle overlaps the window, the customer id is not
    blank and the start is still ahead when the document is saved.  The
    document stored is then the request itself: trimmed customer id, the
    two pincodes, the window and the estimate, confirmed. *)
Theorem commit_succeeds_iff env db (v f to s c : jsstring) id t :
  castObjectId v = Some id ->
  parseDate s = Some t ->
  sixDigits f = true -> sixDigits to = true ->
  exists d,
    calculateRideDuration (Some f) (Some to) = Return d
    /\ (isSuccess
          (fst (postBooking env db
                  (mkBookingBody (Some v) (Some f) (Some to) (Some s) (Some c))))
        = true
        <-> v <> [] /\ s <> [] /\ trim c <> []
            /\ clock env < t <= clock env + 365 * 24 * 60 * 60 * 1000
            /\ saveClock env < t
            /\ (exists veh, In veh (vehicles db) /\ v_id veh = id
                            /\ isActive veh = true)
            /\ (forall b, In b (bookings db) ->
                  vehicleId b = id -> occupies (status b) = true ->
                  doTimeRangesOverlap (startTime b) (endTime b)
                    t (calculateEndTime t d) = false))
    /\ (isSuccess
          (fst (postBooking env db
                  (mkBookingBody (Some v) (Some f) (Some to) (Some s) (Some c))))
        = true ->
        postBooking env db
          (mkBookingBody (Some v) (Some f) (Some to) (Some s) (Some c))
        = (Success 201
             (mkBooking (newId env) id (trim c) f to t (calculateEndTime t d) d
                confirmed),
           mkStore (vehicles db)
             (bookings db
              ++ [mkBooking (newId env) id (trim c) f to t (calculateEndTime t d) d
                    confirmed]))).
Proof.
  intros Hid Hparse Hf Hto.
  set (d := Math_max (inject_Z (Z.abs (parseInt to - parseInt f) mod 24)) (1 # 2)).
  set (body := mkBookingBody (Some v) (Some f) (Some to) (Some s) (Some c)).
  assert (Hhalf : (1 # 2 <= d)%Q) by apply Math_max_lower.
  assert (Hinv : isSuccess (fst (postBooking env db body)) = true ->
                 (v <> [] /\ s <> [] /\ trim c <> []
                  /\ clock env < t <= clock env + 365 * 24 * 60 * 60 * 1000
                  /\ saveClock env < t
                  /\ (exists veh, In veh (vehicles db) /\ v_id veh = id
                                  /\ isActive veh = true)
                  /\ (forall b, In b (bookings db) ->
                        vehicleId b = id -> occupies (status b) = true ->
                        doTimeRangesOverlap (startTime b) (endTime b)
                          t (calculateEndTime t d) = false))
                 /\ postBooking env db body
                    = (Success 201
                         (mkBooking (newId env) id (trim c) f to t
                            (calculateEndTime t d) d confirmed),
                       mkStore (vehicles db)
                         (bookings db
                          ++ [mkBooking (newId env) id (trim c) f to t
                                (calculateEndTime t d) d confirmed]))).
  { intros Hok.
    destruct (postBooking_success_inv env db body Hok) as (dr & Hp & Hfree & Hvalid).
    pose proof (postBooking_stores env db body dr Hp Hfree Hvalid) as Hpost.
    apply prepareBooking_draft in Hp.
    destruct Hp as (v' & f' & to' & s' & c' & est & Hbody & Hcast & _ & _
                    & Hdate & Hwin & Hveh & Hest & Hdr).
    unfold body in Hbody. injection Hbody as <- <- <- <- <-.
    rewrite Hid in Hcast. injection Hcast as Hcast.
    rewrite Hparse in Hdate. injection Hdate as Hdate.
    rewrite (calculateRideDuration_sixDigits f to Hf Hto) in Hest.
    injection Hest as Hest. fold d in Hest. subst est.
    rewrite <- Hcast, <- Hdate in Hdr. subst dr. simpl in *.
    rewrite draft_document in Hpost by assumption.
    split; [|exact Hpost].
    apply validateBooking_newBooking in Hvalid; try assumption.
    simpl in Hvalid. rewrite trim_idempotent in Hvalid.
    destruct Hvalid as [Hc Hsave].
    apply validateBookingTime_valid in Hwin.
    rewrite findOverlapping_nil in Hfree.
    assert (Hne : v <> [] /\ s <> []).
    { unfold postBooking, prepareBooking in Hpost. simpl in Hpost.
      destruct v; [destruct f, to, s, c; discriminate|].
      destruct s; [|split; discriminate].
      simpl in Hpost. rewrite !orb_true_r in Hpost.
      destruct f, to; simpl in Hpost; discriminate. }
    destruct Hne. repeat split; auto; lia. }
  exists d. split; [apply calculateRideDuration_sixDigits; assumption|].
  split; [split|].
  - intros H. apply Hinv. exact H.
  - intros (Hv & Hs & Hc & Hwin & Hsave & Hveh & Hfree).
    assert (Hc0 : c <> []) by (intros ->; apply Hc; reflexivity).
    pose proof (prepareBooking_valid (clock env) db v f to s c id t
                  Hv Hs Hc0 Hid Hf Hto Hparse Hwin Hveh) as Hp.
    fold d in Hp. fold body in Hp.
    rewrite (postBooking_stores env db body _ Hp).
    + reflexivity.
    + simpl. apply findOverlapping_nil. exact Hfree.
    + apply validateBooking_newBooking; simpl; try assumption.
      rewrite trim_idempotent. split; assumption.
  - intros H. apply Hinv. exact H.
Qed.

Lemma findOverlapping_own_vehicle bs id start end_ :
  findOverlapping (filter (fun b => (vehicleId b =? id)%N) bs) id start end_
  = findOverlapping bs id start end_.
Proof.
  unfold findOverlapping. induction bs as [|b r IH]; simpl; [reflexivity|].
  unfold overlapFilter at 2.
  destruct (vehicleId b =? id)%N eqn:E; simpl.
  - unfold overlapFilter at 1. rewrite E. simpl.
    destruct (occupies (status b) && _); rewrite IH; reflexivity.
  - exact IH.
Qed.

(** X8. The answer to a commit depends on the reservations of its own
    vehicle only: removing every reservation of the other vehicles from
    the ledger does not change it. *)
Theorem commit_ignores_other_vehicles env db body v id :
  body_vehicleId body = Some v ->
  castObjectId v = Some id ->
  fst (postBooking env db body)
  = fst (postBooking env
           (mkStore (vehicles db)
              (filter (fun b => (vehicleId b =? id)%N) (bookings db)))
           body).
Proof.
  intros Hv Hid. unfold postBooking.
  rewrite (prepareBooking_same_fleet (clock env) db
             (mkStore (vehicles db) (filter _ (bookings db)))) by reflexivity.
  destruct (prepareBooking (clock env) db body) as [r|d] eqn:Ep; [reflexivity|].
  assert (Hd : d_vehicleId d = id).
  { apply prepareBooking_draft in Ep.
    destruct Ep as (v' & f & to & s & c & est & -> & Hc & _).
    simpl in Hv. injection Hv as ->. rewrite Hid in Hc. injection Hc as ->.
    reflexivity. }
  unfold checkConflicts. cbn [bookings].
  rewrite Hd, findOverlapping_own_vehicle.
  destruct (0 <? List.length _)%nat; [reflexivity|].
  unfold saveBooking.
  destruct (validateBooking (saveClock env) (newBooking (newId env) d)); reflexivity.
Qed.


(** ** The search and the commit *)

(** The answer to a search that passes the checks and asks for a window
    that ends at a valid [Date]. *)
Lemma getAvailableVehicles_valid now db (c f to s : jsstring) t :
  c <> [] -> s <> [] ->
  isNaN (parseFloat c) = false ->
  num_leb (parseFloat c) (Finite 0) = false ->
  sixDigits f = true -> sixDigits to = true ->
  parseDate s = Some t -> now < t ->
  isValidDate
    (calculateEndTime t
       (Math_max (inject_Z (Z.abs (parseInt to - parseInt f) mod 24)) (1 # 2)))
  = true ->
  getAvailableVehicles now db (mkAvailableQuery (Some c) (Some f) (Some to) (Some s))
  = Success 200
      (mkAvailable
         (map (fun v =>
                 mkAvailableVehicle v
                   (Math_max (inject_Z (Z.abs (parseInt to - parseInt f) mod 24)) (1 # 2))
                   f to t
                   (calculateEndTime t
                      (Math_max (inject_Z (Z.abs (parseInt to - parseInt f) mod 24))
                         (1 # 2))))
            (filter (fun v =>
                       (List.length
                          (findOverlapping (bookings db) (v_id v) t
                             (calculateEndTime t
                                (Math_max
                                   (inject_Z (Z.abs (parseInt to - parseInt f) mod 24))
                                   (1 # 2))))
                        =? 0)%nat)
               (filter (eligible (parseFloat c)) (vehicles db))))
         (Math_max (inject_Z (Z.abs (parseInt to - parseInt f) mod 24)) (1 # 2))).
Proof.
  intros Hc Hs Hnan Hpos Hf Hto Hparse Hfuture Hrange.
  rewrite (getAvailableVehicles_checked now db c f to s t _ Hc Hs Hnan Hpos Hf Hto
             Hparse Hfuture (calculateRideDuration_sixDigits f to Hf Hto)).
  rewrite Hrange.
  destruct (List.length (filter (eligible (parseFloat c)) (vehicles db)) =? 0)%nat
    eqn:E; [|reflexivity].
  apply length_zero_iff_nil in E. rewrite E. reflexivity.
Qed.

(** An entry of a search that answers 200: an eligible vehicle that the
    overlap query finds free, with the route and the window of the
    request. *)
Lemma getAvailableVehicles_entry now db (c f to s : jsstring) t av e :
  c <> [] -> s <> [] ->
  isNaN (parseFloat c) = false ->
  num_leb (parseFloat c) (Finite 0) = false ->
  sixDigits f = true -> sixDigits to = true ->
  parseDate s = Some t -> now < t ->
  getAvailableVehicles now db (mkAvailableQuery (Some c) (Some f) (Some to) (Some s))
  = Success 200 av ->
  In e (availableVehicles av) ->
  exists veh,
    e = mkAvailableVehicle veh
          (Math_max (inject_Z (Z.abs (parseInt to - parseInt f) mod 24)) (1 # 2))
          f to t
          (calculateEndTime t
             (Math_max (inject_Z (Z.abs (parseInt to - parseInt f) mod 24)) (1 # 2)))
    /\ In veh (vehicles db)
    /\ eligible (parseFloat c) veh = true
    /\ findOverlapping (bookings db) (v_id veh) t
         (calculateEndTime t
            (Math_max (inject_Z (Z.abs (parseInt to - parseInt f) mod 24)) (1 # 2)))
       = []
    /\ searchDuration av
       = Math_max (inject_Z (Z.abs (parseInt to - parseInt f) mod 24)) (1 # 2)
    /\ isValidDate
         (calculateEndTime t
            (Math_max (inject_Z (Z.abs (parseInt to - parseInt f) mod 24)) (1 # 2)))
       = true.
Proof.
  intros Hc Hs Hnan Hpos Hf Hto Hparse Hfuture Hget Hin.
  rewrite (getAvailableVehicles_checked now db c f to s t _ Hc Hs Hnan Hpos Hf Hto
             Hparse Hfuture (calculateRideDuration_sixDigits f to Hf Hto)) in Hget.
  destruct (List.length (filter (eligible (parseFloat c)) (vehicles db)) =? 0)%nat.
  - injection Hget as <-. destruct Hin.
  - destruct (isValidDate _) eqn:Hrange; [|discriminate].
    injection Hget as <-. cbn [availableVehicles searchDuration] in *.
    apply in_map_iff in Hin. destruct Hin as (veh & <- & Hveh).
    apply filter_In in Hveh. destruct Hveh as [Hveh Hfree].
    apply filter_In in Hveh. destruct Hveh as [Hveh Hel].
    apply length_zero_iff_nil in Hfree.
    exists veh. repeat split; assumption.
Qed.

(** What a search that answers 200 was asked. *)
Lemma getAvailableVehicles_success now db c f to s code av :
  getAvailableVehicles now db (mkAvailableQuery c f to s) = Success code av ->
  exists c' f' to' s' t,
    c = Some c' /\ f = Some f' /\ to = Some to' /\ s = Some s'
    /\ c' <> [] /\ s' <> []
    /\ isNaN (parseFloat c') = false
    /\ num_leb (parseFloat c') (Finite 0) = false
    /\ sixDigits f' = true /\ sixDigits to' = true
    /\ parseDate s' = Some t /\ now < t.
Proof.
  unfold getAvailableVehicles.
  cbn [q_capacityRequired q_fromPincode q_toPincode q_startTime].
  destruct (falsy c || falsy f || falsy to || falsy s) eqn:E0; [discriminate|].
  destruct c as [c|], f as [f|], to as [to|], s as [s|]; try discriminate.
  destruct (isNaN (parseFloat c) || num_leb (parseFloat c) (Finite 0)) eqn:E1;
    [discriminate|].
  destruct (negb (sixDigits f) || negb (sixDigits to)) eqn:E2; [discriminate|].
  destruct (parseDate s) as [t|] eqn:E3; [|discriminate].
  destruct (Z.leb_spec t now); [discriminate|].
  intros _. apply pincodes_accepted in E2. destruct E2 as [Hf Hto].
  apply orb_false_iff in E1. destruct E1 as [Hnan Hpos].
  exists c, f, to, s, t.
  assert (Hne : c <> [] /\ s <> []).
  { destruct c; [discriminate|]. destruct s; [|split; discriminate].
    simpl in E0. rewrite !orb_true_r in E0. discriminate. }
  destruct Hne. repeat split; try reflexivity; assumption.
Qed.

(** X9. A vehicle that the search lists can be booked for the same route
    and start in the same store: the commit does not answer with a
    conflict or a missing vehicle.  It stores the listed window, provided
    the customer id is not blank and the start passes the checks of the
    commit on its own clocks. *)
Theorem listed_vehicle_can_be_booked now db (cap f to s : jsstring) av e env
  (v c : jsstring) :
  getAvailableVehicles now db
    (mkAvailableQuery (Some cap) (Some f) (Some to) (Some s)) = Success 200 av ->
  In e (availableVehicles av) ->
  v <> [] ->
  castObjectId v = Some (v_id (av_vehicle e)) ->
  trim c <> [] ->
  clock env < av_startTime e <= clock env + 365 * 24 * 60 * 60 * 1000 ->
  saveClock env < av_startTime e ->
  exists b,
    postBooking env db (mkBookingBody (Some v) (Some f) (Some to) (Some s) (Some c))
    = (Success 201 b, mkStore (vehicles db) (bookings db ++ [b]))
    /\ vehicleId b = v_id (av_vehicle e)
    /\ startTime b = av_startTime e
    /\ endTime b = av_endTime e.
Proof using Type.
  intros Hget Hin Hv Hid Hc Hwin Hsave.
  destruct (getAvailableVehicles_success _ _ _ _ _ _ _ _ Hget)
    as (c' & f' & to' & s' & t & E1 & E2 & E3 & E4 & Hc' & Hs & Hnan & Hpos
        & Hf & Hto & Hparse & Hfuture).
  injection E1 as E1. injection E2 as E2. injection E3 as E3. injection E4 as E4.
  subst c' f' to' s'.
  destruct (getAvailableVehicles_entry now db cap f to s t av e Hc' Hs Hnan Hpos
              Hf Hto Hparse Hfuture Hget Hin)
    as (veh & -> & Hveh & Hel & Hfree & _).
  cbn [av_vehicle av_startTime av_endTime] in *.
  unfold eligible in Hel. apply andb_true_iff in Hel. destruct Hel as [_ Hact].
  assert (Hc0 : c <> []) by (intros ->; apply Hc; reflexivity).
  pose proof (prepareBooking_valid (clock env) db v f to s c (v_id veh) t
                Hv Hs Hc0 Hid Hf Hto Hparse Hwin
                (ex_intro _ veh (conj Hveh (conj eq_refl Hact)))) as Hp.
  eexists. split.
  - apply (postBooking_stores env db _ _ Hp).
    + exact Hfree.
    + apply validateBooking_newBooking; simpl; try assumption.
      * apply Math_max_lower.
      * rewrite trim_idempotent. split; assumption.
  - rewrite draft_document by (try assumption; apply Math_max_lower).
    simpl. auto.
Qed.

(** X10. The search has no upper limit of one year on the start: for a
    start more than 365 days after the clock, with a window that ends at
    a valid [Date], it answers 200, while the commit of the same request
    answers 400. *)
Theorem search_has_no_one_year_limit env db (cap f to s : jsstring) t
  (v c : jsstring) id :
  cap <> [] -> s <> [] -> v <> [] -> c <> [] ->
  isNaN (parseFloat cap) = false ->
  num_leb (parseFloat cap) (Finite 0) = false ->
  sixDigits f = true -> sixDigits to = true ->
  parseDate s = Some t ->
  castObjectId v = Some id ->
  clock env + 365 * 24 * 60 * 60 * 1000 < t ->
  (forall d, calculateRideDuration (Some f) (Some to) = Return d ->
             isValidDate (calculateEndTime t d) = true) ->
  (exists av,
     getAvailableVehicles (clock env) db
       (mkAvailableQuery (Some cap) (Some f) (Some to) (Some s)) = Success 200 av)
  /\ postBooking env db (mkBookingBody (Some v) (Some f) (Some to) (Some s) (Some c))
     = (ValidationError "Cannot book more than 1 year in advance", db).
Proof using Type.
  intros Hcap Hs Hv Hc Hnan Hpos Hf Hto Hparse Hid Hfar Hrange. split.
  - eexists.
    apply (getAvailableVehicles_valid (clock env) db cap f to s t);
      try assumption; [lia|].
    apply Hrange. apply calculateRideDuration_sixDigits; assumption.
  - pose proof (sixDigits_not_falsy f Hf) as Hf0.
    pose proof (sixDigits_not_falsy to Hto) as Hto0.
    unfold postBooking, prepareBooking.
    cbn [body_vehicleId body_fromPincode body_toPincode body_startTime
         body_customerId].
    rewrite Hf0, Hto0.
    destruct v; [congruence|]. destruct s; [congruence|]. destruct c; [congruence|].
    cbn [falsy orb]. rewrite Hid, Hf, Hto. cbn [negb orb]. rewrite Hparse.
    rewrite validateBookingTime_far by assumption. reflexivity.
Qed.

Lemma num_leb_finite_trans x y z :
  (x <= y)%Q -> num_leb (Finite y) (Finite z) = true ->
  num_leb (Finite x) (Finite z) = true.
Proof.
  simpl. rewrite !Qle_bool_iff. intros H1 H2. eapply Qle_trans; eassumption.
Qed.

(** X11. Asking for less capacity never loses a vehicle: for a window
    that ends at a valid [Date], every entry listed for a capacity is
    listed, for the same route and start, for any smaller positive
    capacity. *)
Theorem search_monotone_in_capacity now db (c1 c2 : jsstring) x1 x2
  (f to s : jsstring) av2 :
  c1 <> [] ->
  parseFloat c1 = Finite x1 -> parseFloat c2 = Finite x2 ->
  (0 < x1)%Q -> (x1 <= x2)%Q ->
  (forall t d, parseDate s = Some t ->
               calculateRideDuration (Some f) (Some to) = Return d ->
               isValidDate (calculateEndTime t d) = true) ->
  getAvailableVehicles now db
    (mkAvailableQuery (Some c2) (Some f) (Some to) (Some s)) = Success 200 av2 ->
  exists av1,
    getAvailableVehicles now db
      (mkAvailableQuery (Some c1) (Some f) (Some to) (Some s)) = Success 200 av1
    /\ searchDuration av1 = searchDuration av2
    /\ (forall e, In e (availableVehicles av2) -> In e (availableVehicles av1)).
Proof using Type.
  intros Hc1 Hx1 Hx2 Hpos Hle Hrange Hget.
  destruct (getAvailableVehicles_success _ _ _ _ _ _ _ _ Hget)
    as (c' & f' & to' & s' & t & E1 & E2 & E3 & E4 & Hc' & Hs & Hnan & Hpos2
        & Hf & Hto & Hparse & Hfuture).
  injection E1 as E1. injection E2 as E2. injection E3 as E3. injection E4 as E4.
  subst c' f' to' s'.
  pose proof (Hrange t _ Hparse (calculateRideDuration_sixDigits f to Hf Hto))
    as Hend.
  rewrite (getAvailableVehicles_valid now db c2 f to s t) in Hget by assumption.
  injection Hget as <-.
  eexists. split.
  - apply (getAvailableVehicles_valid now db c1 f to s t); try assumption.
    + rewrite Hx1. reflexivity.
    + rewrite Hx1. simpl. apply Qle_bool_false. exact Hpos.
  - split; [reflexivity|]. cbn [availableVehicles].
    intros e He. apply in_map_iff in He. destruct He as (veh & <- & Hveh).
    apply in_map_iff. exists veh. split; [reflexivity|].
    apply filter_In in Hveh. destruct Hveh as [Hveh Hfree].
    apply filter_In in Hveh. destruct Hveh as [Hveh Hel].
    apply filter_In. split; [|exact Hfree].
    apply filter_In. split; [exact Hveh|].
    unfold eligible in *. apply andb_true_iff in Hel. destruct Hel as [Hcap Hact].
    rewrite Hact, andb_true_r. rewrite Hx1. rewrite Hx2 in Hcap.
    eapply num_leb_finite_trans; eassumption.
Qed.

(** X26. A search that passes the checks and asks for a window whose end
    is beyond the last instant a [Date] can hold is answered 500 as soon
    as one vehicle is active and has the capacity: the overlap query
    throws.  Without such a vehicle the answer is 200 with an empty
    list. *)
Theorem search_end_beyond_last_date now db (c f to s : jsstring) t d :
  c <> [] -> s <> [] ->
  isNaN (parseFloat c) = false ->
  num_leb (parseFloat c) (Finite 0) = false ->
  sixDigits f = true -> sixDigits to = true ->
  parseDate s = Some t -> now < t ->
  calculateRideDuration (Some f) (Some to) = Return d ->
  maxTime < calculateEndTime t d ->
  ((exists v, In v (vehicles db) /\ isActive v = true
              /\ num_leb (parseFloat c) (Finite (capacityKg v)) = true) ->
   getAvailableVehicles now db
     (mkAvailableQuery (Some c) (Some f) (Some to) (Some s))
   = InternalError "Failed to find available vehicles")
  /\ ((forall v, In v (vehicles db) -> isActive v = true ->
         num_leb (parseFloat c) (Finite (capacityKg v)) = false) ->
      getAvailableVehicles now db
        (mkAvailableQuery (Some c) (Some f) (Some to) (Some s))
      = Success 200 (mkAvailable [] d)).
Proof using Type.
  intros Hc Hs Hnan Hpos Hf Hto Hparse Hfuture Hd Hlast.
  rewrite (getAvailableVehicles_checked now db c f to s t d) by assumption.
  assert (Hinvalid : isValidDate (calculateEndTime t d) = false).
  { unfold isValidDate. apply Z.leb_gt. lia. }
  rewrite Hinvalid. split.
  - intros (v & Hin & Hact & Hcap).
    destruct (List.length (filter (eligible (parseFloat c)) (vehicles db)) =? 0)%nat
      eqn:E; [|reflexivity].
    apply length_zero_iff_nil in E.
    assert (Hv : In v (filter (eligible (parseFloat c)) (vehicles db))).
    { apply filter_In. split; [exact Hin|]. unfold eligible.
      rewrite Hcap, Hact. reflexivity. }
    rewrite E in Hv. destruct Hv.
  - intros Hnone.
    destruct (filter (eligible (parseFloat c)) (vehicles db)) as [|v0 l] eqn:E;
      [reflexivity|].
    assert (Hv : In v0 (filter (eligible (parseFloat c)) (vehicles db)))
      by (rewrite E; left; reflexivity).
    apply filter_In in Hv. destruct Hv as [Hin Hel].
    unfold eligible in Hel. apply andb_true_iff in Hel. destruct Hel as [Hcap Hact].
    rewrite (Hnone v0 Hin Hact) in Hcap. discriminate.
Qed.


(** ** Status updates and lookups *)

Lemma statusOfString_not_falsy st s :
  statusOfString st = Some s -> falsy (Some st) = false.
Proof.
  destruct st; [rewrite statusOfString_empty; discriminate | reflexivity].
Qed.

Lemma findByIdAndUpdate_absent bs id s :
  (forall b, In b bs -> b_id b <> id) -> findByIdAndUpdate bs id s = None.
Proof.
  induction bs as [|b r IH]; intros H; simpl; [reflexivity|].
  destruct (N.eqb_spec (b_id b) id) as [E|E].
  - exfalso. apply (H b); [left; reflexivity | exact E].
  - rewrite IH; [reflexivity|]. intros x Hx. apply H. right. exact Hx.
Qed.

Lemma findByIdAndUpdate_first l1 b l2 id s :
  b_id b = id -> (forall x, In x l1 -> b_id x <> id) ->
  findByIdAndUpdate (l1 ++ b :: l2) id s
  = Some (setStatus b s, l1 ++ setStatus b s :: l2).
Proof.
  intros Hb. induction l1 as [|x l1 IH]; intros H; simpl.
  - rewrite Hb, N.eqb_refl. reflexivity.
  - destruct (N.eqb_spec (b_id x) id) as [E|E].
    + exfalso. apply (H x); [left; reflexivity | exact E].
    + rewrite IH; [reflexivity|]. intros y Hy. apply H. right. exact Hy.
Qed.

Lemma findByIdAndUpdate_found bs id s updated bs' :
  findByIdAndUpdate bs id s = Some (updated, bs') ->
  find (fun b => (b_id b =? id)%N) bs' = Some updated.
Proof.
  revert bs'. induction bs as [|b r IH]; intros bs' H; simpl in H; [discriminate|].
  destruct (b_id b =? id)%N eqn:E.
  - injection H as <- <-. simpl. rewrite E. reflexivity.
  - destruct (findByIdAndUpdate r id s) as [[u r']|]; [|discriminate].
    injection H as <- <-. simpl. rewrite E. apply IH. reflexivity.
Qed.

(** X12. A status update answers 404 when no booking has the id.
    Otherwise it succeeds whatever the old and the new status are, and
    changes one thing only: the status of the first booking with that id.
    The other bookings, their order and the fleet stay as they were. *)
Theorem status_update_effect db id st oid s :
  castObjectId id = Some oid ->
  statusOfString st = Some s ->
  ((forall b, In b (bookings db) -> b_id b <> oid) ->
   patchBookingStatus db id (Some st) = (NotFoundError "Booking not found", db))
  /\ (forall l1 b l2,
        bookings db = l1 ++ b :: l2 ->
        b_id b = oid ->
        (forall x, In x l1 -> b_id x <> oid) ->
        patchBookingStatus db id (Some st)
        = (Success 200 (setStatus b s),
           mkStore (vehicles db) (l1 ++ setStatus b s :: l2))).
Proof.
  intros Hid Hs. unfold patchBookingStatus.
  rewrite Hid, (statusOfString_not_falsy st s Hs), Hs. split.
  - intros H. rewrite (findByIdAndUpdate_absent _ _ _ H). reflexivity.
  - intros l1 b l2 Hsplit Hb Hl1.
    rewrite Hsplit, (findByIdAndUpdate_first l1 b l2 oid s Hb Hl1). reflexivity.
Qed.

(** X13. What [GET /api/bookings/:id] returns after a status update is
    the booking the update returned. *)
Theorem lookup_after_status_update db id st code updated :
  fst (patchBookingStatus db id st) = Success code updated ->
  getBooking (snd (patchBookingStatus db id st)) id
  = Success 200 (populate (vehicles db) updated).
Proof.
  unfold patchBookingStatus, getBooking.
  destruct (castObjectId id) as [oid|]; [|discriminate].
  destruct (if falsy st then None else _) as [s|]; [|discriminate].
  destruct (findByIdAndUpdate (bookings db) oid s) as [[u bs']|] eqn:E;
    [|discriminate].
  simpl. intros H. injection H as _ <-.
  rewrite (findByIdAndUpdate_found _ _ _ _ _ E). reflexivity.
Qed.

Lemma find_vehicle_some (vs : list Vehicle) id v :
  In v vs -> v_id v = id ->
  exists v', find (fun v => (v_id v =? id)%N) vs = Some v'
             /\ In v' vs /\ v_id v' = id.
Proof.
  intros Hin Hid.
  destruct (find (fun v => (v_id v =? id)%N) vs) as [v'|] eqn:E.
  - exists v'. split; [reflexivity|]. apply find_some in E.
    destruct E as [H1 H2]. apply N.eqb_eq in H2. auto.
  - pose proof (find_none _ _ E v Hin) as H. simpl in H.
    rewrite Hid, N.eqb_refl in H. discriminate.
Qed.

Lemma find_booking_last bs b id :
  (forall x, In x bs -> b_id x <> id) -> b_id b = id ->
  find (fun b => (b_id b =? id)%N) (bs ++ [b]) = Some b.
Proof.
  intros H Hb. induction bs as [|x r IH]; simpl.
  - rewrite Hb, N.eqb_refl. reflexivity.
  - destruct (N.eqb_spec (b_id x) id) as [E|E].
    + exfalso. apply (H x); [left; reflexivity | exact E].
    + apply IH. intros y Hy. apply H. right. exact Hy.
Qed.

Lemma preSave_id b : b_id (preSave b) = b_id b.
Proof. unfold preSave. destruct (negb _); reflexivity. Qed.

(** X14. A booking stored under an id that no earlier booking has is
    returned by [GET /api/bookings/:id], with a vehicle of the fleet in
    place of its vehicle id. *)
Theorem lookup_after_commit env db body b id :
  fst (postBooking env db body) = Success 201 b ->
  (forall x, In x (bookings db) -> b_id x <> newId env) ->
  castObjectId id = Some (newId env) ->
  exists v,
    In v (vehicles db) /\ v_id v = vehicleId b
    /\ getBooking (snd (postBooking env db body)) id
       = Success 200 (mkPopulatedBooking b (Some (vehicleRef v))).
Proof.
  intros Hok Hfresh Hid.
  assert (Hs : isSuccess (fst (postBooking env db body)) = true)
    by (rewrite Hok; reflexivity).
  destruct (postBooking_success_inv env db body Hs) as (d & Hp & Hfree & Hvalid).
  rewrite (postBooking_stores env db body d Hp Hfree Hvalid) in *.
  simpl in Hok. injection Hok as <-.
  destruct (preSave_newBooking (newId env) d (prepareBooking_endTime _ _ _ _ Hp))
    as (Hv & _).
  apply prepareBooking_draft in Hp.
  destruct Hp as (v' & f & to & s & c & est & _ & _ & _ & _ & _ & _
                  & (veh & Hin & Hvid & _) & _).
  destruct (find_vehicle_some (vehicles db) (d_vehicleId d) veh Hin Hvid)
    as (v & Hfind & Hvin & Hvv).
  exists v. split; [exact Hvin|]. split; [congruence|].
  unfold getBooking. rewrite Hid. cbn [snd bookings vehicles].
  rewrite find_booking_last;
    [| exact Hfresh | rewrite preSave_id; reflexivity].
  unfold populate. rewrite Hv, Hfind. reflexivity.
Qed.

Lemma findOverlapping_app l1 l2 vehicle start end_ :
  findOverlapping (l1 ++ l2) vehicle start end_
  = findOverlapping l1 vehicle start end_ ++ findOverlapping l2 vehicle start end_.
Proof. unfold findOverlapping. apply filter_app. Qed.

Lemma findOverlapping_In bs vehicle start end_ x :
  In x (findOverlapping bs vehicle start end_) -> In x bs.
Proof. intros H. apply findOverlapping_iff in H. tauto. Qed.

(** X15. When a commit is refused because of one reservation only, and
    that reservation is then set to completed or cancelled, the same
    commit is no longer refused for a conflict; it is stored when the
    customer id is not blank and the start is still ahead at [save].  The
    ids of the ledger are taken distinct. *)
Theorem released_reservation_frees_slot env db body info id st s :
  NoDup (map b_id (bookings db)) ->
  fst (postBooking env db body) = ConflictError [info] ->
  castObjectId id = Some (c_id info) ->
  statusOfString st = Some s ->
  occupies s = false ->
  (forall cs,
     fst (postBooking env (snd (patchBookingStatus db id (Some st))) body)
     <> ConflictError cs)
  /\ (forall c start t,
        body_customerId body = Some c -> trim c <> [] ->
        body_startTime body = Some start -> parseDate start = Some t ->
        saveClock env < t ->
        isSuccess
          (fst (postBooking env (snd (patchBookingStatus db id (Some st))) body))
        = true).
Proof.
  intros Hnodup Hconf Hid Hs Hocc.
  unfold postBooking in Hconf.
  destruct (prepareBooking (clock env) db body) as [r|d] eqn:Hp.
  { simpl in Hconf. subst r. exfalso. revert Hp. unfold prepareBooking.
    repeat (break_match; try discriminate). }
  unfold checkConflicts in Hconf.
  destruct (findOverlapping (bookings db) (d_vehicleId d) (d_startTime d) (d_endTime d))
    as [|b rest] eqn:Hfo.
  { simpl in Hconf.
    destruct (saveBooking_cases (saveClock env) (newId env) db d)
      as [(x & E & _) | (details & E)]; rewrite E in Hconf; discriminate. }
  simpl in Hconf. injection Hconf as Hinfo Hrest.
  destruct rest; [|discriminate]. clear Hrest.
  assert (Hbid : b_id b = c_id info) by (rewrite <- Hinfo; reflexivity).
  assert (Hbin : In b (bookings db)).
  { apply (findOverlapping_In _ (d_vehicleId d) (d_startTime d) (d_endTime d)).
    rewrite Hfo. left. reflexivity. }
  destruct (in_split _ _ Hbin) as (l1 & l2 & Hsplit).
  rewrite Hsplit in Hnodup. rewrite map_app in Hnodup. simpl in Hnodup.
  pose proof (NoDup_remove_2 _ _ _ Hnodup) as Hnot.
  assert (Hl1 : forall x, In x l1 -> b_id x <> b_id b).
  { intros x Hx E. apply Hnot. apply in_or_app. left.
    rewrite <- E. apply in_map. exact Hx. }
  assert (Hl2 : forall x, In x l2 -> b_id x <> b_id b).
  { intros x Hx E. apply Hnot. apply in_or_app. right.
    rewrite <- E. apply in_map. exact Hx. }
  rewrite Hsplit in Hfo.
  change (b :: l2) with ([b] ++ l2) in Hfo.
  rewrite !findOverlapping_app in Hfo.
  assert (Hfo1 : findOverlapping l1 (d_vehicleId d) (d_startTime d) (d_endTime d) = []).
  { destruct (findOverlapping l1 _ _ _) as [|x r] eqn:E; [reflexivity|].
    exfalso. simpl in Hfo. injection Hfo as Hx _.
    apply (Hl1 x); [|congruence].
    apply (findOverlapping_In _ (d_vehicleId d) (d_startTime d) (d_endTime d)).
    rewrite E. left. reflexivity. }
  assert (Hfo2 : findOverlapping l2 (d_vehicleId d) (d_startTime d) (d_endTime d) = []).
  { rewrite Hfo1 in Hfo. simpl in Hfo.
    destruct (findOverlapping l2 _ _ _) as [|x r] eqn:E; [reflexivity|].
    exfalso.
    assert (Hx : In x l2).
    { apply (findOverlapping_In _ (d_vehicleId d) (d_startTime d) (d_endTime d)).
      rewrite E. left. reflexivity. }
    destruct (overlapFilter (d_vehicleId d) (d_startTime d) (d_endTime d) b);
      simpl in Hfo.
    - discriminate.
    - injection Hfo as Hxb _. apply (Hl2 x Hx). congruence. }
  assert (Hpatch : patchBookingStatus db id (Some st)
                   = (Success 200 (setStatus b s),
                      mkStore (vehicles db) (l1 ++ setStatus b s :: l2))).
  { unfold patchBookingStatus.
    rewrite Hid, (statusOfString_not_falsy st s Hs), Hs, Hsplit.
    rewrite (findByIdAndUpdate_first l1 b l2 (c_id info) s Hbid); [reflexivity|].
    intros x Hx. rewrite <- Hbid. apply Hl1. exact Hx. }
  rewrite Hpatch. cbn [snd].
  assert (Hfree : findOverlapping (l1 ++ setStatus b s :: l2)
                    (d_vehicleId d) (d_startTime d) (d_endTime d) = []).
  { change (setStatus b s :: l2) with ([setStatus b s] ++ l2).
    rewrite !findOverlapping_app, Hfo1, Hfo2.
    unfold findOverlapping, overlapFilter. simpl. rewrite Hocc.
    rewrite andb_false_r. reflexivity. }
  assert (Hp' : prepareBooking (clock env)
                  (mkStore (vehicles db) (l1 ++ setStatus b s :: l2)) body = inr d).
  { rewrite (prepareBooking_same_fleet _ db) by reflexivity. exact Hp. }
  split.
  - intros cs. unfold postBooking, checkConflicts. rewrite Hp'. cbn [bookings].
    rewrite Hfree. simpl.
    destruct (saveBooking_cases (saveClock env) (newId env)
                (mkStore (vehicles db) (l1 ++ setStatus b s :: l2)) d)
      as [(x & -> & _) | (details & ->)]; discriminate.
  - intros c start t Hc Hcne Hstart Hparse Hsave.
    rewrite (postBooking_stores env _ body d Hp' Hfree); [reflexivity|].
    apply prepareBooking_draft in Hp.
    destruct Hp as (v' & f & to & s0 & c0 & est & Hbody & _ & Hf & Hto & Hdate
                    & _ & _ & Hest & Hd).
    rewrite Hbody in Hc, Hstart. simpl in Hc, Hstart.
    injection Hc as ->. injection Hstart as ->.
    rewrite Hparse in Hdate. injection Hdate as Hdate.
    rewrite (calculateRideDuration_sixDigits f to Hf Hto) in Hest.
    injection Hest as Hest.
    rewrite Hd. apply validateBooking_newBooking; simpl; try assumption.
    + rewrite <- Hest. apply Math_max_lower.
    + rewrite trim_idempotent. split; [exact Hcne | lia].
Qed.


(** ** What the operations keep *)

Lemma sameButStatus_refl b : sameButStatus b b.
Proof. unfold sameButStatus. repeat split; reflexivity. Qed.

Lemma Forall2_sameButStatus_refl bs : Forall2 sameButStatus bs bs.
Proof.
  induction bs; constructor; [apply sameButStatus_refl | assumption].
Qed.

Lemma findByIdAndUpdate_sameButStatus bs id s updated bs' :
  findByIdAndUpdate bs id s = Some (updated, bs') ->
  Forall2 sameButStatus bs' bs.
Proof.
  revert bs'. induction bs as [|b r IH]; intros bs' H; simpl in H; [discriminate|].
  destruct (b_id b =? id)%N.
  - injection H as <- <-. constructor; [|apply Forall2_sameButStatus_refl].
    unfold sameButStatus, setStatus. simpl. repeat split; reflexivity.
  - destruct (findByIdAndUpdate r id s) as [[u r']|]; [|discriminate].
    injection H as <- <-. constructor; [apply sameButStatus_refl|].
    apply IH. reflexivity.
Qed.

Lemma patchBookingStatus_sameButStatus db id st :
  vehicles (snd (patchBookingStatus db id st)) = vehicles db
  /\ Forall2 sameButStatus (bookings (snd (patchBookingStatus db id st)))
       (bookings db).
Proof.
  unfold patchBookingStatus.
  destruct (castObjectId id) as [oid|];
    [|split; [reflexivity | apply Forall2_sameButStatus_refl]].
  destruct (if falsy st then None else _) as [s|];
    [|split; [reflexivity | apply Forall2_sameButStatus_refl]].
  destruct (findByIdAndUpdate (bookings db) oid s) as [[u bs']|] eqn:E;
    [|split; [reflexivity | apply Forall2_sameButStatus_refl]].
  split; [reflexivity|]. simpl.
  exact (findByIdAndUpdate_sameButStatus _ _ _ _ _ E).
Qed.

(** What a commit does to the store: nothing, or one document appended
    that passed every check. *)
Lemma postBooking_effect env db body :
  snd (postBooking env db body) = db
  \/ exists d,
       prepareBooking (clock env) db body = inr d
       /\ validateBooking (saveClock env) (newBooking (newId env) d) = []
       /\ snd (postBooking env db body)
          = mkStore (vehicles db) (bookings db ++ [preSave (newBooking (newId env) d)]).
Proof.
  unfold postBooking.
  destruct (prepareBooking (clock env) db body) as [r|d] eqn:Ep; [left; reflexivity|].
  destruct (checkConflicts db d); [left; reflexivity|].
  destruct (saveBooking_cases (saveClock env) (newId env) db d)
    as [(b & -> & Hb & Hv) | (details & ->)]; [|left; reflexivity].
  right. exists d. subst b. auto.
Qed.

(** X16. No operation deletes or reorders reservations or touches the
    fleet: after a commit or a status update the ledger is the old one,
    with at most one status changed, followed by at most one new
    reservation. *)
Theorem ledger_only_grows db op :
  vehicles (perform db op) = vehicles db
  /\ exists kept added,
       bookings (perform db op) = kept ++ added
       /\ Forall2 sameButStatus kept (bookings db)
       /\ (List.length added <= 1)%nat.
Proof.
  destruct op as [env body | id st]; simpl.
  - destruct (postBooking_effect env db body) as [-> | (d & _ & _ & ->)].
    + split; [reflexivity|]. exists (bookings db), [].
      rewrite app_nil_r. split; [reflexivity|].
      split; [apply Forall2_sameButStatus_refl | simpl; lia].
    + split; [reflexivity|]. eexists (bookings db), [_].
      split; [reflexivity|].
      split; [apply Forall2_sameButStatus_refl | simpl; lia].
  - destruct (patchBookingStatus_sameButStatus db id st) as [Hv Hb].
    split; [exact Hv|]. exists (bookings (snd (patchBookingStatus db id st))), [].
    rewrite app_nil_r. split; [reflexivity|]. split; [exact Hb | simpl; lia].
Qed.

Lemma Math_max_range k :
  0 <= k < 24 -> (1 # 2 <= Math_max (inject_Z k) (1 # 2) <= 23)%Q.
Proof.
  intros Hk. split; [apply Math_max_lower|].
  destruct (Z.eq_dec k 0) as [->|Hk0].
  - compute. discriminate.
  - rewrite Math_max_whole by lia. unfold Qle. simpl. lia.
Qed.

Lemma wellFormedBooking_sameButStatus fleet a b :
  sameButStatus a b -> wellFormedBooking fleet b -> wellFormedBooking fleet a.
Proof.
  unfold sameButStatus, wellFormedBooking.
  intros (_ & Hv & Hc & Hf & Hto & Hs & He & Hd).
  rewrite Hv, Hc, Hf, Hto, Hs, He, Hd. auto.
Qed.

Lemma wellFormedBooking_new now db body d env :
  prepareBooking now db body = inr d ->
  validateBooking (saveClock env) (newBooking (newId env) d) = [] ->
  wellFormedBooking (vehicles db) (preSave (newBooking (newId env) d)).
Proof.
  intros Hp Hvalid.
  pose proof (prepareBooking_endTime _ _ _ _ Hp) as Hend.
  apply prepareBooking_draft in Hp.
  destruct Hp as (v & f & to & s & c & est & _ & _ & Hf & Hto & _ & _ & Hveh
                  & Hest & Hd).
  rewrite (calculateRideDuration_sixDigits f to Hf Hto) in Hest.
  injection Hest as Hest.
  assert (Hrange : (1 # 2 <= est <= 23)%Q).
  { rewrite <- Hest. apply Math_max_range. apply Z.mod_pos_bound. reflexivity. }
  destruct (estimate_milliseconds_bounds (Z.abs (parseInt to - parseInt f) mod 24))
    as (m & Hm & Hms).
  { apply Z.mod_pos_bound. reflexivity. }
  rewrite Hest in Hms.
  rewrite Hd in Hvalid |- *.
  rewrite draft_document by (try assumption; apply Hrange).
  apply validateBooking_newBooking in Hvalid; simpl; try assumption;
    try apply Hrange.
  simpl in Hvalid. rewrite trim_idempotent in Hvalid. destruct Hvalid as [Hc _].
  unfold wellFormedBooking. simpl.
  rewrite (calculateEndTime_whole (d_startTime d) est m Hms).
  repeat split; try assumption; try apply Hrange.
  - apply trim_idempotent.
  - rewrite inject_Z_plus, <- Hms. ring.
  - lia.
Qed.

Lemma Forall2_sameButStatus_In bs' bs x :
  Forall2 sameButStatus bs' bs -> In x bs' ->
  exists y, In y bs /\ sameButStatus x y.
Proof.
  intros H. induction H as [|a b r' r Hab Hr IH]; intros Hx; [destruct Hx|].
  destruct Hx as [<-|Hx].
  - exists b. split; [left; reflexivity | exact Hab].
  - destruct (IH Hx) as (y & Hy & Hxy). exists y. split; [right; exact Hy | exact Hxy].
Qed.

(** X17. In every state reached from an empty ledger by commits and
    status updates, each reservation has pincodes of six digits, a trimmed
    customer id that is not empty, a duration between half an hour and 23
    hours, an end that is its start plus its duration, and a vehicle that
    is in the fleet and active. *)
Theorem reachable_ledger_well_formed db :
  reachable db ->
  forall b, In b (bookings db) -> wellFormedBooking (vehicles db) b.
Proof.
  induction 1 as [fleet | db op Hreach IH]; [intros b []|].
  destruct op as [env body | id st]; simpl.
  - destruct (postBooking_effect env db body) as [-> | (d & Hp & Hvalid & ->)];
      [exact IH|].
    simpl. intros b Hb. apply in_app_or in Hb. destruct Hb as [Hb | [<- | []]].
    + apply IH. exact Hb.
    + exact (wellFormedBooking_new _ _ _ _ _ Hp Hvalid).
  - destruct (patchBookingStatus_sameButStatus db id st) as [Hv Hb].
    rewrite Hv. intros b Hin.
    destruct (Forall2_sameButStatus_In _ _ _ Hb Hin) as (y & Hy & Hxy).
    eapply wellFormedBooking_sameButStatus; [exact Hxy | apply IH; exact Hy].
Qed.


(** ** The fleet *)

(** What an insert does, whatever the body: the vehicle is appended, or
    the store is untouched and the answer is a validation error. *)
Lemma postVehicle_cases id db body :
  (exists n c t,
     body = mkVehicleBody (JString n) (JNumber c) (JNumber t)
     /\ validateVehicle (mkVehicle id (trim n) c t true) = []
     /\ postVehicle id db body
        = (Success 201 (mkVehicle id (trim n) c t true),
           mkStore (vehicles db ++ [mkVehicle id (trim n) c t true]) (bookings db)))
  \/ (isValidationError (fst (postVehicle id db body)) = true
      /\ snd (postVehicle id db body) = db).
Proof.
  unfold postVehicle, newVehicle. destruct body as [n c t]. simpl.
  destruct (not_ n || not_ c || not_ t); [right; split; reflexivity|].
  destruct n; try (right; split; reflexivity).
  destruct c; try (right; split; reflexivity).
  destruct t; try (right; split; reflexivity).
  rewrite trim_idempotent.
  destruct (validateVehicle (mkVehicle id (trim s) q q0 true)) eqn:E.
  - left. exists s, q, q0. auto.
  - right. split; reflexivity.
Qed.

(** X18. Whatever the body, an insert either stores one vehicle, active,
    with the id generated for it and a name without surrounding white
    space, and leaves the reservations alone, or answers with a validation
    error and leaves the store as it was.  A capacity or a tyre count of
    zero is answered as a missing field. *)
Theorem vehicle_insert_any_body id db body :
  ((exists v,
      postVehicle id db body
      = (Success 201 v, mkStore (vehicles db ++ [v]) (bookings db))
      /\ v_id v = id /\ isActive v = true
      /\ trim (name v) = name v
      /\ validateVehicle v = [])
   \/ (isValidationError (fst (postVehicle id db body)) = true
       /\ snd (postVehicle id db body) = db))
  /\ (forall c, vb_capacityKg body = JNumber c \/ vb_tyres body = JNumber c ->
        (c == 0)%Q ->
        postVehicle id db body
        = (ValidationError "Name, capacityKg, and tyres are required fields", db)).
Proof.
  split.
  - destruct (postVehicle_cases id db body) as [(n & c & t & _ & Hv & Hp) | H].
    + left. eexists. split; [exact Hp|]. simpl.
      repeat split; [apply trim_idempotent | exact Hv].
    + right. exact H.
  - intros c Hc Hz. apply Qeq_bool_iff in Hz. unfold postVehicle.
    destruct Hc as [Hc|Hc]; rewrite Hc; simpl; rewrite Hz;
      rewrite ?orb_true_r; reflexivity.
Qed.

(** X19. A vehicle that was just inserted can be booked at once: a
    request for its id that passes the checks of the commit is stored, as
    long as no reservation refers to that id already. *)
Theorem new_vehicle_can_be_booked id db vbody veh env (v f to s c : jsstring) t :
  fst (postVehicle id db vbody) = Success 201 veh ->
  (forall b, In b (bookings db) -> vehicleId b <> id) ->
  v <> [] -> s <> [] -> trim c <> [] ->
  castObjectId v = Some id ->
  sixDigits f = true -> sixDigits to = true ->
  parseDate s = Some t ->
  clock env < t <= clock env + 365 * 24 * 60 * 60 * 1000 ->
  saveClock env < t ->
  exists b,
    fst (postBooking env (snd (postVehicle id db vbody))
           (mkBookingBody (Some v) (Some f) (Some to) (Some s) (Some c)))
    = Success 201 b
    /\ vehicleId b = v_id veh.
Proof.
  intros Hins Hfresh Hv Hs Hc Hid Hf Hto Hparse Hwin Hsave.
  destruct (postVehicle_cases id db vbody) as [(n & cap & ty & _ & _ & Hp) | [H _]].
  2:{ rewrite Hins in H. discriminate. }
  rewrite Hp in Hins |- *. simpl in Hins. injection Hins as <-. cbn [snd].
  assert (Hc0 : c <> []) by (intros ->; apply Hc; reflexivity).
  assert (Hveh : exists x,
             In x (vehicles db ++ [mkVehicle id (trim n) cap ty true])
             /\ v_id x = id /\ isActive x = true).
  { exists (mkVehicle id (trim n) cap ty true).
    split; [apply in_or_app; right; left; reflexivity | split; reflexivity]. }
  pose proof (prepareBooking_valid (clock env)
                (mkStore (vehicles db ++ [mkVehicle id (trim n) cap ty true])
                   (bookings db))
                v f to s c id t Hv Hs Hc0 Hid Hf Hto Hparse Hwin Hveh) as Hprep.
  rewrite (postBooking_stores env _ _ _ Hprep).
  - eexists. split; [reflexivity|].
    rewrite draft_document by (try assumption; apply Math_max_lower). reflexivity.
  - simpl. apply findOverlapping_nil. intros b Hb Hbv. exfalso.
    exact (Hfresh b Hb Hbv).
  - apply validateBooking_newBooking; simpl; try assumption.
    + apply Math_max_lower.
    + rewrite trim_idempotent. split; assumption.
Qed.

(** X20. [GET /api/vehicles] lists exactly the active vehicles of the
    store and counts them, and a vehicle that was just inserted is among
    them. *)
Theorem active_vehicles_listed db :
  exists listing,
    getVehicles db = Success 200 listing
    /\ count listing = List.length (items listing)
    /\ count listing = List.length (filter isActive (vehicles db))
    /\ (forall v, In v (items listing) <-> In v (vehicles db) /\ isActive v = true)
    /\ (forall id body v,
          fst (postVehicle id db body) = Success 201 v ->
          exists listing',
            getVehicles (snd (postVehicle id db body)) = Success 200 listing'
            /\ In v (items listing')).
Proof using Type newestFirst_permutation.
  eexists. split; [reflexivity|]. cbn [count items].
  split; [reflexivity|].
  split; [apply Permutation_length, newestFirst_permutation|].
  split.
  - intros v. rewrite <- filter_In. split; intros H.
    + eapply Permutation_in; [apply newestFirst_permutation | exact H].
    + eapply Permutation_in;
        [apply Permutation_sym, newestFirst_permutation | exact H].
  - intros id body v Hins. eexists. split; [reflexivity|]. cbn [items].
    eapply Permutation_in; [apply Permutation_sym, newestFirst_permutation|].
    destruct (postVehicle_cases id db body) as [(n & c & t & _ & _ & Hp) | [H _]].
    + rewrite Hp in Hins |- *. simpl in Hins. injection Hins as <-.
      cbn [snd vehicles]. apply filter_In.
      split; [apply in_or_app; right; left; reflexivity | reflexivity].
    + rewrite Hins in H. discriminate.
Qed.


(** ** Listing the bookings *)

Lemma jsstring_eqb_eq a b : jsstring_eqb a b = true <-> a = b.
Proof.
  revert b. induction a as [|x a IH]; intros [|y b]; simpl;
    try (split; [intros; discriminate | intros; discriminate]);
    [split; reflexivity|].
  rewrite andb_true_iff, N.eqb_eq, IH. split.
  - intros [-> ->]. reflexivity.
  - intros H. injection H as -> ->. split; reflexivity.
Qed.

Lemma status_eqb_eq a b : status_eqb a b = true <-> a = b.
Proof. destruct a, b; simpl; split; intros; try reflexivity; discriminate. Qed.

(** The keys of the filter the handler builds, when it builds one. *)
Lemma buildFilter_fields query filter :
  buildFilter query = inr filter ->
  f_customerId filter = given (lq_customerId query)
  /\ f_vehicleId filter
     = match given (lq_vehicleId query) with
       | Some v => castObjectId v
       | None => None
       end
  /\ f_status filter
     = match given (lq_status query) with
       | Some st => statusOfString st
       | None => None
       end
  /\ f_startTime_gte filter
     = match given (lq_startDate query) with
       | Some d => parseDate d
       | None => None
       end
  /\ f_startTime_lte filter
     = match given (lq_endDate query) with
       | Some d => parseDate d
       | None => None
       end.
Proof.
  unfold buildFilter, given. destruct query as [c v st sd ed].
  cbn [lq_customerId lq_vehicleId lq_status lq_startDate lq_endDate].
  destruct v as [[|v0 v]|]; cbn [falsy];
    [| destruct (castObjectId (v0 :: v)) eqn:Ev; [|intros; discriminate] |];
    (destruct st as [[|st0 st]|]; cbn [falsy];
     [| destruct (statusOfString (st0 :: st)) eqn:Est; [|intros; discriminate] |];
     (destruct sd as [[|sd0 sd]|]; cbn [falsy andb];
      [| destruct (parseDate (sd0 :: sd)) eqn:Esd; [|intros; discriminate] |];
      (destruct ed as [[|ed0 ed]|]; cbn [falsy andb];
       [| destruct (parseDate (ed0 :: ed)) eqn:Eed; [|intros; discriminate] |];
       intros H; injection H as <-;
       cbn [f_customerId f_vehicleId f_status f_startTime_gte f_startTime_lte];
       destruct (falsy c); repeat split; reflexivity))).
Qed.

(** The handler refuses a query exactly for a parameter that is given
    and does not parse. *)
Lemma buildFilter_refused query :
  (exists message, buildFilter query = inl message)
  <-> (exists v, given (lq_vehicleId query) = Some v /\ castObjectId v = None)
      \/ (exists st, given (lq_status query) = Some st /\ statusOfString st = None)
      \/ (exists d, given (lq_startDate query) = Some d /\ parseDate d = None)
      \/ (exists d, given (lq_endDate query) = Some d /\ parseDate d = None).
Proof.
  split.
  - intros [message H]. revert H.
    unfold buildFilter, given. destruct query as [c v st sd ed].
    cbn [lq_customerId lq_vehicleId lq_status lq_startDate lq_endDate].
    destruct v as [[|v0 v]|]; cbn [falsy];
      [| destruct (castObjectId (v0 :: v)) eqn:Ev; [|intros _; left; eauto] |];
      (destruct st as [[|st0 st]|]; cbn [falsy];
       [| destruct (statusOfString (st0 :: st)) eqn:Est;
          [|intros _; right; left; eauto] |];
       (destruct sd as [[|sd0 sd]|]; cbn [falsy andb];
        [| destruct (parseDate (sd0 :: sd)) eqn:Esd;
           [|intros _; right; right; left; eauto] |];
        (destruct ed as [[|ed0 ed]|]; cbn [falsy andb];
         [| destruct (parseDate (ed0 :: ed)) eqn:Eed;
            [|intros _; right; right; right; eauto] |];
         intros H; discriminate H))).
  - intros H.
    destruct (buildFilter query) as [message|filter] eqn:E; [eauto|].
    exfalso. destruct (buildFilter_fields query filter E) as (_ & Hv & Hst & Hsd & Hed).
    revert E. unfold buildFilter.
    destruct H as [(v & Hg & Hp) | [(st & Hg & Hp) | [(d & Hg & Hp) | (d & Hg & Hp)]]];
      unfold given in Hg.
    + destruct (falsy (lq_vehicleId query)); [discriminate|].
      rewrite Hg, Hp. discriminate.
    + destruct (if falsy (lq_vehicleId query) then _ else _); [discriminate|].
      destruct (falsy (lq_status query)); [discriminate|].
      rewrite Hg, Hp. discriminate.
    + destruct (if falsy (lq_vehicleId query) then _ else _); [discriminate|].
      destruct (if falsy (lq_status query) then _ else _); [discriminate|].
      destruct (falsy (lq_startDate query)); [discriminate|].
      cbn [andb]. rewrite Hg, Hp. discriminate.
    + destruct (if falsy (lq_vehicleId query) then _ else _); [discriminate|].
      destruct (if falsy (lq_status query) then _ else _); [discriminate|].
      destruct (falsy (lq_endDate query)); [discriminate|].
      rewrite andb_false_r.
      destruct (if falsy (lq_startDate query) then _ else _); [discriminate|].
      rewrite Hg, Hp. discriminate.
Qed.

(** X21. [GET /api/bookings] answers 400 exactly when a vehicle id, a
    status, a start date or an end date is given and does not parse
    (an empty parameter counts as not given); otherwise it answers 200. *)
Theorem list_bookings_validation db query :
  (isValidationError (getBookings db query) = true
   <-> (exists v, given (lq_vehicleId query) = Some v /\ castObjectId v = None)
       \/ (exists st, given (lq_status query) = Some st /\ statusOfString st = None)
       \/ (exists d, given (lq_startDate query) = Some d /\ parseDate d = None)
       \/ (exists d, given (lq_endDate query) = Some d /\ parseDate d = None))
  /\ (isValidationError (getBookings db query) = false ->
      isSuccess (getBookings db query) = true).
Proof.
  rewrite <- buildFilter_refused. unfold getBookings.
  destruct (buildFilter query) as [message|filter]; simpl; split.
  - split; [intros _; eauto | reflexivity].
  - intros; discriminate.
  - split; [intros; discriminate | intros [m H]; discriminate].
  - reflexivity.
Qed.

Lemma matchesFilter_iff filter b :
  matchesFilter filter b = true
  <-> (forall c, f_customerId filter = Some c -> customerId b = castCustomerId c)
      /\ (forall id, f_vehicleId filter = Some id -> vehicleId b = id)
      /\ (forall s, f_status filter = Some s -> status b = s)
      /\ (forall t, f_startTime_gte filter = Some t -> t <= startTime b)
      /\ (forall t, f_startTime_lte filter = Some t -> startTime b <= t).
Proof.
  unfold matchesFilter. rewrite !andb_true_iff.
  destruct (f_customerId filter) as [c|], (f_vehicleId filter) as [id|],
    (f_status filter) as [s|], (f_startTime_gte filter) as [t1|],
    (f_startTime_lte filter) as [t2|];
    rewrite ?jsstring_eqb_eq, ?N.eqb_eq, ?status_eqb_eq, ?Z.leb_le;
    (split;
     [ intros ((((H1 & H2) & H3) & H4) & H5);
       repeat split; intros x Hx;
       try discriminate; try (injection Hx as <-; assumption)
     | intros (H1 & H2 & H3 & H4 & H5);
       repeat split; auto ]).
Qed.

(** X22. When [GET /api/bookings] answers 200, it lists, with their
    vehicle put in, exactly the stored bookings that agree with every
    parameter given: the customer id, the vehicle id, the status, a start
    not before the start date and not after the end date; [count] is the
    number of bookings listed. *)
Theorem list_bookings_filters db query code listing :
  getBookings db query = Success code listing ->
  code = 200
  /\ count listing = List.length (items listing)
  /\ (forall pb,
        In pb (items listing)
        <-> exists b,
              In b (bookings db)
              /\ pb = populate (vehicles db) b
              /\ (forall c, given (lq_customerId query) = Some c ->
                    customerId b = castCustomerId c)
              /\ (forall v id, given (lq_vehicleId query) = Some v ->
                    castObjectId v = Some id -> vehicleId b = id)
              /\ (forall st s, given (lq_status query) = Some st ->
                    statusOfString st = Some s -> status b = s)
              /\ (forall d t, given (lq_startDate query) = Some d ->
                    parseDate d = Some t -> t <= startTime b)
              /\ (forall d t, given (lq_endDate query) = Some d ->
                    parseDate d = Some t -> startTime b <= t)).
Proof using Type newestFirst_permutation.
  unfold getBookings.
  destruct (buildFilter query) as [message|filter] eqn:E; [intros; discriminate|].
  intros H. injection H as <- <-. cbn [count items].
  split; [reflexivity|]. split; [reflexivity|].
  destruct (buildFilter_fields query filter E) as (Hc & Hv & Hst & Hsd & Hed).
  intros pb. split.
  - intros Hin.
    apply (Permutation_in _ (newestFirst_permutation _ _)) in Hin.
    apply in_map_iff in Hin. destruct Hin as (b & <- & Hin).
    apply filter_In in Hin. destruct Hin as [Hin Hm].
    apply matchesFilter_iff in Hm. destruct Hm as (M1 & M2 & M3 & M4 & M5).
    exists b. split; [assumption|]. split; [reflexivity|].
    split; [intros c Hg; apply M1; rewrite Hc; assumption|].
    split; [intros v id Hg Hp; apply M2; rewrite Hv, Hg; assumption|].
    split; [intros st s Hg Hp; apply M3; rewrite Hst, Hg; assumption|].
    split; [intros d t Hg Hp; apply M4; rewrite Hsd, Hg; assumption|].
    intros d t Hg Hp; apply M5; rewrite Hed, Hg; assumption.
  - intros (b & Hin & -> & M1 & M2 & M3 & M4 & M5).
    apply (Permutation_in _ (Permutation_sym (newestFirst_permutation _ _))).
    apply in_map. apply filter_In. split; [assumption|].
    apply matchesFilter_iff.
    split; [intros c Hg; apply M1; rewrite <- Hc; assumption|].
    split; [intros id Hg; rewrite Hv in Hg;
            destruct (given (lq_vehicleId query)) as [v|] eqn:G;
            [apply (M2 v); [reflexivity | assumption] | discriminate]|].
    split; [intros s Hg; rewrite Hst in Hg;
            destruct (given (lq_status query)) as [st|] eqn:G;
            [apply (M3 st); [reflexivity | assumption] | discriminate]|].
    split; [intros t Hg; rewrite Hsd in Hg;
            destruct (given (lq_startDate query)) as [d|] eqn:G;
            [apply (M4 d); [reflexivity | assumption] | discriminate]|].
    intros t Hg; rewrite Hed in Hg;
      destruct (given (lq_endDate query)) as [d|] eqn:G;
      [apply (M5 d); [reflexivity | assumption] | discriminate].
Qed.


(** ** The collection validators *)

Lemma app_nil_inv {A} (l1 l2 : list A) : l1 ++ l2 = [] -> l1 = [] /\ l2 = [].
Proof. destruct l1; [auto | intros; discriminate]. Qed.

Lemma validatePincode_pattern required p :
  validatePincode required p = [] -> patternSixDigits p = true.
Proof.
  unfold validatePincode, patternSixDigits. destruct p; [intros; discriminate|].
  destruct (sixDigits (n :: p)); [reflexivity | intros; discriminate].
Qed.

(** X23. A vehicle that passes the schema of the model passes the
    validator of the [vehicles] collection. *)
Theorem valid_vehicle_passes_collection_validator v :
  validateVehicle v = [] -> vehiclesValidator v = true.
Proof.
  unfold validateVehicle, vehiclesValidator. intros H.
  apply app_nil_inv in H. destruct H as [_ H].
  apply app_nil_inv in H. destruct H as [Hc Ht].
  destruct (Qle_bool 1 (capacityKg v)); [|discriminate].
  destruct (Qle_bool (capacityKg v) 50000); [|discriminate].
  destruct (Qle_bool 2 (tyres v)); [|discriminate].
  destruct (Qle_bool (tyres v) 18); [|discriminate].
  reflexivity.
Qed.

(** X24. A booking that passes the schema of the model passes the
    validator of the [bookings] collection. *)
Theorem valid_booking_passes_collection_validator now b :
  validateBooking now b = [] -> bookingsValidator b = true.
Proof.
  unfold validateBooking, bookingsValidator. intros H.
  apply app_nil_inv in H. destruct H as [_ H].
  apply app_nil_inv in H. destruct H as [Hf H].
  apply app_nil_inv in H. destruct H as [Ht H].
  apply app_nil_inv in H. destruct H as [_ H].
  rewrite (validatePincode_pattern _ _ Hf), (validatePincode_pattern _ _ Ht).
  destruct (Qle_bool (1 # 10) (estimatedRideDurationHours b)); [|discriminate].
  reflexivity.
Qed.


(** ** The formatted duration *)

Lemma inject_Z_hours k : (inject_Z k * 60 * 60 * 1000 == inject_Z (k * 3600000))%Q.
Proof. unfold Qeq. simpl. lia. Qed.

(** X25. The formatted duration of a booking that a commit stores is the
    length of its window: the hours are between 0 and 23, the minutes are
    0 or 30 (never 60), and together they make up the time from the start
    to the end. *)
Theorem stored_duration_formatted env db body b :
  fst (postBooking env db body) = Success 201 b ->
  exists h m,
    durationFormatted b = decimal h ++ lit "h " ++ decimal m ++ lit "m"
    /\ 0 <= h <= 23
    /\ (m = 0 \/ m = 30)
    /\ endTime b - startTime b = (60 * h + m) * 60000.
Proof.
  intros Hpost.
  assert (Hs : isSuccess (fst (postBooking env db body)) = true)
    by (rewrite Hpost; reflexivity).
  destruct (postBooking_success_inv env db body Hs) as (d & Hprep & Hfree & Hvalid).
  rewrite (postBooking_stores env db body d Hprep Hfree Hvalid) in Hpost.
  simpl in Hpost. injection Hpost as <-.
  destruct (prepareBooking_draft _ _ _ _ Hprep)
    as (v & f & to & s & c & est & _ & _ & Hf & Hto & _ & _ & _ & Hest & Hd).
  rewrite (calculateRideDuration_sixDigits f to Hf Hto) in Hest.
  injection Hest as Hest.
  set (k := Z.abs (parseInt to - parseInt f) mod 24) in Hest.
  assert (Hk : 0 <= k < 24) by (apply Z.mod_pos_bound; lia).
  rewrite Hd.
  rewrite (draft_document (newId env) (d_vehicleId d) c f to (d_startTime d) est
             Hf Hto)
    by (rewrite <- Hest; apply Math_max_lower).
  unfold durationFormatted. cbn [estimatedRideDurationHours startTime endTime].
  destruct (Z.eq_dec k 0) as [K0 | K0].
  - rewrite K0 in Hest. change (Math_max (inject_Z 0) (1 # 2)) with (1 # 2) in Hest.
    rewrite <- Hest. exists 0, 30.
    split; [reflexivity|]. split; [lia|]. split; [right; reflexivity|].
    rewrite (calculateEndTime_whole (d_startTime d) (1 # 2) 1800000)
      by reflexivity.
    lia.
  - rewrite Math_max_whole in Hest by lia. rewrite <- Hest.
    exists k, 0.
    assert (Hfloor : Math_floor (inject_Z k) = k) by apply Qfloor_Z.
    rewrite Hfloor.
    assert (Hround : Math_round ((inject_Z k - inject_Z k) * 60) = 0).
    { unfold Math_round.
      rewrite (Qfloor_comp _ (1 # 2)); [reflexivity | ring]. }
    rewrite Hround.
    split; [reflexivity|]. split; [lia|]. split; [left; reflexivity|].
    rewrite (calculateEndTime_whole (d_startTime d) (inject_Z k) (k * 3600000))
      by apply inject_Z_hours.
    lia.
Qed.

End Routes.

(** * Scenarios

    The properties above at concrete requests, with the sample runtime. *)

(** A request inside a confirmed reservation does not list the vehicle;
    a request that starts when the reservation ends does. *)
Example search_inside_reservation :
  getAvailableVehicles Sample.parseDate Sample.parseFloat Sample.now
    Sample.morning Sample.searchInside
  = Success 200 (mkAvailable [] (1 # 2)).
Proof. vm_compute. reflexivity. Qed.

Example search_adjacent_reservation :
  getAvailableVehicles Sample.parseDate Sample.parseFloat Sample.now
    Sample.morning Sample.searchAdjacent
  = Success 200
      (mkAvailable
         [mkAvailableVehicle Sample.smallTruck 1 (lit "110001") (lit "110002")
            1875096000000 1875099600000] 1).
Proof. vm_compute. reflexivity. Qed.

Lemma run_reachable castObjectId parseDate db ops :
  reachable castObjectId parseDate db ->
  reachable castObjectId parseDate (run castObjectId parseDate db ops).
Proof.
  revert db. induction ops as [|op ops IH]; intros db H; simpl; [exact H|].
  apply IH. apply reachable_step. exact H.
Qed.

(** C1, counterexample.  A booking is cancelled, its hours are booked
    again, and the cancelled booking is set back to confirmed: the truck
    then holds two confirmed reservations that overlap. *)
Lemma reactivation_double_books :
  reachable Sample.castObjectId Sample.parseDate
    (run Sample.castObjectId Sample.parseDate Sample.fleet Sample.reactivation)
  /\ ~ NoDoubleBooking (v_id Sample.truck)
         (bookings (run Sample.castObjectId Sample.parseDate
                      Sample.fleet Sample.reactivation)).
Proof.
  split.
  - apply run_reachable. apply reachable_empty.
  - intros H.
    specialize (H 0%nat 1%nat).
    vm_compute in H.
    specialize (H _ _ (fun E => O_S 0 E) eq_refl eq_refl eq_refl eq_refl
                  eq_refl eq_refl).
    discriminate H.
Qed.

(** C1 at a ledger built by a commit, a move to in-progress and a
    second commit, which is refused. *)
Lemma no_double_booking_witness :
  let db :=
    perform Sample.castObjectId Sample.parseDate
      (perform Sample.castObjectId Sample.parseDate
         (perform Sample.castObjectId Sample.parseDate Sample.fleet
            (commit Sample.envA Sample.requestA))
         (updateStatus Sample.bookingAId (Some (lit "in-progress"))))
      (commit Sample.envB Sample.requestB) in
  reachableWithoutReactivation Sample.castObjectId Sample.parseDate db
  /\ NoDoubleBooking (v_id Sample.truck) (bookings db).
Proof.
  assert (H : reachableWithoutReactivation Sample.castObjectId Sample.parseDate
                (perform Sample.castObjectId Sample.parseDate
                   (perform Sample.castObjectId Sample.parseDate
                      (perform Sample.castObjectId Sample.parseDate Sample.fleet
                         (commit Sample.envA Sample.requestA))
                      (updateStatus Sample.bookingAId (Some (lit "in-progress"))))
                   (commit Sample.envB Sample.requestB))).
  { apply rwr_step; [apply rwr_step; [apply rwr_step; [apply rwr_empty|]|]|];
      vm_compute; reflexivity. }
  split; [exact H|].
  exact (no_double_booking_without_reactivation
           Sample.castObjectId Sample.parseDate _ (v_id Sample.truck) H).
Defined.

(** C2, at the failing schedule.  Two calls for overlapping hours of the
    truck, each running its conflict query before the other saves: both
    are answered 201 and the ledger holds two confirmed reservations that
    overlap.  Served one after the other, the second receives the conflict
    error. *)
Theorem interleaved_commits_double_book :
  interleave Sample.castObjectId Sample.parseDate [0; 1; 0; 1]%nat Sample.fleet
    [Received Sample.envA Sample.requestA; Received Sample.envB Sample.requestB]
  = ([Responded (Success 201 Sample.docA); Responded (Success 201 Sample.docB)],
     mkStore (vehicles Sample.fleet) [Sample.docA; Sample.docB])
  /\ doubleBooked Sample.docA Sample.docB = true
  /\ pairwiseScan [Sample.docA; Sample.docB] = false
  /\ serve Sample.castObjectId Sample.parseDate Sample.fleet
       [(Sample.envA, Sample.requestA); (Sample.envB, Sample.requestB)]
     = ([Success 201 Sample.docA; ConflictError [conflictInfo Sample.docA]],
        mkStore (vehicles Sample.fleet) [Sample.docA]).
Proof.
  repeat split; vm_compute; reflexivity.
Qed.

(** C3 at the second request for hours the truck already has. *)
Lemma commit_conflict_witness :
  exists conflicts,
    postBooking Sample.castObjectId Sample.parseDate Sample.envB Sample.afterA
      Sample.requestB
    = (ConflictError
         (map (fun b =>
                 mkConflictInfo (b_id b) (startTime b) (endTime b)
                   (fromPincode b ++ [32; 8594; 32]%N ++ toPincode b))
            conflicts),
       Sample.afterA)
    /\ In Sample.docA conflicts
    /\ In (mkConflictInfo Sample.bookingA 1875088800000 1875092400000
             (lit "110001" ++ [32; 8594; 32]%N ++ lit "110002"))
         (map (fun b =>
                 mkConflictInfo (b_id b) (startTime b) (endTime b)
                   (fromPincode b ++ [32; 8594; 32]%N ++ toPincode b))
            conflicts).
Proof.
  destruct (commit_conflict_reported Sample.castObjectId Sample.parseDate
              Sample.envB Sample.afterA Sample.requestB Sample.draftB)
    as (conflicts & Hpost & Hmem).
  - vm_compute. reflexivity.
  - exists Sample.docA.
    split; [left; reflexivity|]. split; [reflexivity|].
    split; [left; reflexivity | vm_compute; reflexivity].
  - assert (Hin : In Sample.docA conflicts).
    { apply Hmem.
      split; [left; reflexivity|]. split; [reflexivity|].
      split; [left; reflexivity | vm_compute; reflexivity]. }
    exists conflicts. split; [exact Hpost|]. split; [exact Hin|].
    apply in_map_iff. exists Sample.docA. split; [reflexivity | exact Hin].
Defined.

(** C4 at a search for two hours from 11:00, when the truck's booking
    ends and the small truck's booking still runs: the truck is listed,
    the small truck is not. *)
Lemma available_witness :
  exists d avs,
    getAvailableVehicles Sample.parseDate Sample.parseFloat Sample.now
      Sample.mixed Sample.search
    = Success 200 (mkAvailable avs d)
    /\ In Sample.truck (map av_vehicle avs)
    /\ ~ In Sample.smallTruck (map av_vehicle avs).
Proof.
  destruct (available_iff_free Sample.parseDate Sample.parseFloat Sample.now
              Sample.mixed Sample.search (lit "500") (lit "110001") (lit "110003")
              (lit "2029-06-02T11:00:00.000Z") 1875092400000)
    as (d & avs & Hd & Hget & _ & Hmem & _).
  - reflexivity.
  - discriminate.
  - discriminate.
  - vm_compute. reflexivity.
  - vm_compute. reflexivity.
  - vm_compute. reflexivity.
  - vm_compute. reflexivity.
  - vm_compute. reflexivity.
  - vm_compute. reflexivity.
  - intros d Hd. vm_compute in Hd. injection Hd as <-. vm_compute. reflexivity.
  - exists d, avs. split; [exact Hget|].
    vm_compute in Hd. injection Hd as <-.
    split.
    + apply Hmem.
      split; [left; reflexivity|].
      split; [reflexivity|].
      split; [vm_compute; reflexivity|].
      intros b [<-|[<-|[]]] Hv _.
      * vm_compute. reflexivity.
      * vm_compute in Hv. discriminate Hv.
    + intros H. apply Hmem in H. destruct H as (_ & _ & _ & H).
      specialize (H _ (or_intror (or_introl eq_refl)) eq_refl (or_introl eq_refl)).
      vm_compute in H. discriminate H.
Defined.

(** C6 at a start one hour before the clock. *)
Lemma booking_window_witness :
  isValidationError
    (fst (postBooking Sample.castObjectId Sample.parseDate Sample.envA
            Sample.fleet Sample.pastRequest)) = true
  /\ snd (postBooking Sample.castObjectId Sample.parseDate Sample.envA
            Sample.fleet Sample.pastRequest) = Sample.fleet.
Proof.
  destruct (commit_booking_window Sample.castObjectId Sample.parseDate
              Sample.envA Sample.fleet Sample.pastRequest
              (lit "2029-05-31T23:00:00.000Z") 1874962800000 eq_refl eq_refl)
    as (H & _).
  apply H. left. vm_compute. discriminate.
Defined.

(** C7, counterexample.  The vehicle id is well formed and names the
    deactivated van, and the start is an hour before the clock: the
    answer is the validation error, not the not-found error. *)
Lemma retired_vehicle_past_start :
  body_vehicleId Sample.staleRetiredRequest = Some Sample.retiredId
  /\ Sample.castObjectId Sample.retiredId = Some (v_id Sample.retired)
  /\ find (fun v => (v_id v =? v_id Sample.retired)%N && isActive v)
       (vehicles Sample.fleet) = None
  /\ fst (postBooking Sample.castObjectId Sample.parseDate Sample.envA
            Sample.fleet Sample.staleRetiredRequest)
     = ValidationError "Start time must be in the future"
  /\ ~ (exists m,
          fst (postBooking Sample.castObjectId Sample.parseDate Sample.envA
                 Sample.fleet Sample.staleRetiredRequest)
          = NotFoundError m).
Proof.
  repeat split; try (vm_compute; reflexivity).
  intros (m & H). vm_compute in H. discriminate H.
Qed.

(** C7 at a request for the deactivated van that is valid otherwise. *)
Lemma vehicle_not_found_witness :
  postBooking Sample.castObjectId Sample.parseDate Sample.envA Sample.fleet
    Sample.retiredRequest
  = (NotFoundError "Vehicle not found or inactive", Sample.fleet).
Proof.
  destruct (commit_vehicle_not_found Sample.castObjectId Sample.parseDate
              Sample.envA Sample.fleet Sample.retiredRequest
              Sample.retiredId (v_id Sample.retired) eq_refl eq_refl)
    as (Hstore & Hanswer).
  - intros veh [<-|[<-|[]]] Hid; [vm_compute in Hid; discriminate Hid | reflexivity].
  - rewrite (surjective_pairing (postBooking _ _ _ _ _)), Hstore.
    rewrite (Hanswer (lit "110001") (lit "110002")
               (lit "2029-06-02T10:00:00.000Z") (lit "customer-3") 1875088800000);
      try reflexivity; try discriminate.
    vm_compute. split; [reflexivity | discriminate].
Defined.

(** C8, counterexample.  A van with a name, a capacity of half a kilogram
    and four tyres has a non-empty name, a positive capacity and a tyre
    count in [2,18], and the insert fails with a validation error. *)
Lemma half_kilogram_van_rejected :
  lit "Van" <> []
  /\ (0 < 1 # 2)%Q
  /\ (2 <= 4 <= 18)%Q
  /\ postVehicle 7%N Sample.fleet Sample.halfKilogramVan
     = (SchemaValidationError ["Capacity must be at least 1 kg"], Sample.fleet).
Proof.
  split; [discriminate|]. split; [reflexivity|].
  split; [split; discriminate | reflexivity].
Qed.

(** C9 at two equal codes, where the floor applies. *)
Lemma estimate_witness :
  exists d,
    calculateRideDuration (Some (lit "110001")) (Some (lit "110001")) = Return d
    /\ (1 # 2 <= d)%Q.
Proof.
  destruct (estimate_at_least_half_hour (lit "110001") (lit "110001")
              eq_refl eq_refl) as (d & Hd & _ & Hhalf & _).
  exists d. split; assumption.
Defined.

(** X3 at the request for the deactivated van. *)
Lemma failed_commit_witness :
  snd (postBooking Sample.castObjectId Sample.parseDate Sample.envA Sample.fleet
         Sample.retiredRequest) = Sample.fleet
  /\ fst (postBooking Sample.castObjectId Sample.parseDate Sample.envA Sample.fleet
            Sample.retiredRequest)
     = NotFoundError "Vehicle not found or inactive".
Proof.
  split.
  - apply (failed_commit_keeps_store Sample.castObjectId Sample.parseDate).
    vm_compute. reflexivity.
  - vm_compute. reflexivity.
Defined.

(** X4 at the first sample request. *)
Lemma stored_booking_witness :
  status Sample.docA = confirmed
  /\ (inject_Z (endTime Sample.docA)
      == inject_Z (startTime Sample.docA)
         + estimatedRideDurationHours Sample.docA * 3600000)%Q
  /\ bookings (snd (postBooking Sample.castObjectId Sample.parseDate Sample.envA
                      Sample.fleet Sample.requestA))
     = bookings Sample.fleet ++ [Sample.docA].
Proof.
  apply (stored_booking_end_time Sample.castObjectId Sample.parseDate
           Sample.envA Sample.fleet Sample.requestA Sample.docA).
  vm_compute. reflexivity.
Defined.

(** X1 at the two sample requests, served in either order: the first is
    stored, the second is refused with the first as the conflict. *)
Lemma serial_commits_witness :
  (exists winner,
     serve Sample.castObjectId Sample.parseDate Sample.fleet
       [(Sample.envA, Sample.requestA); (Sample.envB, Sample.requestB)]
     = ([Success 201 winner; ConflictError [conflictInfo winner]],
        mkStore (vehicles Sample.fleet) (bookings Sample.fleet ++ [winner])))
  /\ (exists winner,
        serve Sample.castObjectId Sample.parseDate Sample.fleet
          [(Sample.envB, Sample.requestB); (Sample.envA, Sample.requestA)]
        = ([Success 201 winner; ConflictError [conflictInfo winner]],
           mkStore (vehicles Sample.fleet) (bookings Sample.fleet ++ [winner]))).
Proof.
  assert (Hcalls : forall e b,
             (e, b) = (Sample.envA, Sample.requestA)
             \/ (e, b) = (Sample.envB, Sample.requestB) ->
             exists d,
               prepareBooking Sample.castObjectId Sample.parseDate
                 (clock e) Sample.fleet b = inr d
               /\ (d = Sample.draftA \/ d = Sample.draftB)
               /\ d_vehicleId d = v_id Sample.truck
               /\ validateBooking (saveClock e) (newBooking (newId e) d) = []
               /\ findOverlapping (bookings Sample.fleet) (v_id Sample.truck)
                    (d_startTime d) (d_endTime d) = []).
  { intros e b [E|E]; injection E as -> ->.
    - exists Sample.draftA.
      split; [vm_compute; reflexivity|]. split; [left; reflexivity|].
      split; [reflexivity|]. split; vm_compute; reflexivity.
    - exists Sample.draftB.
      split; [vm_compute; reflexivity|]. split; [right; reflexivity|].
      split; [reflexivity|]. split; vm_compute; reflexivity. }
  assert (Hmutual : forall e1 b1 e2 b2 d1 d2,
             (e1, b1) = (Sample.envA, Sample.requestA)
             \/ (e1, b1) = (Sample.envB, Sample.requestB) ->
             (e2, b2) = (Sample.envA, Sample.requestA)
             \/ (e2, b2) = (Sample.envB, Sample.requestB) ->
             prepareBooking Sample.castObjectId Sample.parseDate
               (clock e1) Sample.fleet b1 = inr d1 ->
             prepareBooking Sample.castObjectId Sample.parseDate
               (clock e2) Sample.fleet b2 = inr d2 ->
             doTimeRangesOverlap (d_startTime d1) (d_endTime d1)
               (d_startTime d2) (d_endTime d2) = true).
  { intros e1 b1 e2 b2 d1 d2 H1 H2 P1 P2.
    destruct (Hcalls e1 b1 H1) as (d1' & Q1 & [-> | ->] & _);
      rewrite Q1 in P1; injection P1 as <-;
      destruct (Hcalls e2 b2 H2) as (d2' & Q2 & [-> | ->] & _);
      rewrite Q2 in P2; injection P2 as <-; reflexivity. }
  split.
  - apply (serial_commits_one_winner Sample.castObjectId Sample.parseDate
             Sample.fleet (v_id Sample.truck)).
    + intros e b [E|[E|[]]];
        (destruct (Hcalls e b) as (d & Hd & _ & Hrest);
         [auto | exists d; split; [exact Hd | exact Hrest]]).
    + intros e1 b1 e2 b2 d1 d2 [E1|[E1|[]]] [E2|[E2|[]]];
        apply Hmutual; auto.
  - apply (serial_commits_one_winner Sample.castObjectId Sample.parseDate
             Sample.fleet (v_id Sample.truck)).
    + intros e b [E|[E|[]]];
        (destruct (Hcalls e b) as (d & Hd & _ & Hrest);
         [auto | exists d; split; [exact Hd | exact Hrest]]).
    + intros e1 b1 e2 b2 d1 d2 [E1|[E1|[]]] [E2|[E2|[]]];
        apply Hmutual; auto.
Defined.


(** X5 at two codes two apart. *)
Lemma estimate_symmetric_witness :
  exists d,
    calculateRideDuration (Some (lit "110001")) (Some (lit "110003")) = Return d
    /\ calculateRideDuration (Some (lit "110003")) (Some (lit "110001")) = Return d
    /\ (d <= 23)%Q.
Proof.
  destruct (estimate_symmetric_bounded (lit "110001") (lit "110003")
              eq_refl eq_refl) as (d & H1 & H2 & H3 & _).
  exists d. split; [exact H1|]. split; [exact H2 | exact H3].
Defined.

(** X6 at the first sample request. *)
Lemma booking_window_bounds_witness :
  exists d,
    calculateRideDuration (Some (lit "110001")) (Some (lit "110002")) = Return d
    /\ isValidDate (calculateEndTime 1875088800000 d) = true
    /\ 1875088800000 + 1800000 <= calculateEndTime 1875088800000 d
       <= 1875088800000 + 82800000.
Proof.
  apply (booking_window_bounds (lit "110001") (lit "110002") 1875088800000
           eq_refl eq_refl eq_refl).
  vm_compute. discriminate.
Defined.

(** X7 at the first sample request, on the ledger without reservations. *)
Lemma commit_succeeds_witness :
  exists b,
    postBooking Sample.castObjectId Sample.parseDate Sample.envA Sample.fleet
      Sample.requestA
    = (Success 201 b, mkStore (vehicles Sample.fleet) (bookings Sample.fleet ++ [b]))
    /\ b_id b = Sample.bookingA /\ status b = confirmed.
Proof.
  destruct (commit_succeeds_iff Sample.castObjectId Sample.parseDate
              Sample.envA Sample.fleet Sample.truckId (lit "110001")
              (lit "110002") (lit "2029-06-02T10:00:00.000Z") (lit "customer-1")
              (v_id Sample.truck) 1875088800000 eq_refl eq_refl eq_refl eq_refl)
    as (d & _ & Hiff & Hdoc).
  eexists. split.
  - apply Hdoc. apply Hiff.
    split; [discriminate|]. split; [discriminate|].
    split; [vm_compute; discriminate|].
    split; [split; vm_compute; [reflexivity | discriminate]|].
    split; [vm_compute; reflexivity|].
    split; [exists Sample.truck; split; [left; reflexivity | split; reflexivity]|].
    intros b [].
  - split; reflexivity.
Defined.

(** X8 at the second sample request, on a ledger that also holds a
    reservation of the small truck. *)
Lemma commit_ignores_witness :
  body_vehicleId Sample.requestB = Some Sample.truckId
  /\ fst (postBooking Sample.castObjectId Sample.parseDate Sample.envB
            Sample.mixed Sample.requestB)
     = fst (postBooking Sample.castObjectId Sample.parseDate Sample.envB
              (mkStore (vehicles Sample.mixed) [Sample.docA]) Sample.requestB).
Proof.
  split; [reflexivity|].
  exact (commit_ignores_other_vehicles Sample.castObjectId Sample.parseDate
           Sample.envB Sample.mixed Sample.requestB Sample.truckId
           (v_id Sample.truck) eq_refl eq_refl).
Defined.

(** X9 at the sample search, which lists the truck from 11:00. *)
Lemma listed_vehicle_witness :
  exists b,
    postBooking Sample.castObjectId Sample.parseDate Sample.envB Sample.afterA
      (mkBookingBody (Some Sample.truckId) (Some (lit "110001"))
         (Some (lit "110003")) (Some (lit "2029-06-02T11:00:00.000Z"))
         (Some (lit "customer-2")))
    = (Success 201 b,
       mkStore (vehicles Sample.afterA) (bookings Sample.afterA ++ [b]))
    /\ vehicleId b = v_id Sample.truck
    /\ startTime b = 1875092400000
    /\ endTime b = 1875099600000.
Proof.
  apply (listed_vehicle_can_be_booked Sample.castObjectId Sample.parseDate
           Sample.parseFloat Sample.now Sample.afterA (lit "500") (lit "110001")
           (lit "110003") (lit "2029-06-02T11:00:00.000Z")
           (mkAvailable
              [mkAvailableVehicle Sample.truck 2 (lit "110001") (lit "110003")
                 1875092400000 1875099600000] 2)
           (mkAvailableVehicle Sample.truck 2 (lit "110001") (lit "110003")
              1875092400000 1875099600000)
           Sample.envB Sample.truckId (lit "customer-2")).
  - vm_compute. reflexivity.
  - left. reflexivity.
  - discriminate.
  - reflexivity.
  - vm_compute. discriminate.
  - split; vm_compute; [reflexivity | discriminate].
  - vm_compute. reflexivity.
Defined.

(** X10 at a start thirteen months after the clock. *)
Lemma search_no_limit_witness :
  (exists av,
     getAvailableVehicles Sample.parseDate Sample.parseFloat
       (clock Sample.envA) Sample.fleet
       (mkAvailableQuery (Some (lit "500")) (Some (lit "110001"))
          (Some (lit "110002")) (Some (lit "2030-07-06T00:00:00.000Z")))
     = Success 200 av)
  /\ postBooking Sample.castObjectId Sample.parseDate Sample.envA Sample.fleet
       (mkBookingBody (Some Sample.truckId) (Some (lit "110001"))
          (Some (lit "110002")) (Some (lit "2030-07-06T00:00:00.000Z"))
          (Some (lit "customer-1")))
     = (ValidationError "Cannot book more than 1 year in advance", Sample.fleet).
Proof.
  apply (search_has_no_one_year_limit Sample.castObjectId Sample.parseDate
           Sample.parseFloat Sample.envA Sample.fleet (lit "500") (lit "110001")
           (lit "110002") (lit "2030-07-06T00:00:00.000Z") 1909526400000
           Sample.truckId (lit "customer-1") (v_id Sample.truck)).
  - discriminate.
  - discriminate.
  - discriminate.
  - discriminate.
  - vm_compute. reflexivity.
  - vm_compute. reflexivity.
  - vm_compute. reflexivity.
  - vm_compute. reflexivity.
  - vm_compute. reflexivity.
  - vm_compute. reflexivity.
  - vm_compute. reflexivity.
  - intros d Hd. vm_compute in Hd. injection Hd as <-. vm_compute. reflexivity.
Defined.

(** X11 at searches for 500 kg and for 1000 kg. *)
Lemma search_monotone_witness :
  exists av1,
    getAvailableVehicles Sample.parseDate Sample.parseFloat Sample.now
      Sample.afterA Sample.search
    = Success 200 av1
    /\ In (mkAvailableVehicle Sample.truck 2 (lit "110001") (lit "110003")
             1875092400000 1875099600000)
         (availableVehicles av1).
Proof.
  destruct (search_monotone_in_capacity Sample.parseDate Sample.parseFloat
              Sample.now Sample.afterA (lit "500") (lit "1000") 500 1000
              (lit "110001") (lit "110003") (lit "2029-06-02T11:00:00.000Z")
              (mkAvailable
                 [mkAvailableVehicle Sample.truck 2 (lit "110001") (lit "110003")
                    1875092400000 1875099600000] 2))
    as (av1 & Hget & _ & Hmem).
  - discriminate.
  - reflexivity.
  - reflexivity.
  - reflexivity.
  - discriminate.
  - intros t d Ht Hd. vm_compute in Ht. injection Ht as <-.
    vm_compute in Hd. injection Hd as <-. vm_compute. reflexivity.
  - vm_compute. reflexivity.
  - exists av1. split; [exact Hget|]. apply Hmem. left. reflexivity.
Defined.

(** X12 at the cancellation of the first sample booking. *)
Lemma status_update_witness :
  patchBookingStatus Sample.castObjectId Sample.afterA Sample.bookingAId
    (Some (lit "cancelled"))
  = (Success 200 (setStatus Sample.docA cancelled),
     mkStore (vehicles Sample.afterA) [setStatus Sample.docA cancelled]).
Proof.
  destruct (status_update_effect Sample.castObjectId Sample.afterA
              Sample.bookingAId (lit "cancelled") Sample.bookingA cancelled
              eq_refl eq_refl) as (_ & H).
  apply (H [] Sample.docA []); [reflexivity | reflexivity | intros x []].
Defined.

(** X13 at the cancellation of the first sample booking. *)
Lemma lookup_after_status_update_witness :
  getBooking Sample.castObjectId
    (snd (patchBookingStatus Sample.castObjectId Sample.afterA
            Sample.bookingAId (Some (lit "cancelled"))))
    Sample.bookingAId
  = Success 200 (populate (vehicles Sample.afterA) (setStatus Sample.docA cancelled)).
Proof.
  apply (lookup_after_status_update Sample.castObjectId Sample.afterA
           Sample.bookingAId (Some (lit "cancelled")) 200).
  vm_compute. reflexivity.
Defined.

(** X14 at the first sample request. *)
Lemma lookup_after_commit_witness :
  exists v,
    In v (vehicles Sample.fleet)
    /\ v_id v = vehicleId Sample.docA
    /\ getBooking Sample.castObjectId
         (snd (postBooking Sample.castObjectId Sample.parseDate Sample.envA
                 Sample.fleet Sample.requestA))
         Sample.bookingAId
       = Success 200 (mkPopulatedBooking Sample.docA (Some (vehicleRef v))).
Proof.
  apply (lookup_after_commit Sample.castObjectId Sample.parseDate Sample.envA
           Sample.fleet Sample.requestA Sample.docA Sample.bookingAId).
  - vm_compute. reflexivity.
  - intros x [].
  - reflexivity.
Defined.

(** X15 at the second sample request, refused because of the first
    booking and accepted once that booking is cancelled. *)
Lemma released_reservation_witness :
  fst (postBooking Sample.castObjectId Sample.parseDate Sample.envB
         Sample.afterA Sample.requestB)
  = ConflictError [conflictInfo Sample.docA]
  /\ isSuccess
       (fst (postBooking Sample.castObjectId Sample.parseDate Sample.envB
               (snd (patchBookingStatus Sample.castObjectId Sample.afterA
                       Sample.bookingAId (Some (lit "cancelled"))))
               Sample.requestB)) = true.
Proof.
  assert (E : fst (postBooking Sample.castObjectId Sample.parseDate Sample.envB
                     Sample.afterA Sample.requestB)
              = ConflictError [conflictInfo Sample.docA])
    by (vm_compute; reflexivity).
  split; [exact E|].
  destruct (released_reservation_frees_slot Sample.castObjectId Sample.parseDate
              Sample.envB Sample.afterA Sample.requestB
              (conflictInfo Sample.docA) Sample.bookingAId (lit "cancelled")
              cancelled) as (_ & H).
  - simpl. constructor; [intros [] | constructor].
  - exact E.
  - reflexivity.
  - reflexivity.
  - reflexivity.
  - apply (H (lit "customer-2") (lit "2029-06-02T10:30:00.000Z") 1875090600000).
    + reflexivity.
    + vm_compute. discriminate.
    + reflexivity.
    + reflexivity.
    + vm_compute. reflexivity.
Defined.

(** X17 at the ledger that holds the first sample booking. *)
Lemma reachable_ledger_witness :
  reachable Sample.castObjectId Sample.parseDate
    (perform Sample.castObjectId Sample.parseDate Sample.fleet
       (commit Sample.envA Sample.requestA))
  /\ wellFormedBooking (vehicles Sample.fleet) Sample.docA.
Proof.
  assert (H : reachable Sample.castObjectId Sample.parseDate
                (perform Sample.castObjectId Sample.parseDate Sample.fleet
                   (commit Sample.envA Sample.requestA)))
    by (apply reachable_step; apply reachable_empty).
  split; [exact H|].
  apply (reachable_ledger_well_formed Sample.castObjectId Sample.parseDate _ H).
  vm_compute. left. reflexivity.
Defined.

(** X19 at a van inserted into the sample fleet and booked at once. *)
Lemma new_vehicle_witness :
  exists b,
    fst (postBooking Sample.castObjectId Sample.parseDate Sample.envA
           (snd (postVehicle Sample.newVanId Sample.fleet Sample.newVan))
           (mkBookingBody (Some Sample.unknownId) (Some (lit "110001"))
              (Some (lit "110002")) (Some (lit "2029-06-02T10:00:00.000Z"))
              (Some (lit "customer-1"))))
    = Success 201 b
    /\ vehicleId b = Sample.newVanId.
Proof.
  apply (new_vehicle_can_be_booked Sample.castObjectId Sample.parseDate
           Sample.newVanId Sample.fleet Sample.newVan
           (mkVehicle Sample.newVanId (lit "New Van") 800 4 true)
           Sample.envA Sample.unknownId (lit "110001") (lit "110002")
           (lit "2029-06-02T10:00:00.000Z") (lit "customer-1") 1875088800000).
  - vm_compute. reflexivity.
  - intros b [].
  - discriminate.
  - discriminate.
  - vm_compute. discriminate.
  - reflexivity.
  - reflexivity.
  - reflexivity.
  - reflexivity.
  - split; vm_compute; [reflexivity | discriminate].
  - vm_compute. reflexivity.
Defined.

(** X20 at the sample fleet: the truck is listed, the deactivated van is
    not. *)
Lemma active_vehicles_witness :
  exists listing,
    getVehicles Sample.newestFirst Sample.fleet = Success 200 listing
    /\ count listing = 1%nat
    /\ In Sample.truck (items listing)
    /\ ~ In Sample.retired (items listing).
Proof.
  destruct (active_vehicles_listed Sample.newestFirst
              (fun A l => Permutation_sym (Permutation_rev l)) Sample.fleet)
    as (listing & Hget & _ & Hcount & Hmem & _).
  exists listing. split; [exact Hget|]. split; [exact Hcount|]. split.
  - apply Hmem. split; [left; reflexivity | reflexivity].
  - intros H. apply Hmem in H. destruct H as [_ H]. discriminate H.
Defined.

(** X22 at the truck booked twice: of its confirmed bookings, only the
    second starts at 10:30 or later. *)
Lemma list_bookings_witness :
  exists listing,
    getBookings Sample.castObjectId Sample.parseDate Sample.castCustomerId
      Sample.newestFirst Sample.bothBooked Sample.listQuery
    = Success 200 listing
    /\ count listing = 1%nat
    /\ In (populate (vehicles Sample.bothBooked) Sample.docB) (items listing)
    /\ ~ In (populate (vehicles Sample.bothBooked) Sample.docA) (items listing).
Proof.
  assert (E : getBookings Sample.castObjectId Sample.parseDate
                Sample.castCustomerId Sample.newestFirst Sample.bothBooked
                Sample.listQuery
              = Success 200
                  (mkListing 1 [populate (vehicles Sample.bothBooked) Sample.docB]))
    by (vm_compute; reflexivity).
  destruct (list_bookings_filters Sample.castObjectId Sample.parseDate
              Sample.castCustomerId Sample.newestFirst
              (fun A l => Permutation_sym (Permutation_rev l))
              Sample.bothBooked Sample.listQuery 200 _ E)
    as (_ & Hcount & Hmem).
  eexists. split; [exact E|]. split; [exact Hcount|]. split.
  - apply Hmem. exists Sample.docB.
    split; [right; left; reflexivity|]. split; [reflexivity|].
    split; [intros c Hg; discriminate Hg|].
    split; [intros v id Hg Hp; injection Hg as <-; injection Hp as <-; reflexivity|].
    split; [intros st s Hg Hp; injection Hg as <-; injection Hp as <-; reflexivity|].
    split; [intros d t Hg Hp; injection Hg as <-; vm_compute in Hp;
            injection Hp as <-; vm_compute; discriminate|].
    intros d t Hg Hp; discriminate Hg.
  - intros H. apply Hmem in H.
    destruct H as (b & _ & Hb & _ & _ & _ & Hstart & _).
    assert (Hd : b = Sample.docA).
    { change (pb_booking (populate (vehicles Sample.bothBooked) b)
              = pb_booking (populate (vehicles Sample.bothBooked) Sample.docA)).
      rewrite Hb. reflexivity. }
    subst b.
    specialize (Hstart (lit "2029-06-02T10:30:00.000Z") 1875090600000
                  eq_refl eq_refl).
    vm_compute in Hstart. apply Hstart. reflexivity.
Defined.

(** X23 at the sample truck. *)
Lemma valid_vehicle_witness :
  validateVehicle Sample.truck = [] /\ vehiclesValidator Sample.truck = true.
Proof.
  assert (H : validateVehicle Sample.truck = []) by (vm_compute; reflexivity).
  split; [exact H|].
  exact (valid_vehicle_passes_collection_validator Sample.truck H).
Defined.

(** X24 at the first sample booking, validated before it starts. *)
Lemma valid_booking_witness :
  validateBooking Sample.now Sample.docA = []
  /\ bookingsValidator Sample.docA = true.
Proof.
  assert (H : validateBooking Sample.now Sample.docA = [])
    by (vm_compute; reflexivity).
  split; [exact H|].
  exact (valid_booking_passes_collection_validator Sample.now Sample.docA H).
Defined.


(** X25 at the first sample request: one hour, no minutes. *)
Lemma stored_duration_witness :
  exists h m,
    durationFormatted Sample.docA = decimal h ++ lit "h " ++ decimal m ++ lit "m"
    /\ 0 <= h <= 23
    /\ (m = 0 \/ m = 30)
    /\ endTime Sample.docA - startTime Sample.docA = (60 * h + m) * 60000.
Proof.
  apply (stored_duration_formatted Sample.castObjectId Sample.parseDate
           Sample.envA Sample.fleet Sample.requestA Sample.docA).
  vm_compute. reflexivity.
Defined.

Example durationFormatted_one_hour :
  durationFormatted Sample.docA = lit "1h 0m".
Proof. vm_compute. reflexivity. Qed.

(** X26 at a search for one hour from the last instant a [Date] can
    hold: the truck has the capacity, and the answer is 500. *)
Lemma search_end_beyond_witness :
  getAvailableVehicles Sample.parseDate Sample.parseFloat Sample.now
    Sample.fleet
    (mkAvailableQuery (Some (lit "500")) (Some (lit "110001"))
       (Some (lit "110002")) (Some (lit "+275760-09-13T00:00:00.000Z")))
  = InternalError "Failed to find available vehicles".
Proof.
  destruct (search_end_beyond_last_date Sample.parseDate Sample.parseFloat
              Sample.now Sample.fleet (lit "500") (lit "110001") (lit "110002")
              (lit "+275760-09-13T00:00:00.000Z") 8640000000000000 1)
    as (H & _).
  - discriminate.
  - discriminate.
  - vm_compute. reflexivity.
  - vm_compute. reflexivity.
  - vm_compute. reflexivity.
  - vm_compute. reflexivity.
  - vm_compute. reflexivity.
  - vm_compute. reflexivity.
  - vm_compute. reflexivity.
  - vm_compute. reflexivity.
  - apply H. exists Sample.truck.
    split; [left; reflexivity|]. split; vm_compute; reflexivity.
Defined.
